(** * Thread management core of the runtime (src/thread.cc)

    A shallow embedding of the parts of [Thread] that the suspend
    protocol, the stack visitors, exception delivery and the reference
    resolver are made of, with the properties proved about them.

    Conventions.
    - Pointers ([Object*], [Method*], [Thread*], [jobject]) are addresses
      in [Z]; [NULL] is [0].
    - [int] is a 32-bit two's complement integer, [useconds_t] and
      [uint32_t] are 32-bit unsigned; the wrap-around is written out
      ([wrap_int], [wrap_u32]).
    - An output stream ([std::ostream], a [LOG] line) is a list of
      [Token]s, one per [<<].
    - Code that can leave other than by returning runs in the monad [M]:
      a state transformer whose result is [Ok] (the call returns),
      [Abort] (the process ends: [LOG(FATAL)], a failed [CHECK]) or
      [LongJump] (control is transferred to another frame); the state
      reached at that point is kept, so what was done before can be
      inspected. *)

From Stdlib Require Import ZArith List String Bool Lia FinFun.
Import ListNotations.

Open Scope string_scope.
Open Scope Z_scope.
Open Scope list_scope.

(** ** Machine integers *)

Definition NULL : Z := 0.

Definition INT_MAX : Z := 2147483647.
Definition INT_MIN : Z := -2147483648.

Definition wrap_int (z : Z) : Z := (z + 2147483648) mod 4294967296 - 2147483648.

Definition wrap_u32 (z : Z) : Z := z mod 4294967296.

(** ** Streams and logging *)

(** The one-character string made of a double quote. *)
Definition double_quote : string :=
  String (Ascii.Ascii false true false false false true false false) EmptyString.

Inductive Token : Type :=
| Str (s : string)
| Num (z : Z)
| Ptr (p : Z).

Inductive Severity : Type := INFO | WARNING | ERROR | FATAL.

Definition LogLine : Type := (Severity * list Token)%type.

(** ** The abort monad *)

Inductive Res (A : Type) : Type :=
| Ok (a : A)
| Abort
| LongJump (sp pc : Z).

Arguments Ok {A} a.
Arguments Abort {A}.
Arguments LongJump {A} sp pc.

Definition M (S A : Type) : Type := S -> Res A * S.

Definition ret {S A : Type} (a : A) : M S A := fun s => (Ok a, s).

Definition bind {S A B : Type} (m : M S A) (k : A -> M S B) : M S B :=
  fun s =>
    match m s with
    | (Ok a, s') => k a s'
    | (Abort, s') => (Abort, s')
    | (LongJump sp pc, s') => (LongJump sp pc, s')
    end.

Definition get {S : Type} : M S S := fun s => (Ok s, s).

Definition modify {S : Type} (f : S -> S) : M S unit := fun s => (Ok tt, f s).

Definition abort {S A : Type} : M S A := fun s => (Abort, s).

Declare Scope monad_scope.
Delimit Scope monad_scope with monad.

Notation "x <- m ;; k" := (bind m (fun x => k))
  (at level 61, m at next level, right associativity) : monad_scope.
Notation "m ;; k" := (bind m (fun _ => k))
  (at level 61, right associativity) : monad_scope.

Open Scope monad_scope.

Definition when {S : Type} (b : bool) (m : M S unit) : M S unit :=
  if b then m else ret tt.

(** ** Thread state *)

(** The values of [ThreadState] (thread.h) that [thread.cc] names. *)
Inductive ThreadState : Type :=
| kTerminated
| kRunnable
| kStarting
| kNative
| kVmWait
| kSuspended.

Definition kThreadNameDuringStartup : string :=
  "<native thread without managed peer>".

(** The machine context used to unwind ([Context], oat/runtime): the
    stack pointer and program counter to resume at, and whether the
    caller-save registers were smashed. *)
Record Context : Type := mkContext {
  SP : Z;
  PC : Z;
  caller_saves_smashed : bool
}.

(** [Context::Create()]. *)
Definition Context_Create : Context :=
  {| SP := 0; PC := 0; caller_saves_smashed := false |}.

(** The fields of [Thread] that the modelled member functions read or
    write; [long_jump_context_] is [None] for [NULL]. *)
Record Thread : Type := mkThread {
  suspend_count_ : Z;
  exception_ : Z;
  state_ : ThreadState;
  long_jump_context_ : option Context;
  throwing_OutOfMemoryError_ : bool;
  debug_suspend_count_ : Z;
  name_ : string
}.

(** [Thread::Thread]: the member initialisers of the fields above. *)
Definition Thread_new : Thread :=
  {| suspend_count_ := 0;
     exception_ := NULL;
     state_ := kNative;
     long_jump_context_ := None;
     throwing_OutOfMemoryError_ := false;
     debug_suspend_count_ := 0;
     name_ := kThreadNameDuringStartup |}.

Definition set_suspend_count_ (v : Z) (t : Thread) : Thread :=
  {| suspend_count_ := v;
     exception_ := exception_ t;
     state_ := state_ t;
     long_jump_context_ := long_jump_context_ t;
     throwing_OutOfMemoryError_ := throwing_OutOfMemoryError_ t;
     debug_suspend_count_ := debug_suspend_count_ t;
     name_ := name_ t |}.

Definition set_exception_ (v : Z) (t : Thread) : Thread :=
  {| suspend_count_ := suspend_count_ t;
     exception_ := v;
     state_ := state_ t;
     long_jump_context_ := long_jump_context_ t;
     throwing_OutOfMemoryError_ := throwing_OutOfMemoryError_ t;
     debug_suspend_count_ := debug_suspend_count_ t;
     name_ := name_ t |}.

Definition set_state_ (v : ThreadState) (t : Thread) : Thread :=
  {| suspend_count_ := suspend_count_ t;
     exception_ := exception_ t;
     state_ := v;
     long_jump_context_ := long_jump_context_ t;
     throwing_OutOfMemoryError_ := throwing_OutOfMemoryError_ t;
     debug_suspend_count_ := debug_suspend_count_ t;
     name_ := name_ t |}.

Definition set_long_jump_context_ (v : option Context) (t : Thread) : Thread :=
  {| suspend_count_ := suspend_count_ t;
     exception_ := exception_ t;
     state_ := state_ t;
     long_jump_context_ := v;
     throwing_OutOfMemoryError_ := throwing_OutOfMemoryError_ t;
     debug_suspend_count_ := debug_suspend_count_ t;
     name_ := name_ t |}.

Definition set_throwing_OutOfMemoryError_ (v : bool) (t : Thread) : Thread :=
  {| suspend_count_ := suspend_count_ t;
     exception_ := exception_ t;
     state_ := state_ t;
     long_jump_context_ := long_jump_context_ t;
     throwing_OutOfMemoryError_ := v;
     debug_suspend_count_ := debug_suspend_count_ t;
     name_ := name_ t |}.

Definition set_debug_suspend_count_ (v : Z) (t : Thread) : Thread :=
  {| suspend_count_ := suspend_count_ t;
     exception_ := exception_ t;
     state_ := state_ t;
     long_jump_context_ := long_jump_context_ t;
     throwing_OutOfMemoryError_ := throwing_OutOfMemoryError_ t;
     debug_suspend_count_ := v;
     name_ := name_ t |}.

Definition set_name_ (v : string) (t : Thread) : Thread :=
  {| suspend_count_ := suspend_count_ t;
     exception_ := exception_ t;
     state_ := state_ t;
     long_jump_context_ := long_jump_context_ t;
     throwing_OutOfMemoryError_ := throwing_OutOfMemoryError_ t;
     debug_suspend_count_ := debug_suspend_count_ t;
     name_ := v |}.

(** [Thread::IsStillStarting]: the name is the last thing to change
    during startup. *)
Definition IsStillStarting (t : Thread) : bool :=
  String.eqb (name_ t) kThreadNameDuringStartup.

(** The locks of [Locks::] as seen by the calling thread: whether it
    holds them. *)
Record LockSet : Type := mkLockSet {
  thread_suspend_count_lock_held : bool;
  mutator_lock_shared_held : bool;
  thread_list_lock_held : bool
}.

(** What the rest of the process decides: the build flavour, whether a
    try-lock succeeds, and what [ThreadList::DumpLocked] prints. *)
Record Runtime : Type := mkRuntime {
  kIsDebugBuild : bool;
  mutator_SharedTryLock_succeeds : bool;
  thread_list_TryLock_succeeds : bool;
  thread_list_dump : list Token
}.

(** The state [ModifySuspendCount] runs in: the thread it is called on
    ([this], at address [this_addr]), the caller's locks and the log. *)
Record World : Type := mkWorld {
  this_addr : Z;
  this : Thread;
  locks : LockSet;
  log : list LogLine
}.

Definition set_this (t : Thread) (w : World) : World :=
  {| this_addr := this_addr w; this := t; locks := locks w; log := log w |}.

Definition set_locks (l : LockSet) (w : World) : World :=
  {| this_addr := this_addr w; this := this w; locks := l; log := log w |}.

Definition LOG (sev : Severity) (msg : list Token) : M World unit :=
  fun w =>
    let w' := {| this_addr := this_addr w; this := this w;
                 locks := locks w; log := log w ++ [(sev, msg)] |} in
    match sev with
    | FATAL => (Abort, w')
    | _ => (Ok tt, w')
    end.

(** [DCHECK(c) << msg]: checked in debug builds only. *)
Definition DCHECK (rt : Runtime) (c : bool) (msg : list Token) : M World unit :=
  if kIsDebugBuild rt then
    (if c then ret tt else LOG FATAL (Str "Check failed: " :: msg))
  else ret tt.

(** ** Suspend accounting *)

Module Suspend.

Section WithRuntime.

Variable rt : Runtime.

(** [UnsafeLogFatalForSuspendCount]: rectify the locks, dump the thread
    list, abort. *)
Definition UnsafeLogFatalForSuspendCount : M World unit :=
  (* Locks::thread_suspend_count_lock_->Unlock(); *)
  modify (fun w => set_locks
    {| thread_suspend_count_lock_held := false;
       mutator_lock_shared_held := mutator_lock_shared_held (locks w);
       thread_list_lock_held := thread_list_lock_held (locks w) |} w) ;;
  (* Locks::mutator_lock_->SharedTryLock(); *)
  modify (fun w => set_locks
    {| thread_suspend_count_lock_held := thread_suspend_count_lock_held (locks w);
       mutator_lock_shared_held :=
         mutator_lock_shared_held (locks w) || mutator_SharedTryLock_succeeds rt;
       thread_list_lock_held := thread_list_lock_held (locks w) |} w) ;;
  w <- get ;;
  when (negb (mutator_lock_shared_held (locks w)))
       (LOG WARNING [Str "Dumping thread list without holding mutator_lock_"]) ;;
  (* Locks::thread_list_lock_->TryLock(); *)
  modify (fun w => set_locks
    {| thread_suspend_count_lock_held := thread_suspend_count_lock_held (locks w);
       mutator_lock_shared_held := mutator_lock_shared_held (locks w);
       thread_list_lock_held :=
         thread_list_lock_held (locks w) || thread_list_TryLock_succeeds rt |} w) ;;
  w <- get ;;
  when (negb (thread_list_lock_held (locks w)))
       (LOG WARNING [Str "Dumping thread list without holding thread_list_lock_"]) ;;
  (* Runtime::Current()->GetThreadList()->DumpLocked(ss); *)
  w <- get ;;
  LOG FATAL (Ptr (this_addr w) :: Str " suspend count already zero.\n"
             :: thread_list_dump rt).

(** [Thread::ModifySuspendCount]. *)
Definition ModifySuspendCount (delta : Z) (for_debugger : bool) : M World unit :=
  w <- get ;;
  DCHECK rt ((delta =? -1) || (delta =? 1)
             || (delta =? wrap_int (- debug_suspend_count_ (this w))))
         [Num delta; Str " "; Num (debug_suspend_count_ (this w)); Str " ";
          Ptr (this_addr w)] ;;
  DCHECK rt (suspend_count_ (this w) >=? debug_suspend_count_ (this w))
         [Ptr (this_addr w)] ;;
  (* Locks::thread_suspend_count_lock_->AssertHeld(); *)
  DCHECK rt (thread_suspend_count_lock_held (locks w))
         [Str "thread_suspend_count_lock_ not held"] ;;
  if (delta =? -1) && (suspend_count_ (this w) <=? 0) then
    (* This is expected if you attach a thread during a GC. *)
    when (negb (IsStillStarting (this w))) UnsafeLogFatalForSuspendCount ;;
    ret tt
  else
    modify (fun w => set_this
      (set_suspend_count_ (wrap_int (suspend_count_ (this w) + delta)) (this w)) w) ;;
    when for_debugger
      (modify (fun w => set_this
         (set_debug_suspend_count_
            (wrap_int (debug_suspend_count_ (this w) + delta)) (this w)) w)).

(** The entry assertions of [ModifySuspendCount], which a debug build
    checks and a release build does not. *)
Definition entry_assertions (d : Z) (w : World) : Prop :=
  kIsDebugBuild rt = true ->
  (d = -1 \/ d = 1 \/ d = wrap_int (- debug_suspend_count_ (this w)))
  /\ debug_suspend_count_ (this w) <= suspend_count_ (this w)
  /\ thread_suspend_count_lock_held (locks w) = true.

(** One call of a sequence of [ModifySuspendCount] calls. *)
Record Call : Type := mkCall {
  delta : Z;
  for_debugger : bool
}.

(** The API contract as stated: [delta] is [+1], [-1] or
    [-debug_suspend_count_], and the suspend-count lock is held. *)
Definition api_contract (w : World) (c : Call) : bool :=
  ((delta c =? 1) || (delta c =? -1)
   || (delta c =? - debug_suspend_count_ (this w)))
  && thread_suspend_count_lock_held (locks w).


(** The worlds after each call of a sequence, in order; a call that
    does not return ends the sequence. *)
Fixpoint run (cs : list Call) (w : World) : list World :=
  match cs with
  | [] => []
  | c :: cs' =>
      match ModifySuspendCount (delta c) (for_debugger c) w with
      | (Ok _, w') => w' :: run cs' w'
      | _ => []
      end
  end.

(** Every call of the sequence respects [contract] in the world it is
    made in. *)
Fixpoint respects (contract : World -> Call -> bool)
    (cs : list Call) (w : World) : bool :=
  match cs with
  | [] => true
  | c :: cs' =>
      contract w c
      && match ModifySuspendCount (delta c) (for_debugger c) w with
         | (Ok _, w') => respects contract cs' w'
         | _ => true
         end
  end.

End WithRuntime.

(** [suspend_count >= debug_suspend_count >= 0]. *)
Definition invariant (t : Thread) : Prop :=
  0 <= debug_suspend_count_ t /\ debug_suspend_count_ t <= suspend_count_ t.

(** Both counters are values of type [int]. *)
Definition counters_are_int (t : Thread) : Prop :=
  INT_MIN <= suspend_count_ t <= INT_MAX
  /\ INT_MIN <= debug_suspend_count_ t <= INT_MAX.

(** A freshly constructed thread, the suspend-count lock held. *)
Definition world0 : World :=
  {| this_addr := 4096;
     this := Thread_new;
     locks := {| thread_suspend_count_lock_held := true;
                 mutator_lock_shared_held := false;
                 thread_list_lock_held := false |};
     log := [] |}.

(** A thread that finished starting (it was given its name) and that
    nobody suspended. *)
Definition started_world : World :=
  {| this_addr := 4096;
     this := set_name_ "main" Thread_new;
     locks := {| thread_suspend_count_lock_held := true;
                 mutator_lock_shared_held := false;
                 thread_list_lock_held := false |};
     log := [] |}.

Definition release_build : Runtime :=
  {| kIsDebugBuild := false;
     mutator_SharedTryLock_succeeds := true;
     thread_list_TryLock_succeeds := true;
     thread_list_dump := [Str "DALVIK THREADS:\n"] |}.

Definition debug_build : Runtime :=
  {| kIsDebugBuild := true;
     mutator_SharedTryLock_succeeds := false;
     thread_list_TryLock_succeeds := true;
     thread_list_dump := [Str "DALVIK THREADS:\n"] |}.

End Suspend.

(** ** Stack walking *)

(** What the object model and the code-generation backend answer about
    a [Method*]; [thread.cc] only calls these. *)
Record ObjectModel : Type := mkObjectModel {
  IsRuntimeMethod : Z -> bool;
  IsNative : Z -> bool;
  IsProxyMethod : Z -> bool;
  (* PrettyMethod(m, false) *)
  PrettyMethod : Z -> string;
  (* m->GetDeclaringClass()->GetDexCache() *)
  GetDexCache : Z -> Z;
  (* class_linker->FindDexFile(dex_cache).GetLineNumFromPC(m, dex_pc) *)
  GetLineNumFromPC : Z -> Z -> Z;
  (* mh.GetDeclaringClassSourceFile(), NULL as None *)
  GetDeclaringClassSourceFile : Z -> option string
}.

(** The interpreter's frame: its reference slots. *)
Record ShadowFrame : Type := mkShadowFrame {
  references_ : list Z
}.

(** What a [StackVisitor] can ask about the frame it is positioned on. *)
Record Frame : Type := mkFrame {
  GetMethod : Z;
  GetDexPc : Z;
  GetFrameId : Z;
  GetCurrentQuickFrame : Z;
  GetCurrentQuickFramePc : Z;
  GetCurrentShadowFrame : option ShadowFrame
}.

(** Modelled from the spec: [StackVisitor::WalkStack] (stack.cc) is not
    in [thread.cc]. The walker produces the frames from innermost to
    outermost in a single pass and, for each, invokes the visitor's
    callback, which answers "continue" ([true]) or "stop" ([false]).
    [frames] is that sequence, innermost first. *)
Fixpoint WalkStack {V : Type} (VisitFrame : Frame -> V -> bool * V)
    (frames : list Frame) (v : V) : V :=
  match frames with
  | [] => v
  | f :: outer =>
      match VisitFrame f v with
      | (true, v') => WalkStack VisitFrame outer v'
      | (false, v') => v'
      end
  end.

(** ** The stack dump visitor *)

Module Dump.

Record StackDumpVisitor : Type := mkStackDumpVisitor {
  os : list Token;
  can_allocate : bool;
  last_method : Z;
  last_line_number : Z;
  repetition_count : Z;
  frame_count : Z
}.

(** The constructor's member initialisers. *)
Definition StackDumpVisitor_new (os0 : list Token) (can_allocate0 : bool)
  : StackDumpVisitor :=
  {| os := os0; can_allocate := can_allocate0; last_method := NULL;
     last_line_number := 0; repetition_count := 0; frame_count := 0 |}.

Definition kMaxRepetition : Z := 3.

Section WithObjectModel.

Variable om : ObjectModel.
(** What [Monitor::DescribeWait(os, thread)] and
    [Monitor::DescribeLocks(os, this)] write. *)
Variable DescribeWait : list Token.
Variable DescribeLocks : Frame -> list Token.

Definition line_number_of (f : Frame) : Z :=
  if GetDexCache om (GetMethod f) =? NULL then -1
  else GetLineNumFromPC om (GetMethod f) (GetDexPc f).

(** What the body of [if (repetition_count < kMaxRepetition)] writes for
    a frame, when [frame_count] frames were counted before it. *)
Definition frame_lines (can_alloc : bool) (count : Z) (f : Frame) : list Token :=
  let m := GetMethod f in
  [Str "  at "; Str (PrettyMethod om m)]
  ++ (if IsNative om m then [Str "(Native method)"]
      else [Str "(";
            Str (match GetDeclaringClassSourceFile om m with
                 | Some source_file => source_file
                 | None => "unavailable"
                 end);
            Str ":"; Num (line_number_of f); Str ")"])
  ++ [Str "\n"]
  ++ (if count =? 0 then DescribeWait else [])
  ++ (if can_alloc then DescribeLocks f else []).

(** [StackDumpVisitor::VisitFrame]. *)
Definition VisitFrame (f : Frame) (v : StackDumpVisitor)
  : bool * StackDumpVisitor :=
  let m := GetMethod f in
  if IsRuntimeMethod om m then (true, v)
  else
    let line_number := line_number_of f in
    let v1 :=
      if (line_number =? last_line_number v) && (last_method v =? m) then
        {| os := os v; can_allocate := can_allocate v;
           last_method := last_method v;
           last_line_number := last_line_number v;
           repetition_count := wrap_int (repetition_count v + 1);
           frame_count := frame_count v |}
      else
        {| os := os v
                 ++ (if repetition_count v >=? kMaxRepetition then
                       [Str "  ... repeated ";
                        Num (wrap_int (repetition_count v - kMaxRepetition));
                        Str " times\n"]
                     else []);
           can_allocate := can_allocate v;
           last_method := m;
           last_line_number := line_number;
           repetition_count := 0;
           frame_count := frame_count v |} in
    let v2 :=
      if repetition_count v1 <? kMaxRepetition then
        {| os := os v1 ++ frame_lines (can_allocate v1) (frame_count v1) f;
           can_allocate := can_allocate v1;
           last_method := last_method v1;
           last_line_number := last_line_number v1;
           repetition_count := repetition_count v1;
           frame_count := frame_count v1 |}
      else v1 in
    (true,
     {| os := os v2; can_allocate := can_allocate v2;
        last_method := last_method v2;
        last_line_number := last_line_number v2;
        repetition_count := repetition_count v2;
        frame_count := wrap_int (frame_count v2 + 1) |}).

(** The dump of a stack: [dumper.WalkStack()] on a fresh visitor. *)
Definition dump (can_alloc : bool) (frames : list Frame) : list Token :=
  os (WalkStack VisitFrame frames (StackDumpVisitor_new [] can_alloc)).

End WithObjectModel.

(** A stack to try the visitor on: [Loop.spin] recursing at line 7 five
    times, called from [Main.main] at line 3. *)
Definition example_om : ObjectModel :=
  {| IsRuntimeMethod := fun _ => false;
     IsNative := fun _ => false;
     IsProxyMethod := fun _ => false;
     PrettyMethod := fun m => if m =? 100 then "Loop.spin" else "Main.main";
     GetDexCache := fun _ => 500;
     GetLineNumFromPC := fun m _ => if m =? 100 then 7 else 3;
     GetDeclaringClassSourceFile := fun _ => None |}.

Definition spin_frame (id : Z) : Frame :=
  {| GetMethod := 100; GetDexPc := 12; GetFrameId := id;
     GetCurrentQuickFrame := 8000 + 64 * id; GetCurrentQuickFramePc := 0;
     GetCurrentShadowFrame := None |}.

Definition main_frame : Frame :=
  {| GetMethod := 200; GetDexPc := 4; GetFrameId := 5;
     GetCurrentQuickFrame := 9000; GetCurrentQuickFramePc := 0;
     GetCurrentShadowFrame := None |}.

Definition five_then_one : list Frame :=
  [spin_frame 0; spin_frame 1; spin_frame 2; spin_frame 3; spin_frame 4;
   main_frame].

End Dump.

(** ** Exception delivery *)

(** What the dex file, the compiled code and the method tracer answer
    during the catch search; [thread.cc] only calls these.
    [TraceMethodUnwindFromCode] is given the frame whose saved return
    address the tracer replaced. *)
Record CodeInfo : Type := mkCodeInfo {
  (* DexFile::kDexNoIndex *)
  kDexNoIndex : Z;
  (* method->FindCatchBlock(to_find, dex_pc) *)
  FindCatchBlock : Z -> Z -> Z -> Z;
  (* method->ToNativePC(dex_pc) *)
  ToNativePC : Z -> Z -> Z;
  (* method->ToDexPC(pc) *)
  ToDexPC : Z -> Z -> Z;
  IsTraceExitPc : Z -> bool;
  TraceMethodUnwindFromCode : Frame -> Z;
  (* *frame, the Method* stored at a quick frame *)
  method_at : Z -> Z
}.

(** What happens to the thread during a delivery, in order. The stack
    walk is recorded with the thread's exception slot as the walk finds
    it: that is what the code under the visitor (class resolution below
    [FindCatchBlock]) sees as the pending exception. *)
Inductive Event : Type :=
| EvClearException
| EvStartAssertNoThreadSuspension (cause : string)
| EvWalkStack (include_transitions : bool) (pending : Z)
| EvPostException (throw_frame_id throw_method throw_dex_pc
                   catch_method handler_dex_pc exception : Z)
| EvSetException (exception : Z)
| EvEndAssertNoThreadSuspension
| EvContextDoLongJump (sp pc : Z).

(** The state a delivery runs in. *)
Record DState : Type := mkDState {
  self : Thread;
  events : list Event;
  dlog : list LogLine
}.

Definition set_self (t : Thread) (s : DState) : DState :=
  {| self := t; events := events s; dlog := dlog s |}.

Definition emit (e : Event) : M DState unit :=
  modify (fun s => {| self := self s; events := events s ++ [e]; dlog := dlog s |}).

Definition LOG_FATAL (msg : list Token) : M DState unit :=
  fun s => (Abort, {| self := self s; events := events s;
                      dlog := dlog s ++ [(FATAL, msg)] |}).

Definition CHECK (c : bool) (msg : list Token) : M DState unit :=
  if c then ret tt else LOG_FATAL (Str "Check failed: " :: msg).

Module Catch.

Record CatchBlockStackVisitor : Type := mkCatchBlockStackVisitor {
  context_ : Context;
  exception_ : Z;
  to_find_ : Z;
  throw_method_ : Z;
  throw_frame_id_ : Z;
  throw_dex_pc_ : Z;
  handler_quick_frame_ : Z;
  handler_quick_frame_pc_ : Z;
  handler_dex_pc_ : Z;
  native_method_count_ : Z;
  method_tracing_active_ : bool
}.

(** The constructor's member initialisers; [to_find] is
    [exception->GetClass()]. *)
Definition CatchBlockStackVisitor_new (context : Context)
    (exception to_find : Z) (tracing : bool) : CatchBlockStackVisitor :=
  {| context_ := context; exception_ := exception; to_find_ := to_find;
     throw_method_ := NULL; throw_frame_id_ := 0; throw_dex_pc_ := 0;
     handler_quick_frame_ := NULL; handler_quick_frame_pc_ := 0;
     handler_dex_pc_ := 0; native_method_count_ := 0;
     method_tracing_active_ := tracing |}.

Section WithCode.

Variable om : ObjectModel.
Variable ci : CodeInfo.

(** The [dex_pc] that [VisitFrame] computes for a frame with a method:
    [kDexNoIndex] for runtime and native methods. *)
Definition dex_pc_of (tracing : bool) (f : Frame) : Z :=
  let method := GetMethod f in
  if IsRuntimeMethod om method then kDexNoIndex ci
  else if IsNative om method then kDexNoIndex ci
  else if tracing && IsTraceExitPc ci (GetCurrentQuickFramePc f) then
    ToDexPC ci method (TraceMethodUnwindFromCode ci f)
  else GetDexPc f.

(** [CatchBlockStackVisitor::VisitFrame]; the [DCHECK] that a runtime
    method is the callee-save method has no effect on the search. *)
Definition VisitFrame (f : Frame) (v : CatchBlockStackVisitor)
  : bool * CatchBlockStackVisitor :=
  let method := GetMethod f in
  if method =? NULL then
    (* This is the upcall, we remember the frame and last pc. *)
    (false,
     {| context_ := context_ v; exception_ := exception_ v;
        to_find_ := to_find_ v; throw_method_ := throw_method_ v;
        throw_frame_id_ := throw_frame_id_ v; throw_dex_pc_ := throw_dex_pc_ v;
        handler_quick_frame_ := GetCurrentQuickFrame f;
        handler_quick_frame_pc_ := GetCurrentQuickFramePc f;
        handler_dex_pc_ := handler_dex_pc_ v;
        native_method_count_ := native_method_count_ v;
        method_tracing_active_ := method_tracing_active_ v |})
  else
    let v1 :=
      if IsRuntimeMethod om method then v
      else
        let first := throw_method_ v =? NULL in
        {| context_ := context_ v; exception_ := exception_ v;
           to_find_ := to_find_ v;
           throw_method_ := if first then method else throw_method_ v;
           throw_frame_id_ := if first then GetFrameId f else throw_frame_id_ v;
           throw_dex_pc_ := if first then GetDexPc f else throw_dex_pc_ v;
           handler_quick_frame_ := handler_quick_frame_ v;
           handler_quick_frame_pc_ := handler_quick_frame_pc_ v;
           handler_dex_pc_ := handler_dex_pc_ v;
           native_method_count_ :=
             if IsNative om method then wrap_u32 (native_method_count_ v + 1)
             else native_method_count_ v;
           method_tracing_active_ := method_tracing_active_ v |} in
    let dex_pc := dex_pc_of (method_tracing_active_ v) f in
    if negb (dex_pc =? kDexNoIndex ci) then
      let found_dex_pc := FindCatchBlock ci method (to_find_ v) dex_pc in
      if negb (found_dex_pc =? kDexNoIndex ci) then
        (false,
         {| context_ := context_ v1; exception_ := exception_ v1;
            to_find_ := to_find_ v1; throw_method_ := throw_method_ v1;
            throw_frame_id_ := throw_frame_id_ v1;
            throw_dex_pc_ := throw_dex_pc_ v1;
            handler_quick_frame_ := GetCurrentQuickFrame f;
            handler_quick_frame_pc_ := ToNativePC ci method found_dex_pc;
            handler_dex_pc_ := found_dex_pc;
            native_method_count_ := native_method_count_ v1;
            method_tracing_active_ := method_tracing_active_ v1 |})
      else (true, v1)
    else (true, v1).

(** A frame whose method's exception table yields a catch block for
    [to_find] covering the frame's program counter. *)
Definition has_handler (to_find : Z) (tracing : bool) (f : Frame) : bool :=
  negb (GetMethod f =? NULL)
  && negb (dex_pc_of tracing f =? kDexNoIndex ci)
  && negb (FindCatchBlock ci (GetMethod f) to_find (dex_pc_of tracing f)
           =? kDexNoIndex ci).

(** A frame that decides the transfer target: the upcall marker, or a
    frame with a handler. *)
Definition decides (to_find : Z) (tracing : bool) (f : Frame) : bool :=
  (GetMethod f =? NULL) || has_handler to_find tracing f.

(** Whether [context_->DoLongJump()] comes back to its caller, which a
    working context never does. *)
Variable jump_returns : bool.

(** Modelled from the spec: [Context::DoLongJump] (oat/runtime) is not
    in [thread.cc]. The non-local jump discards the native frames
    between the throw site and the handler and resumes at the context's
    stack pointer and program counter; the only valid continuation is
    the jumped-to location. *)
Definition Context_DoLongJump (c : Context) : M DState unit :=
  emit (EvContextDoLongJump (SP c) (PC c)) ;;
  if jump_returns then ret tt
  else fun s => (LongJump (SP c) (PC c), s).

(** [context_->f()] after [ReleaseLongJumpContext(context_)]: the thread
    and the visitor point to the same context. *)
Definition update_context (upd : Context -> Context) : M DState unit :=
  modify (fun s =>
    set_self (set_long_jump_context_
                (option_map upd (long_jump_context_ (self s))) (self s)) s).

(** [CatchBlockStackVisitor::DoLongJump]; [kDebugExceptionDelivery] is
    [false]. Reading through a [NULL] [handler_quick_frame_] ends the
    process. *)
Definition DoLongJump (v : CatchBlockStackVisitor) : M DState unit :=
  (* Method* catch_method = *handler_quick_frame_; *)
  CHECK (negb (handler_quick_frame_ v =? NULL)) [Str "SIGSEGV"] ;;
  let catch_method := method_at ci (handler_quick_frame_ v) in
  emit (EvPostException (throw_frame_id_ v) (throw_method_ v) (throw_dex_pc_ v)
                        catch_method (handler_dex_pc_ v) (exception_ v)) ;;
  (* self_->SetException(exception_);  Exception back in root set. *)
  emit (EvSetException (exception_ v)) ;;
  modify (fun s => set_self (set_exception_ (exception_ v) (self s)) s) ;;
  emit EvEndAssertNoThreadSuspension ;;
  (* self_->ReleaseLongJumpContext(context_); *)
  modify (fun s => set_self (set_long_jump_context_ (Some (context_ v)) (self s)) s) ;;
  update_context (fun c =>
    {| SP := handler_quick_frame_ v; PC := PC c;
       caller_saves_smashed := caller_saves_smashed c |}) ;;
  CHECK (negb (handler_quick_frame_pc_ v =? 0))
        [Str "handler_quick_frame_pc_ != 0u"] ;;
  update_context (fun c =>
    {| SP := SP c; PC := handler_quick_frame_pc_ v;
       caller_saves_smashed := caller_saves_smashed c |}) ;;
  update_context (fun c =>
    {| SP := SP c; PC := PC c; caller_saves_smashed := true |}) ;;
  s <- get ;;
  match long_jump_context_ (self s) with
  | Some c => Context_DoLongJump c
  | None => abort
  end.

End WithCode.

End Catch.

Module Delivery.

Section WithCode.

Variable om : ObjectModel.
Variable ci : CodeInfo.
Variable jump_returns : bool.
(** [exception->GetClass()] and [Runtime::IsMethodTracingActive()]. *)
Variable GetClass : Z -> Z.
Variable IsMethodTracingActive : bool.

(** [Thread::GetLongJumpContext]. *)
Definition GetLongJumpContext : M DState Context :=
  s <- get ;;
  match long_jump_context_ (self s) with
  | None => ret Context_Create
  | Some result =>
      (* Avoid context being shared. *)
      modify (fun s => set_self (set_long_jump_context_ None (self s)) s) ;;
      ret result
  end.

(** [Thread::DeliverException], on the stack [frames] (innermost first,
    the upcall markers included: [WalkStack(true)]). *)
Definition DeliverException (frames : list Frame) : M DState unit :=
  s <- get ;;
  let exception := exception_ (self s) in
  CHECK (negb (exception =? NULL)) [Str "exception != NULL"] ;;
  (* Don't leave exception visible while we try to find the handler. *)
  emit EvClearException ;;
  modify (fun s => set_self (set_exception_ NULL (self s)) s) ;;
  (* CatchBlockStackVisitor catch_finder(this, exception); *)
  context <- GetLongJumpContext ;;
  emit (EvStartAssertNoThreadSuspension "Finding catch block") ;;
  let catch_finder :=
    Catch.CatchBlockStackVisitor_new context exception (GetClass exception)
                                     IsMethodTracingActive in
  (* catch_finder.WalkStack(true); the event keeps the exception slot that
     the search runs with. *)
  searching <- get ;;
  emit (EvWalkStack true (exception_ (self searching))) ;;
  let catch_finder := WalkStack (Catch.VisitFrame om ci) frames catch_finder in
  Catch.DoLongJump ci jump_returns catch_finder ;;
  LOG_FATAL [Str "UNREACHABLE"].

End WithCode.

End Delivery.

(** A stack to try the catch search on: three managed frames ([inner_f]
    innermost, then [middle_f], then [outer_f]) above the upcall marker. *)
Module Scenario.

Definition plain_om : ObjectModel :=
  {| IsRuntimeMethod := fun _ => false;
     IsNative := fun _ => false;
     IsProxyMethod := fun _ => false;
     PrettyMethod := fun _ => "m";
     GetDexCache := fun _ => 500;
     GetLineNumFromPC := fun _ pc => pc;
     GetDeclaringClassSourceFile := fun _ => None |}.

Definition frame_of (method dex_pc id : Z) : Frame :=
  {| GetMethod := method; GetDexPc := dex_pc; GetFrameId := id;
     GetCurrentQuickFrame := 9000 + 64 * id;
     GetCurrentQuickFramePc := 5000 + id;
     GetCurrentShadowFrame := None |}.

Definition inner_f : Frame := frame_of 100 5 0.
Definition middle_f : Frame := frame_of 200 11 1.
Definition outer_f : Frame := frame_of 300 23 2.
Definition upcall_f : Frame := frame_of NULL 0 3.

Definition stack : list Frame := [inner_f; middle_f; outer_f; upcall_f].

(** Only the method of [outer_f] (300) declares a handler, at dex pc 40. *)
Definition only_outer_catches : CodeInfo :=
  {| kDexNoIndex := 4294967295;
     FindCatchBlock := fun method _ _ => if method =? 300 then 40 else 4294967295;
     ToNativePC := fun method dex_pc => 70000 + method + dex_pc;
     ToDexPC := fun _ pc => pc;
     IsTraceExitPc := fun _ => false;
     TraceMethodUnwindFromCode := fun _ => 0;
     method_at := fun frame => if frame =? 9128 then 300 else
                               if frame =? 9064 then 200 else
                               if frame =? 9000 then 100 else NULL |}.

(** The methods of [middle_f] (200, handler at 30) and of [outer_f] (300,
    handler at 40) both declare one. *)
Definition two_catch : CodeInfo :=
  {| kDexNoIndex := 4294967295;
     FindCatchBlock := fun method _ _ =>
       if method =? 300 then 40 else if method =? 200 then 30 else 4294967295;
     ToNativePC := fun method dex_pc => 70000 + method + dex_pc;
     ToDexPC := fun _ pc => pc;
     IsTraceExitPc := fun _ => false;
     TraceMethodUnwindFromCode := fun _ => 0;
     method_at := fun frame => if frame =? 9128 then 300 else
                               if frame =? 9064 then 200 else
                               if frame =? 9000 then 100 else NULL |}.

(** No method declares a handler. *)
Definition nobody_catches : CodeInfo :=
  {| kDexNoIndex := 4294967295;
     FindCatchBlock := fun _ _ _ => 4294967295;
     ToNativePC := fun method dex_pc => 70000 + method + dex_pc;
     ToDexPC := fun _ pc => pc;
     IsTraceExitPc := fun _ => false;
     TraceMethodUnwindFromCode := fun _ => 0;
     method_at := fun _ => NULL |}.

Definition finder : Catch.CatchBlockStackVisitor :=
  Catch.CatchBlockStackVisitor_new Context_Create 777 42 false.

(** A thread whose pending exception is the object at 777. *)
Definition throwing : DState :=
  {| self := set_exception_ 777 Thread_new; events := []; dlog := [] |}.

End Scenario.

(** ** The reference resolver *)

Module Decode.

Inductive IndirectRefKind : Type :=
| kSirtOrInvalid
| kLocal
| kGlobal
| kWeakGlobal.

(** The reference tables and constants of jni_internal.h and
    indirect_reference_table.h, which [thread.cc] only uses:
    [Get] of each table, the kind tag of a handle, the two sentinel
    objects, and what [SirtContains] and the read from the SIRT give. *)
Record JniTables : Type := mkJniTables {
  GetIndirectRefKind : Z -> IndirectRefKind;
  locals_Get : Z -> Z;
  globals_Get : Z -> Z;
  weak_globals_Get : Z -> Z;
  kClearedJniWeakGlobal : Z;
  kInvalidIndirectRefObject : Z;
  SirtContains : Z -> bool;
  (* *reinterpret_cast<Object**>(obj) *)
  sirt_entry : Z -> Z;
  work_around_app_jni_bugs : bool;
  CanAccessDirectReferences : bool;
  (* ToStr<IndirectRefKind>(kind) *)
  ToStr : IndirectRefKind -> string;
  (* whether Heap::VerifyObject(obj) finds the heap consistent *)
  heap_is_consistent_at : Z -> bool
}.

Inductive JEvent : Type :=
| JLock (mutex : string)
| JUnlock (mutex : string)
| JVerifyObject (obj : Z)
| JJniAbort (msg : list Token).

Record JState : Type := mkJState {
  jevents : list JEvent;
  jlog : list LogLine
}.

Definition jemit (e : JEvent) : M JState unit :=
  modify (fun s => {| jevents := jevents s ++ [e]; jlog := jlog s |}).

Definition jfatal (msg : list Token) : M JState unit :=
  fun s => (Abort, {| jevents := jevents s; jlog := jlog s ++ [(FATAL, msg)] |}).

Section WithTables.

Variable debug : bool.
Variable jt : JniTables.

(** Modelled from the spec: [JniAbortF] (jni_internal.cc) is not in
    [thread.cc]. Resolution to a null object pointer is a fatal "use of
    stale reference" error: the message is reported and the process
    ends. *)
Definition JniAbortF (msg : list Token) : M JState unit :=
  jemit (JJniAbort msg) ;; abort.

(** Modelled from the spec: [Heap::VerifyObject] (heap.cc) is not in
    [thread.cc]. A heap consistency check on the resolved object: it
    comes back when the heap is consistent there and ends the process
    otherwise. *)
Definition VerifyObject (obj : Z) : M JState unit :=
  jemit (JVerifyObject obj) ;;
  if heap_is_consistent_at jt obj then ret tt
  else jfatal [Str "Heap corruption at "; Ptr obj].

(** The [switch] of [DecodeJObject]: [None] for the [return NULL] of the
    cleared weak global, [Some result] where the case breaks. A
    [MutexLock] is released at the end of its block. *)
Definition lookup (obj : Z) (kind : IndirectRefKind) : M JState (option Z) :=
  match kind with
  | kLocal => ret (Some (locals_Get jt obj))
  | kGlobal =>
      jemit (JLock "globals_lock") ;;
      let result := globals_Get jt obj in
      jemit (JUnlock "globals_lock") ;;
      ret (Some result)
  | kWeakGlobal =>
      jemit (JLock "weak_globals_lock") ;;
      let result := weak_globals_Get jt obj in
      if result =? kClearedJniWeakGlobal jt then
        (* This is a special case where it's okay to return NULL. *)
        jemit (JUnlock "weak_globals_lock") ;;
        ret None
      else
        jemit (JUnlock "weak_globals_lock") ;;
        ret (Some result)
  | kSirtOrInvalid =>
      if SirtContains jt obj then ret (Some (sirt_entry jt obj))
      else if work_around_app_jni_bugs jt then
        (* Assume an invalid local reference is actually a direct pointer. *)
        ret (Some obj)
      else ret (Some (kInvalidIndirectRefObject jt))
  end.

(** [Thread::DecodeJObject]. *)
Definition DecodeJObject (obj : Z) : M JState Z :=
  (if debug && negb (CanAccessDirectReferences jt)
   then jfatal [Str "Check failed: CanAccessDirectReferences()"]
   else ret tt) ;;
  if obj =? NULL then ret NULL
  else
    let kind := GetIndirectRefKind jt obj in
    r <- lookup obj kind ;;
    match r with
    | None => ret NULL
    | Some result =>
        (if result =? NULL then
           JniAbortF [Str "use of deleted "; Str (ToStr jt kind); Str " "; Ptr obj]
         else
           when (negb (result =? kInvalidIndirectRefObject jt))
                (VerifyObject result)) ;;
        ret result
    end.

(** What the table of a recognized kind holds for a handle. *)
Definition table_entry (obj : Z) : Z :=
  match GetIndirectRefKind jt obj with
  | kLocal => locals_Get jt obj
  | kGlobal => globals_Get jt obj
  | kWeakGlobal => weak_globals_Get jt obj
  | kSirtOrInvalid => NULL
  end.

(** The lock events of a lookup in the table of a kind. *)
Definition lock_events (kind : IndirectRefKind) : list JEvent :=
  match kind with
  | kGlobal => [JLock "globals_lock"; JUnlock "globals_lock"]
  | kWeakGlobal => [JLock "weak_globals_lock"; JUnlock "weak_globals_lock"]
  | _ => []
  end.

End WithTables.

(** Tables to try the resolver on: the kind is the low two bits of the
    handle; the weak global 19 was cleared, the global 18 was deleted,
    the local 17 refers to the object at 4096. *)
Definition example_tables : JniTables :=
  {| GetIndirectRefKind := fun ref =>
       match Z.land ref 3 with
       | 1 => kLocal | 2 => kGlobal | 3 => kWeakGlobal | _ => kSirtOrInvalid
       end;
     locals_Get := fun ref => if ref =? 17 then 4096 else 3735896865;
     globals_Get := fun _ => NULL;
     weak_globals_Get := fun _ => 3735884340;
     kClearedJniWeakGlobal := 3735884340;
     kInvalidIndirectRefObject := 3735896865;
     SirtContains := fun _ => false;
     sirt_entry := fun _ => NULL;
     work_around_app_jni_bugs := false;
     CanAccessDirectReferences := true;
     ToStr := fun k => match k with
                       | kSirtOrInvalid => "SIRT or invalid reference"
                       | kLocal => "local reference"
                       | kGlobal => "global reference"
                       | kWeakGlobal => "weak global reference"
                       end;
     heap_is_consistent_at := fun _ => true |}.

Definition state0 : JState := {| jevents := []; jlog := [] |}.

End Decode.

(** ** Throwing OutOfMemoryError *)

Module Oom.

Section WithRuntime.

(** [Runtime::Current()->GetPreAllocatedOutOfMemoryError()]. *)
Variable preallocated_OOME : Z.
(** What [Thread::Dump] writes to the stream it is given. *)
Variable Dump : Thread -> list Token.
(** [Thread::ThrowNewWrappedException]: the JNI calls it is made of
    ([FindClass], [AllocObject], [ThrowNew]) run code that [thread.cc]
    does not contain, allocate, and so may call
    [ThrowOutOfMemoryError] again before they come back. *)
Variable ThrowNewWrappedException : string -> string -> M World unit.

(** [Thread::AssertNoPendingException]. *)
Definition AssertNoPendingException : M World unit :=
  w <- get ;;
  when (negb (exception_ (this w) =? NULL))
       (LOG FATAL [Str "No pending exception expected: "; Ptr (exception_ (this w))]).

(** [Thread::ThrowNewException]. *)
Definition ThrowNewException (exception_class_descriptor msg : string)
  : M World unit :=
  (* Callers should either clear or call ThrowNewWrappedException. *)
  AssertNoPendingException ;;
  ThrowNewWrappedException exception_class_descriptor msg.

(** Modelled from the spec: [Thread::SetException] (thread.h) is not in
    [thread.cc]. The exception slot holds at most one pending exception
    reference at a time; setting it replaces what was pending. *)
Definition SetException (new_exception : Z) : M World unit :=
  modify (fun w => set_this (set_exception_ new_exception (this w)) w).

(** [Thread::ThrowOutOfMemoryError]. *)
Definition ThrowOutOfMemoryError (msg : string) : M World unit :=
  w <- get ;;
  LOG ERROR [Str "Throwing OutOfMemoryError "; Str double_quote; Str msg;
             Str double_quote;
             Str (if throwing_OutOfMemoryError_ (this w)
                  then " (recursive case)" else EmptyString)] ;;
  (if negb (throwing_OutOfMemoryError_ (this w)) then
     modify (fun w => set_this (set_throwing_OutOfMemoryError_ true (this w)) w) ;;
     ThrowNewException "Ljava/lang/OutOfMemoryError;" msg
   else
     (* The pre-allocated OOME has no stack, so help out and log one. *)
     w <- get ;;
     LOG ERROR (Dump (this w)) ;;
     SetException preallocated_OOME) ;;
  modify (fun w => set_this (set_throwing_OutOfMemoryError_ false (this w)) w).

End WithRuntime.

(** A thread with nothing pending, in or out of a throw of
    OutOfMemoryError. *)
Definition world_of (throwing : bool) : World :=
  {| this_addr := 4096;
     this := set_throwing_OutOfMemoryError_ throwing Thread_new;
     locks := {| thread_suspend_count_lock_held := false;
                 mutator_lock_shared_held := true;
                 thread_list_lock_held := false |};
     log := [] |}.

Definition short_dump (t : Thread) : list Token := [Str "(no managed stack frames)"].

(** A [ThrowNewWrappedException] whose allocation of the exception
    object fails: the heap calls [ThrowOutOfMemoryError] on the thread,
    and nothing else is done. *)
Definition exhausted_heap (descriptor msg : string) : M World unit :=
  ThrowOutOfMemoryError 999 short_dump (fun _ _ => abort)
                        "Failed to allocate the exception".

End Oom.

(** ** The GC root visitor *)

Module Roots.

(** What the verifier's GC map, the vmap table, the code item and the
    frame layout answer for a method, and what the walker reads from the
    machine context and the stack; [thread.cc] only calls these. *)
Record GcInfo : Type := mkGcInfo {
  GetGcMap : Z -> Z;
  GetGcMapLength : Z -> Z;
  (* verifier::PcToReferenceMap(gc_map, gc_map_length).RegWidth() *)
  RegWidth : Z -> Z;
  (* map.FindBitMap(dex_pc): the bytes of the bitmap, NULL as None *)
  FindBitMap : Z -> Z -> option (list Z);
  (* vmap_table.IsInContext(reg, vmap_offset): the offset when true *)
  IsInContext : Z -> Z -> option Z;
  (* code_item->registers_size_ *)
  registers_size_ : Z -> Z;
  GetCoreSpillMask : Z -> Z;
  GetFpSpillMask : Z -> Z;
  GetFrameSizeInBytes : Z -> Z;
  (* GetGPR(reg), from the machine context *)
  GetGPR : Z -> Z;
  (* GetVReg(cur_quick_frame, code_item, core_spills, fp_spills,
             frame_size, vreg) *)
  GetVReg : Z -> Z -> Z -> Z -> Z -> Z -> Z;
  (* the callbacks shadow_frame->VisitRoots(visitor, arg) makes *)
  ShadowFrame_VisitRoots : ShadowFrame -> list Z
}.

(** The visitor's effect: the references handed to [root_visitor_], in
    order, and the log. *)
Record RState : Type := mkRState {
  roots : list Z;
  rlog : list LogLine
}.

(** [root_visitor_(ref, arg_)]. *)
Definition root_visitor_ (ref : Z) : M RState unit :=
  modify (fun s => {| roots := roots s ++ [ref]; rlog := rlog s |}).

Definition RCHECK (c : bool) (msg : list Token) : M RState unit :=
  if c then ret tt
  else fun s => (Abort, {| roots := roots s;
                           rlog := rlog s ++ [(FATAL, Str "Check failed: " :: msg)] |}).

(** [for (x : xs) body(x)]. *)
Fixpoint for_each {S A : Type} (body : A -> M S unit) (xs : list A) : M S unit :=
  match xs with
  | [] => ret tt
  | x :: rest => body x ;; for_each body rest
  end.

(** The values [0, 1, ..., n-1] of a loop counter. *)
Definition counter_values (n : Z) : list Z :=
  map Z.of_nat (seq 0 (Z.to_nat n)).

(** [TestBitmap]. *)
Definition TestBitmap (reg : Z) (reg_vector : list Z) : bool :=
  negb (Z.land (Z.shiftr (nth (Z.to_nat (reg / 8)) reg_vector 0) (reg mod 8)) 1 =? 0).

(** [__builtin_popcount] of the low [bits] bits. *)
Fixpoint popcount (bits : nat) (x : Z) : Z :=
  match bits with
  | O => 0
  | S n => Z.land x 1 + popcount n (Z.shiftr x 1)
  end.

(** The loop [while (matches != (vmap_offset + 1))] of [VisitFrame], run
    for at most [fuel] iterations; [target] is [vmap_offset + 1]. *)
Fixpoint spill_loop (fuel : nat) (target matches spill_mask spill_shifts : Z)
  : option Z :=
  if matches =? target then Some spill_shifts
  else
    match fuel with
    | O => None
    | S n =>
        spill_loop n target
          (wrap_u32 (matches + Z.land spill_mask 1))  (* Add 1 if the low bit is set *)
          (Z.shiftr spill_mask 1)
          (wrap_u32 (spill_shifts + 1))
    end.

(** The register to load from the context: the loop, then
    [spill_shifts--]. A [uint32_t] mask is empty after 32 shifts. *)
Definition spill_register (core_spills vmap_offset : Z) : option Z :=
  match spill_loop 32 (wrap_u32 (vmap_offset + 1)) 0 core_spills 0 with
  | Some spill_shifts => Some (wrap_u32 (spill_shifts - 1))
  | None => None
  end.

Section WithCode.

Variable om : ObjectModel.
Variable gi : GcInfo.

(** The body of [if (TestBitmap(reg, reg_bitmap))]: the reference the
    register holds, read from the context or from the frame. The loop
    cannot go on past the [CHECK_LT] before it ([spill_register_total]);
    where the model's bound is reached the call ends. *)
Definition load_reference (f : Frame) (reg : Z) : M RState Z :=
  let m := GetMethod f in
  let core_spills := GetCoreSpillMask gi m in
  match IsInContext gi m reg with
  | Some vmap_offset =>
      (* Compute the register we need to load from the context *)
      RCHECK (vmap_offset <? popcount 32 core_spills)
             [Str "vmap_offset < popcount(spill_mask)"] ;;
      match spill_register core_spills vmap_offset with
      | Some spill_shifts => ret (GetGPR gi spill_shifts)
      | None => abort
      end
  | None =>
      ret (GetVReg gi (GetCurrentQuickFrame f) m core_spills (GetFpSpillMask gi m)
                   (GetFrameSizeInBytes gi m) reg)
  end.

(** The body of the loop over the dex registers. *)
Definition visit_register (f : Frame) (reg_bitmap : list Z) (reg : Z)
  : M RState unit :=
  (* Does this register hold a reference? *)
  if TestBitmap reg reg_bitmap then
    ref <- load_reference f reg ;;
    when (negb (ref =? NULL)) (root_visitor_ ref)
  else ret tt.

(** [ReferenceMapVisitor::VisitFrame]. *)
Definition VisitFrame (f : Frame) : M RState bool :=
  match GetCurrentShadowFrame f with
  | Some shadow_frame =>
      for_each root_visitor_ (ShadowFrame_VisitRoots gi shadow_frame) ;;
      ret true
  | None =>
      let m := GetMethod f in
      (* Process register map (which native and runtime methods don't have) *)
      (if negb (IsNative om m) && negb (IsRuntimeMethod om m)
          && negb (IsProxyMethod om m) then
         RCHECK (negb (GetGcMap gi m =? NULL)) [Str "gc_map != NULL"] ;;
         RCHECK (negb (GetGcMapLength gi m =? 0)) [Str "0U != gc_map_length"] ;;
         match FindBitMap gi m (GetDexPc f) with
         | None => RCHECK false [Str "reg_bitmap != NULL"]
         | Some reg_bitmap =>
             (* For all dex registers in the bitmap *)
             let num_regs := Z.min (RegWidth gi m * 8) (registers_size_ gi m) in
             for_each (visit_register f reg_bitmap) (counter_values num_regs)
         end
       else ret tt) ;;
      ret true
  end.

(** The reference a marked register holds, once the checks pass. *)
Definition reference_in (f : Frame) (reg : Z) : Z :=
  let m := GetMethod f in
  match IsInContext gi m reg with
  | Some vmap_offset =>
      match spill_register (GetCoreSpillMask gi m) vmap_offset with
      | Some r => GetGPR gi r
      | None => NULL
      end
  | None =>
      GetVReg gi (GetCurrentQuickFrame f) m (GetCoreSpillMask gi m)
              (GetFpSpillMask gi m) (GetFrameSizeInBytes gi m) reg
  end.

(** The registers of a frame that are marked in the bitmap and hold a
    non-null reference: the live references. *)
Definition live_registers (f : Frame) (reg_bitmap : list Z) : list Z :=
  filter (fun reg => TestBitmap reg reg_bitmap && negb (reference_in f reg =? NULL))
         (counter_values (Z.min (RegWidth gi (GetMethod f) * 8)
                                (registers_size_ gi (GetMethod f)))).

(** The checks of [VisitFrame] pass on a compiled frame: the method has
    a GC map with a bitmap for the frame's pc, and the vmap offset of
    each marked register kept in the context is below the number of
    spilled core registers. *)
Definition checks_pass (f : Frame) (reg_bitmap : list Z) : Prop :=
  let m := GetMethod f in
  GetGcMap gi m <> NULL
  /\ GetGcMapLength gi m <> 0
  /\ FindBitMap gi m (GetDexPc f) = Some reg_bitmap
  /\ forall reg vmap_offset,
       TestBitmap reg reg_bitmap = true ->
       IsInContext gi m reg = Some vmap_offset ->
       0 <= vmap_offset < popcount 32 (GetCoreSpillMask gi m).

End WithCode.

(** A compiled frame to try the visitor on: four dex registers, bitmap
    [0b1011]; register 0 is in the context at vmap offset 1 of the spill
    mask [0b10100000] (so in r7), registers 1 and 3 are in the frame;
    register 1 holds null, register 2 (unmarked) holds a stale pointer. *)
Definition example_gi : GcInfo :=
  {| GetGcMap := fun _ => 640;
     GetGcMapLength := fun _ => 12;
     RegWidth := fun _ => 1;
     FindBitMap := fun _ _ => Some [11];
     IsInContext := fun _ reg => if reg =? 0 then Some 1 else None;
     registers_size_ := fun _ => 4;
     GetCoreSpillMask := fun _ => 160;
     GetFpSpillMask := fun _ => 0;
     GetFrameSizeInBytes := fun _ => 64;
     GetGPR := fun r => if r =? 7 then 7777 else 0;
     GetVReg := fun _ _ _ _ _ reg =>
       if reg =? 1 then NULL else if reg =? 2 then 2222 else 3333;
     ShadowFrame_VisitRoots := fun sf => filter (fun r => negb (r =? NULL)) (references_ sf) |}.

Definition example_om : ObjectModel :=
  {| IsRuntimeMethod := fun _ => false;
     IsNative := fun _ => false;
     IsProxyMethod := fun _ => false;
     PrettyMethod := fun _ => "m";
     GetDexCache := fun _ => 500;
     GetLineNumFromPC := fun _ pc => pc;
     GetDeclaringClassSourceFile := fun _ => None |}.

Definition compiled_frame : Frame :=
  {| GetMethod := 100; GetDexPc := 5; GetFrameId := 0;
     GetCurrentQuickFrame := 9000; GetCurrentQuickFramePc := 5000;
     GetCurrentShadowFrame := None |}.

Definition rstate0 : RState := {| roots := []; rlog := [] |}.

End Roots.

(** ** Suspending a thread for the debugger *)

Module Debugger.

(** What the calling thread does between two polls. *)
Inductive Pause : Type :=
| sched_yield
| usleep (us : Z).

(** The state [SuspendForDebugger] runs in: the target thread, the
    caller's locks and the log ([world]), and the pauses made so far. *)
Record DbgState : Type := mkDbgState {
  world : World;
  pauses : list Pause
}.

Definition lift {A : Type} (m : M World A) : M DbgState A :=
  fun s =>
    let (r, w) := m (world s) in
    (r, {| world := w; pauses := pauses s |}).

Definition pause (p : Pause) : M DbgState unit :=
  modify (fun s => {| world := world s; pauses := pauses s ++ [p] |}).

Definition kTimeoutUs : Z := 30 * 1000000.

(** What [return thread] / [return NULL] and [*timeout] are when the
    call returns. *)
Record Returned : Type := mkReturned {
  result : Z;
  timeout : bool
}.

Section WithRuntime.

Variable rt : Runtime.
(** [Thread::FromManagedThread(soa, peer) != NULL] at the poll of the
    given number, and [thread->IsSuspended()] there (thread.h); no other
    thread changes the target's counters while the call runs. *)
Variable FromManagedThread : nat -> bool.
Variable IsSuspended : nat -> Thread -> bool.
(** [thread == soa.Self()]. *)
Variable target_is_self : bool.

(** Entering the block: [ScopedObjectAccess] takes a share of the
    mutator lock and the [MutexLock] on [Locks::thread_list_lock_] the
    thread list lock. *)
Definition enter_block : M DbgState unit :=
  lift (modify (fun w => set_locks
    {| thread_suspend_count_lock_held := thread_suspend_count_lock_held (locks w);
       mutator_lock_shared_held := true;
       thread_list_lock_held := true |} w)).

(** The [MutexLock] on [Locks::thread_suspend_count_lock_]. *)
Definition lock_suspend_count : M DbgState unit :=
  lift (modify (fun w => set_locks
    {| thread_suspend_count_lock_held := true;
       mutator_lock_shared_held := mutator_lock_shared_held (locks w);
       thread_list_lock_held := thread_list_lock_held (locks w) |} w)).

(** Leaving it (by the closing braces or by a [return]): the locks are
    released and the mutator lock is as it was before. *)
Definition leave_block (before : LockSet) : M DbgState unit :=
  lift (modify (set_locks {| thread_suspend_count_lock_held := false;
                             mutator_lock_shared_held := mutator_lock_shared_held before;
                             thread_list_lock_held := false |})).

(** The loop over the mutex levels, from [kMaxMutexLevel] down: a held
    mutex is fatal. *)
Definition check_no_mutex_held : M DbgState unit :=
  s <- get ;;
  let l := locks (world s) in
  let fatal name :=
    lift (LOG FATAL [Str "Holding "; Str name;
                     Str " while sleeping for thread suspension"]) in
  if mutator_lock_shared_held l then fatal "mutator_lock_"
  else if thread_list_lock_held l then fatal "thread_list_lock_"
  else if thread_suspend_count_lock_held l then fatal "thread_suspend_count_lock_"
  else ret tt.

(** The body of [while (true)], at most [fuel] times; [poll] counts the
    iterations. [None] is returned where the model's bound is reached. *)
Fixpoint loop (fuel : nat) (poll : nat) (peer : Z)
    (request_suspension did_suspend_request : bool)
    (total_delay_us delay_us : Z) : M DbgState (option Returned) :=
  match fuel with
  | O => ret None
  | S fuel' =>
      s0 <- get ;;
      let before := locks (world s0) in
      enter_block ;;
      if negb (FromManagedThread poll) then
        lift (LOG WARNING [Str "No such thread for suspend: "; Ptr peer]) ;;
        leave_block before ;;
        ret (Some {| result := NULL; timeout := false |})
      else
        lock_suspend_count ;;
        when request_suspension
             (lift (Suspend.ModifySuspendCount rt 1 true)) ;;
        let did_suspend_request := did_suspend_request || request_suspension in
        (if target_is_self then
           lift (LOG FATAL [Str "Check failed: thread != soa.Self() ";
                            Str "Attempt to suspend for debugger the current thread"])
         else ret tt) ;;
        s <- get ;;
        if IsSuspended poll (this (world s)) then
          leave_block before ;;
          ret (Some {| result := this_addr (world s); timeout := false |})
        else if total_delay_us >=? kTimeoutUs then
          lift (LOG ERROR [Str "Thread suspension timed out: "; Ptr peer]) ;;
          when did_suspend_request
               (lift (Suspend.ModifySuspendCount rt (-1) true)) ;;
          leave_block before ;;
          ret (Some {| result := NULL; timeout := true |})
        else
          (* Release locks and come out of runnable state. *)
          leave_block before ;;
          check_no_mutex_held ;;
          let new_delay_us := wrap_u32 (delay_us * 2) in
          (if new_delay_us >=? delay_us then ret tt
           else lift (LOG FATAL [Str "Check failed: new_delay_us >= delay_us"])) ;;
          (* Don't allow sleeping to be more than 0.5s. *)
          let delay_us := if new_delay_us <? 500000 then new_delay_us else delay_us in
          if delay_us =? 0 then
            pause sched_yield ;;
            (* Default to 1 milliseconds (note that this gets multiplied by 2
               before the first sleep). *)
            loop fuel' (S poll) peer false did_suspend_request total_delay_us 500
          else
            pause (usleep delay_us) ;;
            loop fuel' (S poll) peer false did_suspend_request
                 (wrap_u32 (total_delay_us + delay_us)) delay_us
  end.

(** [Thread::SuspendForDebugger]. *)
Definition SuspendForDebugger (fuel : nat) (peer : Z) (request_suspension : bool)
  : M DbgState (option Returned) :=
  loop fuel 0 peer request_suspension false 0 0.

End WithRuntime.

(** The delay the loop sleeps for after having slept for [delay_us]. *)
Definition next_delay (delay_us : Z) : Z :=
  if wrap_u32 (delay_us * 2) <? 500000 then wrap_u32 (delay_us * 2) else delay_us.

(** The sleeps of [n] iterations that start with [total_delay_us] slept
    and the last delay [delay_us], as long as none of them times out:
    the delays, and the total and the delay after them. *)
Fixpoint schedule (n : nat) (total_delay_us delay_us : Z)
  : option (list Z * Z * Z) :=
  match n with
  | O => Some ([], total_delay_us, delay_us)
  | S n' =>
      if (total_delay_us >=? kTimeoutUs)
         || (wrap_u32 (delay_us * 2) <? delay_us)
         || (next_delay delay_us =? 0) then None
      else
        match schedule n' (wrap_u32 (total_delay_us + next_delay delay_us))
                       (next_delay delay_us) with
        | Some (ds, t, d) => Some (next_delay delay_us :: ds, t, d)
        | None => None
        end
  end.

(** The delays of a call that times out: 1 ms doubling to 256 ms, then
    256 ms until 30 s have been slept. *)
Definition timeout_delays : list Z :=
  [1000; 2000; 4000; 8000; 16000; 32000; 64000; 128000; 256000]
  ++ repeat 256000 116.

(** Each delay is the double of the one before, or the same once the
    double would reach 0.5 s. *)
Fixpoint doubling_capped (ds : list Z) : bool :=
  match ds with
  | d1 :: ((d2 :: _) as rest) =>
      ((d2 =? 2 * d1) || ((d2 =? d1) && (500000 <=? 2 * d1)))
      && doubling_capped rest
  | _ => true
  end.

Definition sum (ds : list Z) : Z := fold_right Z.add 0 ds.

Definition no_locks : LockSet :=
  {| thread_suspend_count_lock_held := false;
     mutator_lock_shared_held := false;
     thread_list_lock_held := false |}.

(** A target that runs and is not suspended by anyone, and a caller that
    holds no lock. *)
Definition state0 : DbgState :=
  {| world := {| this_addr := 4096;
                 this := set_state_ kRunnable Thread_new;
                 locks := no_locks;
                 log := [] |};
     pauses := [] |}.

End Debugger.

(** ** The transition to runnable, among other threads *)

Module Transition.

(** Who holds [Locks::thread_suspend_count_lock_]: nobody, the thread
    that runs [TransitionFromSuspendedToRunnable], or another thread. *)
Inductive Holder : Type := Free | Self | Other.

(** The program points of [TransitionFromSuspendedToRunnable]. *)
Inductive Point : Type :=
| at_entry          (* ThreadState old_state = GetStateUnsafe(); *)
| at_racy_check     (* do { if (GetSuspendCountUnsafe() > 0) *)
| at_wait_lock      (* MutexLock mu(thread_suspend_count_lock_); in the if *)
| at_wait_check     (* while (GetSuspendCount() != 0) *)
| at_waiting        (* inside Thread::resume_cond_->Wait(...) *)
| at_shared_lock    (* Locks::mutator_lock_->SharedLock(); *)
| at_lock           (* MutexLock mu(thread_suspend_count_lock_); *)
| at_check          (* if (GetSuspendCount() == 0) *)
| at_set_runnable   (* SetState(kRunnable); done = true; *)
| at_shared_unlock  (* Locks::mutator_lock_->SharedUnlock(); *)
| at_unlock         (* the end of the do body releases mu *)
| at_loop_test      (* } while (!done); *)
| at_return.        (* return old_state; *)

(** The thread's fields and the function's locals, the lock, and
    whether the thread holds a share of the mutator lock. *)
Record State : Type := mkState {
  pc : Point;
  suspend_count : Z;
  state : ThreadState;
  holder : Holder;
  mutator_shared : bool;
  old_state : ThreadState;
  done : bool
}.

Definition at_ (p : Point) (s : State) : State :=
  {| pc := p; suspend_count := suspend_count s; state := state s;
     holder := holder s; mutator_shared := mutator_shared s;
     old_state := old_state s; done := done s |}.

Definition with_holder (h : Holder) (s : State) : State :=
  {| pc := pc s; suspend_count := suspend_count s; state := state s;
     holder := h; mutator_shared := mutator_shared s;
     old_state := old_state s; done := done s |}.

Definition with_mutator_shared (b : bool) (s : State) : State :=
  {| pc := pc s; suspend_count := suspend_count s; state := state s;
     holder := holder s; mutator_shared := b;
     old_state := old_state s; done := done s |}.

Definition is_free (h : Holder) : bool :=
  match h with Free => true | _ => false end.

Definition is_other (h : Holder) : bool :=
  match h with Other => true | _ => false end.

(** One step of the thread in [TransitionFromSuspendedToRunnable];
    [None] where it cannot move (it waits for the lock, or has
    returned). Taking the mutex needs it free; [Wait] releases it and
    takes it again when woken. *)
Definition thread_step (s : State) : option State :=
  match pc s with
  | at_entry =>
      Some {| pc := at_racy_check; suspend_count := suspend_count s;
              state := state s; holder := holder s;
              mutator_shared := mutator_shared s;
              old_state := state s; done := false |}
  | at_racy_check =>
      if suspend_count s >? 0 then Some (at_ at_wait_lock s)
      else Some (at_ at_shared_lock s)
  | at_wait_lock =>
      if is_free (holder s) then Some (at_ at_wait_check (with_holder Self s))
      else None
  | at_wait_check =>
      if negb (suspend_count s =? 0) then
        Some (at_ at_waiting (with_holder Free s))
      else Some (at_ at_shared_lock (with_holder Free s))
  | at_waiting =>
      if is_free (holder s) then Some (at_ at_wait_check (with_holder Self s))
      else None
  | at_shared_lock => Some (at_ at_lock (with_mutator_shared true s))
  | at_lock =>
      if is_free (holder s) then Some (at_ at_check (with_holder Self s))
      else None
  | at_check =>
      if suspend_count s =? 0 then Some (at_ at_set_runnable s)
      else Some (at_ at_shared_unlock s)
  | at_set_runnable =>
      Some {| pc := at_unlock; suspend_count := suspend_count s;
              state := kRunnable; holder := holder s;
              mutator_shared := mutator_shared s;
              old_state := old_state s; done := true |}
  | at_shared_unlock => Some (at_ at_unlock (with_mutator_shared false s))
  | at_unlock => Some (at_ at_loop_test (with_holder Free s))
  | at_loop_test =>
      if done s then Some (at_ at_return s) else Some (at_ at_racy_check s)
  | at_return => None
  end.

(** What the other threads do in between: take the suspend-count lock,
    change the thread's suspend count while they hold it (a suspender or
    a resumer in [ModifySuspendCount]), release it. *)
Inductive Action : Type :=
| Thread_moves
| Other_locks
| Other_sets (count : Z)
| Other_unlocks.

Definition step (a : Action) (s : State) : option State :=
  match a with
  | Thread_moves => thread_step s
  | Other_locks =>
      if is_free (holder s) then Some (with_holder Other s) else None
  | Other_sets count =>
      if is_other (holder s) then
        Some {| pc := pc s; suspend_count := count; state := state s;
                holder := holder s; mutator_shared := mutator_shared s;
                old_state := old_state s; done := done s |}
      else None
  | Other_unlocks =>
      if is_other (holder s) then Some (with_holder Free s) else None
  end.

(** An interleaving, run from a state; [None] if one of its actions is
    not possible where it comes. *)
Fixpoint run (schedule : list Action) (s : State) : option State :=
  match schedule with
  | [] => Some s
  | a :: rest =>
      match step a s with
      | Some s' => run rest s'
      | None => None
      end
  end.

(** The thread calls the function: it is not runnable, holds no share of
    the mutator lock and does not hold the suspend-count lock. *)
Definition initial (s : State) : Prop :=
  pc s = at_entry /\ state s <> kRunnable /\ mutator_shared s = false
  /\ holder s <> Self.

(** What holds at each program point, whatever the other threads did;
    [entry_state] is the thread's state when it called the function. *)
Definition Inv (entry_state : ThreadState) (s : State) : Prop :=
  entry_state <> kRunnable
  /\ match pc s with
     | at_entry =>
         holder s <> Self /\ mutator_shared s = false /\ state s = entry_state
     | at_racy_check | at_wait_lock | at_waiting | at_shared_lock =>
         holder s <> Self /\ mutator_shared s = false /\ done s = false
         /\ state s = entry_state /\ old_state s = entry_state
     | at_wait_check =>
         holder s = Self /\ mutator_shared s = false /\ done s = false
         /\ state s = entry_state /\ old_state s = entry_state
     | at_lock =>
         holder s <> Self /\ mutator_shared s = true /\ done s = false
         /\ state s = entry_state /\ old_state s = entry_state
     | at_check | at_shared_unlock =>
         holder s = Self /\ mutator_shared s = true /\ done s = false
         /\ state s = entry_state /\ old_state s = entry_state
     | at_set_runnable =>
         holder s = Self /\ mutator_shared s = true /\ done s = false
         /\ state s = entry_state /\ old_state s = entry_state
         /\ suspend_count s = 0
     | at_unlock =>
         holder s = Self /\ old_state s = entry_state
         /\ ((done s = true /\ state s = kRunnable /\ mutator_shared s = true)
             \/ (done s = false /\ state s = entry_state
                 /\ mutator_shared s = false))
     | at_loop_test =>
         holder s <> Self /\ old_state s = entry_state
         /\ ((done s = true /\ state s = kRunnable /\ mutator_shared s = true)
             \/ (done s = false /\ state s = entry_state
                 /\ mutator_shared s = false))
     | at_return =>
         holder s <> Self /\ old_state s = entry_state
         /\ done s = true /\ state s = kRunnable /\ mutator_shared s = true
     end.

(** A suspended thread with one suspend request pending. *)
Definition suspended_once : State :=
  {| pc := at_entry; suspend_count := 1; state := kSuspended; holder := Free;
     mutator_shared := false; old_state := kNative; done := false |}.

(** The thread goes to wait; a resumer takes the count to zero; the
    thread wakes up and goes through to the return. *)
Definition resume_schedule : list Action :=
  [Thread_moves; Thread_moves; Thread_moves; Thread_moves;
   Other_locks; Other_sets 0; Other_unlocks;
   Thread_moves; Thread_moves; Thread_moves; Thread_moves; Thread_moves;
   Thread_moves; Thread_moves; Thread_moves].

End Transition.

(** ** The stack size of a new thread *)

Module StackSize.

Section WithPlatform.

(** [size_t] is unsigned; [SIZE_MAX] is its largest value. *)
Variable SIZE_MAX : Z.
(** [Runtime::Current()->GetDefaultStackSize()] and the constants of
    globals.h, thread.h and limits.h. *)
Variable GetDefaultStackSize : Z.
Variable MB : Z.
Variable PTHREAD_STACK_MIN : Z.
Variable kStackOverflowReservedBytes : Z.
Variable kPageSize : Z.
(** [RoundUp(x, n)] of utils.h, on [size_t]; utils.h is not part of
    [thread.cc], what is assumed of it is stated where it is used. *)
Variable RoundUp : Z -> Z -> Z.

Definition wrap_size_t (z : Z) : Z := z mod (SIZE_MAX + 1).

(** [FixStackSize]. *)
Definition FixStackSize (stack_size : Z) : Z :=
  (* A stack size of zero means "use the default". *)
  let stack_size := if stack_size =? 0 then GetDefaultStackSize else stack_size in
  let stack_size := wrap_size_t (stack_size + 1 * MB) in
  (* It's not possible to request a stack smaller than PTHREAD_STACK_MIN. *)
  let stack_size :=
    if stack_size <? PTHREAD_STACK_MIN then PTHREAD_STACK_MIN else stack_size in
  let stack_size := wrap_size_t (stack_size + kStackOverflowReservedBytes) in
  (* Some systems require the stack size to be a multiple of the page size. *)
  RoundUp stack_size kPageSize.

(** A [RoundUp] on [size_t] to run [FixStackSize] with: [x + n - 1],
    computed in [size_t], rounded down to a multiple of [n]. Within [n]
    of [SIZE_MAX] the addition wraps around and the result is below
    [x]. *)
Definition round_up (x n : Z) : Z := wrap_size_t (x + n - 1) / n * n.

End WithPlatform.

End StackSize.

(** ** Building a stack trace *)

Module StackTrace.

Record CountStackDepthVisitor : Type := mkCountStackDepthVisitor {
  depth_ : Z;
  skip_depth_ : Z;
  skipping_ : bool
}.

Definition CountStackDepthVisitor_new : CountStackDepthVisitor :=
  {| depth_ := 0; skip_depth_ := 0; skipping_ := true |}.

(** [BuildInternalStackTraceVisitor]; the two arrays are [None] while
    they are [NULL]. The last slot of [method_trace_] holds the
    reference to the pc trace. *)
Record BuildInternalStackTraceVisitor : Type := mkBuildInternalStackTraceVisitor {
  build_skip_depth_ : Z;
  count_ : Z;
  dex_pc_trace_ : option (list Z);
  method_trace_ : option (list Z)
}.

Definition BuildInternalStackTraceVisitor_new (skip_depth : Z)
  : BuildInternalStackTraceVisitor :=
  {| build_skip_depth_ := skip_depth; count_ := 0;
     dex_pc_trace_ := None; method_trace_ := None |}.

(** [array->Set(i, x)]: an index out of the array's bounds stores
    nothing. *)
Fixpoint array_set (a : list Z) (i : nat) (x : Z) : list Z :=
  match a, i with
  | [], _ => []
  | _ :: rest, O => x :: rest
  | y :: rest, S j => y :: array_set rest j x
  end.

Definition Set_ (a : list Z) (i : Z) (x : Z) : list Z :=
  if i <? 0 then a else array_set a (Z.to_nat i) x.

Section WithObjectModel.

Variable om : ObjectModel.
(** [Throwable::GetJavaLangThrowable()->IsAssignableFrom(
    m->GetDeclaringClass())]. *)
Variable DeclaredByThrowable : Z -> bool.

(** [CountStackDepthVisitor::VisitFrame]. *)
Definition Count_VisitFrame (f : Frame) (v : CountStackDepthVisitor)
  : bool * CountStackDepthVisitor :=
  let m := GetMethod f in
  (* We want to skip frames up to and including the exception's constructor. *)
  let skipping :=
    if skipping_ v && negb (IsRuntimeMethod om m) && negb (DeclaredByThrowable m)
    then false else skipping_ v in
  (true,
   if negb skipping then
     if negb (IsRuntimeMethod om m) then
       (* Ignore runtime frames (in particular callee save). *)
       {| depth_ := wrap_u32 (depth_ v + 1); skip_depth_ := skip_depth_ v;
          skipping_ := skipping |}
     else {| depth_ := depth_ v; skip_depth_ := skip_depth_ v;
             skipping_ := skipping |}
   else
     {| depth_ := depth_ v; skip_depth_ := wrap_u32 (skip_depth_ v + 1);
        skipping_ := skipping |}).

(** [BuildInternalStackTraceVisitor::Init(depth, soa)]: the two arrays
    as the allocator gives them, [None] for a failed allocation;
    [pc_trace_ref] is the reference to the pc trace. The result is the
    [bool] returned. The thread has no cause of no-suspension open, so
    that [CHECK(last_no_suspend_cause == NULL)] passes. *)
Definition Init (depth : Z) (method_trace_alloc dex_pc_trace_alloc : bool)
    (pc_trace_ref : Z) (v : BuildInternalStackTraceVisitor)
  : bool * BuildInternalStackTraceVisitor :=
  if negb method_trace_alloc then (false, v)
  else if negb dex_pc_trace_alloc then (false, v)
  else
    (true,
     {| build_skip_depth_ := build_skip_depth_ v; count_ := count_ v;
        dex_pc_trace_ := Some (repeat 0 (Z.to_nat depth));
        (* Save PC trace in last element of method trace *)
        method_trace_ :=
          Some (Set_ (repeat NULL (Z.to_nat (depth + 1))) depth pc_trace_ref) |}).

(** [BuildInternalStackTraceVisitor::VisitFrame]. *)
Definition Build_VisitFrame (f : Frame) (v : BuildInternalStackTraceVisitor)
  : bool * BuildInternalStackTraceVisitor :=
  match method_trace_ v, dex_pc_trace_ v with
  | Some method_trace, Some dex_pc_trace =>
      if build_skip_depth_ v >? 0 then
        (true,
         {| build_skip_depth_ := wrap_int (build_skip_depth_ v - 1);
            count_ := count_ v; dex_pc_trace_ := dex_pc_trace_ v;
            method_trace_ := method_trace_ v |})
      else
        let m := GetMethod f in
        if IsRuntimeMethod om m then
          (* Ignore runtime frames (in particular callee save). *)
          (true, v)
        else
          (true,
           {| build_skip_depth_ := build_skip_depth_ v;
              count_ := wrap_u32 (count_ v + 1);
              dex_pc_trace_ := Some (Set_ dex_pc_trace (count_ v) (GetDexPc f));
              method_trace_ := Some (Set_ method_trace (count_ v) m) |})
  | _, _ =>
      (* We're probably trying to fillInStackTrace for an OutOfMemoryError. *)
      (true, v)
  end.

(** [Thread::CreateInternalStackTrace], up to the local reference made
    of the result: the method trace and the pc trace, [None] for the
    [NULL] returned when the allocation failed. *)
Definition CreateInternalStackTrace (frames : list Frame)
    (method_trace_alloc dex_pc_trace_alloc : bool) (pc_trace_ref : Z)
  : option (list Z * list Z) :=
  (* Compute depth of stack *)
  let count_visitor := WalkStack Count_VisitFrame frames CountStackDepthVisitor_new in
  let depth := wrap_int (depth_ count_visitor) in
  let skip_depth := wrap_int (skip_depth_ count_visitor) in
  (* Build internal stack trace *)
  let build_trace_visitor := BuildInternalStackTraceVisitor_new skip_depth in
  match Init depth method_trace_alloc dex_pc_trace_alloc pc_trace_ref
             build_trace_visitor with
  | (false, _) => None
  | (true, build_trace_visitor) =>
      let v := WalkStack Build_VisitFrame frames build_trace_visitor in
      match method_trace_ v, dex_pc_trace_ v with
      | Some method_trace, Some dex_pc_trace => Some (method_trace, dex_pc_trace)
      | _, _ => None
      end
  end.

(** A frame of the exception's own construction: a runtime frame, or a
    frame of a method declared by a [Throwable]. *)
Definition is_skipped (f : Frame) : bool :=
  IsRuntimeMethod om (GetMethod f) || DeclaredByThrowable (GetMethod f).

(** The frames of a stack from the first that is not skipped. *)
Fixpoint from_throw_site (frames : list Frame) : list Frame :=
  match frames with
  | [] => []
  | f :: outer => if is_skipped f then from_throw_site outer else frames
  end.

(** The frames a stack trace shows: those of [from_throw_site] that are
    not runtime frames. *)
Definition trace_frames (frames : list Frame) : list Frame :=
  filter (fun f => negb (IsRuntimeMethod om (GetMethod f))) (from_throw_site frames).

(** [CurrentMethodVisitor::VisitFrame] of [Thread::GetCurrentMethod]:
    the visitor is its [method_], [dex_pc_] and [frame_id_]. *)
Definition Current_VisitFrame (f : Frame) (v : Z * Z * Z) : bool * (Z * Z * Z) :=
  let m := GetMethod f in
  if IsRuntimeMethod om m then
    (* Continue if this is a runtime method. *)
    (true, v)
  else (false, (m, GetDexPc f, GetFrameId f)).

(** [Thread::GetCurrentMethod]: the method returned, and what is stored
    through [dex_pc] and [frame_id] when they are not [NULL]. *)
Definition GetCurrentMethod (frames : list Frame) : Z * Z * Z :=
  WalkStack Current_VisitFrame frames (NULL, 0, 0).

End WithObjectModel.

(** A stack to try the trace on: the exception's constructor
    ([Throwable.<init>], method 10) called from [Loop.spin] (100) called
    from a callee-save runtime frame (1) called from [Main.main]
    (200). *)
Definition trace_om : ObjectModel :=
  {| IsRuntimeMethod := fun m => m =? 1;
     IsNative := fun _ => false;
     IsProxyMethod := fun _ => false;
     PrettyMethod := fun _ => "m";
     GetDexCache := fun _ => 500;
     GetLineNumFromPC := fun _ pc => pc;
     GetDeclaringClassSourceFile := fun _ => None |}.

Definition trace_frame (method dex_pc id : Z) : Frame :=
  {| GetMethod := method; GetDexPc := dex_pc; GetFrameId := id;
     GetCurrentQuickFrame := 9000 + 64 * id;
     GetCurrentQuickFramePc := 5000 + id;
     GetCurrentShadowFrame := None |}.

Definition throwing_stack : list Frame :=
  [trace_frame 10 2 0; trace_frame 100 7 1; trace_frame 1 0 2;
   trace_frame 200 3 3].

End StackTrace.

(** ** The chain of stack indirect reference tables *)

Module Sirt.

(** A [StackIndirectReferenceTable]: its references. The chain
    [top_sirt_], [top_sirt_->GetLink()], ... is the list of the tables,
    the most recent first. *)
Record StackIndirectReferenceTable : Type := mkSirt {
  references : list Z
}.

(** [Thread::NumSirtReferences]; the tables are in memory, so the sum of
    their sizes is within [size_t]. *)
Fixpoint NumSirtReferences (top_sirt_ : list StackIndirectReferenceTable) : Z :=
  match top_sirt_ with
  | [] => 0
  | cur :: link => Z.of_nat (List.length (references cur)) + NumSirtReferences link
  end.

(** The inner loop of [Thread::SirtVisitRoots], over the references of
    one table; the result is the list of the calls of [visitor]. *)
Fixpoint visit_references (refs : list Z) : list Z :=
  match refs with
  | [] => []
  | object :: rest =>
      if negb (object =? NULL) then object :: visit_references rest
      else visit_references rest
  end.

(** [Thread::SirtVisitRoots]. *)
Fixpoint SirtVisitRoots (top_sirt_ : list StackIndirectReferenceTable) : list Z :=
  match top_sirt_ with
  | [] => []
  | cur :: link => visit_references (references cur) ++ SirtVisitRoots link
  end.

(** What [PushSirt] and [PopSirt] work on: the thread's [top_sirt_]
    and, for the table at each address, its [link_] field. The tables
    are objects of the caller; the thread holds a pointer to the most
    recent one. *)
Record SirtChain : Type := mkSirtChain {
  top_sirt_ : Z;
  link_ : Z -> Z
}.

(** [sirt->SetLink(link)]: the write to the field of the table at
    [sirt]. *)
Definition SetLink (sirt link : Z) (links : Z -> Z) : Z -> Z :=
  fun table => if table =? sirt then link else links table.

(** [Thread::PushSirt]; [None] for the write through a [NULL] [sirt]. *)
Definition PushSirt (sirt : Z) (t : SirtChain) : option SirtChain :=
  if sirt =? NULL then None
  else Some {| top_sirt_ := sirt;
               link_ := SetLink sirt (top_sirt_ t) (link_ t) |}.

(** [Thread::PopSirt]: [None] for the failed [CHECK(top_sirt_ != NULL)]. *)
Definition PopSirt (t : SirtChain) : option (Z * SirtChain) :=
  if top_sirt_ t =? NULL then None
  else
    let sirt := top_sirt_ t in
    Some (sirt, {| top_sirt_ := link_ t (top_sirt_ t); link_ := link_ t |}).

(** The loop header of [NumSirtReferences] and [SirtVisitRoots],
    [for (cur = top_sirt_; cur; cur = cur->GetLink())], goes through
    exactly the tables at [tables], in this order, and ends. *)
Fixpoint is_chain (links : Z -> Z) (cur : Z) (tables : list Z) : bool :=
  match tables with
  | [] => cur =? NULL
  | table :: rest =>
      negb (cur =? NULL) && (cur =? table) && is_chain links (links table) rest
  end.

(** The pushes and pops of native code, in order. *)
Inductive SirtOp : Type :=
| Push (sirt : Z)
| Pop.

(** A sequence of pushes and pops, run: the tables popped, in order, and
    the chain left; [None] if a push was given [NULL] or a pop found the
    chain empty. *)
Fixpoint run_ops (ops : list SirtOp) (t : SirtChain)
  : option (list Z * SirtChain) :=
  match ops with
  | [] => Some ([], t)
  | Push sirt :: rest =>
      match PushSirt sirt t with
      | None => None
      | Some t' => run_ops rest t'
      end
  | Pop :: rest =>
      match PopSirt t with
      | None => None
      | Some (sirt, t') =>
          match run_ops rest t' with
          | None => None
          | Some (popped, chain) => Some (sirt :: popped, chain)
          end
      end
  end.

End Sirt.

(** ** The dump of a thread's stack *)

Module StackDump.

Section WithObjectModel.

Variable om : ObjectModel.
Variable DescribeWait : list Token.
Variable DescribeLocks : Frame -> list Token.
(** What [DumpKernelStack] and [DumpNativeStack] write for the thread
    (utils.cc). *)
Variable kernel_stack : list Token.
Variable native_stack : list Token.

(** [~StackDumpVisitor]: what the stream holds once the visitor is
    destroyed. *)
Definition StackDumpVisitor_delete (v : Dump.StackDumpVisitor) : list Token :=
  Dump.os v
  ++ (if Dump.frame_count v =? 0 then [Str "  (no managed stack frames)\n"] else []).

(** [Thread::DumpStack], on the stream [os] and the stack [frames]. *)
Definition DumpStack (t : Thread) (frames : list Frame) (os : list Token)
  : list Token :=
  (* If we're currently in native code, dump that stack before dumping the
     managed stack. *)
  let os := match state_ t with
            | kNative => os ++ kernel_stack ++ native_stack
            | _ => os
            end in
  let dumper := Dump.StackDumpVisitor_new os (negb (throwing_OutOfMemoryError_ t)) in
  StackDumpVisitor_delete
    (WalkStack (Dump.VisitFrame om DescribeWait DescribeLocks) frames dumper).

(** The lines of some frames printed one after the other, the first of
    them being the frame number [count] of the dump. *)
Fixpoint print_frames (can_alloc : bool) (count : Z) (fs : list Frame)
  : list Token :=
  match fs with
  | [] => []
  | f :: rest =>
      Dump.frame_lines om DescribeWait DescribeLocks can_alloc count f
      ++ print_frames can_alloc (count + 1) rest
  end.

End WithObjectModel.

End StackDump.

(** ** The suspend check of a runnable thread *)

Module SafePoint.

Import Transition.

Definition is_runnable (st : ThreadState) : bool :=
  match st with kRunnable => true | _ => false end.

Section WithMutexes.

(** [no_thread_suspension_] and [last_no_thread_suspension_cause_]. *)
Variable no_thread_suspension_ : Z.
Variable last_no_thread_suspension_cause_ : string.
(** [kMaxMutexLevel] and [kMutatorLock], and the name of the mutex that
    [GetHeldMutex] gives for a level, [None] for [NULL] (thread.h,
    locks.h). *)
Variable kMaxMutexLevel : nat.
Variable kMutatorLock : nat.
Variable GetHeldMutex : nat -> option string.

(** The loop [for (int i = ...; i >= 0; --i)] of
    [AssertThreadSuspensionIsAllowable] from the level [n - 1] down:
    the lines it logs and whether [bad_mutexes_held] was set. *)
Fixpoint held_mutex_loop (n : nat) : list LogLine * bool :=
  match n with
  | O => ([], false)
  | S i =>
      let (here, bad_here) :=
        (* We expect no locks except the mutator_lock_. *)
        if negb (i =? kMutatorLock)%nat then
          match GetHeldMutex i with
          | Some name =>
              ([(ERROR, [Str "holding "; Str double_quote; Str name;
                         Str double_quote;
                         Str " at point where thread suspension is expected"])],
               true)
          | None => ([], false)
          end
        else ([], false) in
      let (below, bad_below) := held_mutex_loop i in
      (here ++ below, bad_here || bad_below)
  end.

(** [Thread::AssertThreadSuspensionIsAllowable], of the builds that
    have it ([#ifndef NDEBUG]): the state is the log. *)
Definition AssertThreadSuspensionIsAllowable (check_locks : bool)
  : M (list LogLine) unit :=
  (if 0 =? no_thread_suspension_ then ret tt
   else fun lg =>
     (Abort, lg ++ [(FATAL, [Str "Check failed: 0u == no_thread_suspension_ ";
                             Str last_no_thread_suspension_cause_])])) ;;
  if check_locks then
    let (lines, bad_mutexes_held) := held_mutex_loop (S kMaxMutexLevel) in
    modify (fun lg => lg ++ lines) ;;
    if negb bad_mutexes_held then ret tt
    else fun lg => (Abort, lg ++ [(FATAL, [Str "Check failed: !bad_mutexes_held"])])
  else ret tt.

End WithMutexes.

(** [Thread::TransitionFromRunnableToSuspended], [None] for a failed
    check. [suspension_is_allowable] is whether
    [AssertThreadSuspensionIsAllowable()] comes back (it does nothing in
    a build with [NDEBUG]), [this_is_current] whether [this] is
    [Thread::Current()]. *)
Definition TransitionFromRunnableToSuspended
    (suspension_is_allowable this_is_current : bool)
    (new_state : ThreadState) (s : State) : option State :=
  if negb suspension_is_allowable then None
  else if is_runnable new_state then None   (* CHECK_NE(new_state, kRunnable) *)
  else if negb this_is_current then None    (* CHECK_EQ(this, Thread::Current()) *)
  else
    (* Change to non-runnable state, thereby appearing suspended to the system. *)
    let old_state := state s in
    let s := {| pc := pc s; suspend_count := suspend_count s; state := new_state;
                holder := holder s; mutator_shared := mutator_shared s;
                old_state := Transition.old_state s; done := done s |} in
    if negb (is_runnable old_state) then None  (* CHECK_EQ(old_state, kRunnable) *)
    else
      (* Release share on mutator_lock_. *)
      Some (with_mutator_shared false s).

(** [Thread::FullSuspendCheck]: the first transition, then
    [TransitionFromSuspendedToRunnable] from its entry, run in the
    interleaving [schedule] with the other threads. *)
Definition FullSuspendCheck (suspension_is_allowable this_is_current : bool)
    (schedule : list Action) (s : State) : option State :=
  (* Make thread appear suspended to other threads, release mutator_lock_. *)
  match TransitionFromRunnableToSuspended suspension_is_allowable this_is_current
          kSuspended s with
  | None => None
  | Some s1 =>
      (* Transition back to runnable noting requests to suspend. *)
      run schedule (at_ at_entry s1)
  end.

(** What holds of a thread that runs [TransitionFromSuspendedToRunnable]
    alone while its suspend count stays at [count], not zero: it is
    never at the step that makes it runnable nor at the return. *)
Definition Blocked (count : Z) (entry_state : ThreadState) (s : State) : Prop :=
  suspend_count s = count /\ count <> 0 /\ state s = entry_state
  /\ match pc s with
     | at_entry => holder s = Free
     | at_racy_check | at_shared_lock | at_loop_test
     | at_wait_lock | at_waiting | at_lock => holder s = Free /\ done s = false
     | at_wait_check | at_check | at_shared_unlock | at_unlock =>
         holder s = Self /\ done s = false
     | at_set_runnable | at_return => False
     end.

(** A runnable thread that nobody suspended. *)
Definition running : State :=
  {| pc := at_return; suspend_count := 0; state := kRunnable; holder := Free;
     mutator_shared := true; old_state := kNative; done := true |}.

End SafePoint.

(** ** The end of a thread *)

Module Lifecycle.

(** What a detaching thread does to the rest of the runtime, in order. *)
Inductive LEvent : Type :=
| LMonitorEnter (object : Z)
| LNotifyAll (object : Z)
| LMonitorExit (object : Z)
| LInvoke (method receiver : Z) (args : list Z)
| LPostThreadDeath.

(** The state [Destroy] runs in: the thread, the [int] field [vmData]
    of each [java.lang.Thread] object, the events and the log. *)
Record LState : Type := mkLState {
  thread : Thread;
  vmData : Z -> Z;
  levents : list LEvent;
  llog : list LogLine
}.

Definition lemit (e : LEvent) : M LState unit :=
  modify (fun s => {| thread := thread s; vmData := vmData s;
                      levents := levents s ++ [e]; llog := llog s |}).

Definition LLOG (sev : Severity) (msg : list Token) : M LState unit :=
  fun s =>
    let s' := {| thread := thread s; vmData := vmData s;
                 levents := levents s; llog := llog s ++ [(sev, msg)] |} in
    match sev with
    | FATAL => (Abort, s')
    | _ => (Ok tt, s')
    end.

(** [ClearException()] and [SetException(e)] (thread.h) are the
    assignments of the exception slot, as in [Oom.SetException]. *)
Definition set_pending (e : Z) : M LState unit :=
  modify (fun s => {| thread := set_exception_ e (thread s); vmData := vmData s;
                      levents := levents s; llog := llog s |}).

(** A call through a [NULL] pointer ends the process. *)
Definition null_dereference {A : Type} : M LState A :=
  fun s => (Abort, {| thread := thread s; vmData := vmData s;
                      levents := levents s;
                      llog := llog s ++ [(FATAL, [Str "SIGSEGV"])] |}).

(** [SetVmData]: [Field::SetInt] stores the address as an [int]. *)
Definition SetVmData (managed_thread native_thread : Z) : M LState unit :=
  modify (fun s =>
    {| thread := thread s;
       vmData := fun peer => if peer =? managed_thread then wrap_int native_thread
                             else vmData s peer;
       levents := levents s; llog := llog s |}).

Section WithPeer.

Variable debug : bool.
(** [peer_], [thin_lock_id_] and the objects in [jni_env_->monitors],
    [None] when [jni_env_] is [NULL]. *)
Variable peer_ : Z.
Variable thin_lock_id_ : Z.
Variable monitors : option (list Z).
Variable GetThinLockId : Z -> Z.
(** The fields [uncaughtHandler], [group] and [lock] of a
    [java.lang.Thread] object, read through [soa.DecodeField]. *)
Variable uncaughtHandler : Z -> Z.
Variable group : Z -> Z.
Variable lock : Z -> Z.
(** [receiver->GetClass()->FindVirtualMethodForVirtualOrInterface(
    soa.DecodeMethod(mid))], and the two method ids of
    [WellKnownClasses]. *)
Variable FindVirtualMethodForVirtualOrInterface : Z -> Z -> Z.
Variable uncaughtException_mid : Z.
Variable removeThread_mid : Z.
(** What [PrettyTypeOf(object)] and [operator<<] for the current thread
    write. *)
Variable PrettyTypeOf : Z -> string.
Variable ShortDump : list Token.
(** The exception that an invocation of managed code throws, [NULL] if
    it throws none. *)
Variable thrown_by : Z -> Z -> list Z -> Z.
(** [thread->IsSuspended()] (thread.h) and whether the caller holds
    [Locks::thread_list_lock_]. *)
Variable IsSuspended : Z -> bool.
Variable thread_list_lock_held : bool.

(** Modelled from the spec: [Method::Invoke] (object.cc) is not in
    [thread.cc]. The object model invokes a virtual method by
    descriptor: managed code runs, and when it comes back the exception
    it threw, if any, is the thread's pending exception. The managed
    code is taken not to write [vmData]. *)
Definition Invoke (m receiver : Z) (args : list Z) : M LState unit :=
  lemit (LInvoke m receiver args) ;;
  when (negb (thrown_by m receiver args =? NULL))
       (set_pending (thrown_by m receiver args)).

(** [Thread::HoldsLock]. *)
Definition HoldsLock (object : Z) : bool :=
  if object =? NULL then false
  else GetThinLockId object =? thin_lock_id_.

(** [MonitorExitVisitor]; the thread it is given, [Thread::Current()],
    is the thread that is destroyed. *)
Definition MonitorExitVisitor (object : Z) : M LState unit :=
  when (HoldsLock object)
       (LLOG WARNING ([Str "Calling MonitorExit on object "; Ptr object; Str " (";
                       Str (PrettyTypeOf object); Str ")";
                       Str " left locked by native thread "]
                      ++ ShortDump ++ [Str " which is detaching"]) ;;
        lemit (LMonitorExit object)).

(** [Thread::GetThreadGroup]. *)
Definition GetThreadGroup : Z := group peer_.

(** [Thread::HandleUncaughtExceptions]. *)
Definition HandleUncaughtExceptions : M LState unit :=
  s <- get ;;
  if exception_ (thread s) =? NULL then ret tt
  else
    (* Get and clear the exception. *)
    let exception := exception_ (thread s) in
    set_pending NULL ;;
    (* If the thread has its own handler, use that. *)
    let handler := uncaughtHandler peer_ in
    (* Otherwise use the thread group's default handler. *)
    let handler := if handler =? NULL then GetThreadGroup else handler in
    (* Call the handler. *)
    (if handler =? NULL then null_dereference else ret tt) ;;
    let m := FindVirtualMethodForVirtualOrInterface handler uncaughtException_mid in
    Invoke m handler [peer_; exception] ;;
    (* If the handler threw, clear that exception too. *)
    set_pending NULL.

(** [Thread::RemoveFromThreadGroup]. *)
Definition RemoveFromThreadGroup : M LState unit :=
  (* group can be null if we're in the compiler or a test. *)
  let group := GetThreadGroup in
  if negb (group =? NULL) then
    let m := FindVirtualMethodForVirtualOrInterface group removeThread_mid in
    Invoke m group [peer_]
  else ret tt.

(** [Thread::Destroy]. *)
Definition Destroy : M LState unit :=
  (* On thread detach, all monitors entered with JNI MonitorEnter are
     automatically exited. *)
  match monitors with
  | Some entered => Roots.for_each MonitorExitVisitor entered
  | None => ret tt
  end ;;
  if negb (peer_ =? NULL) then
    HandleUncaughtExceptions ;;
    RemoveFromThreadGroup ;;
    (* this.vmData = 0; *)
    SetVmData peer_ NULL ;;
    lemit LPostThreadDeath ;;
    (* Thread.join() is implemented as an Object.wait() on the Thread.lock
       object. Signal anyone who is waiting. *)
    let lock := lock peer_ in
    when (negb (lock =? NULL))
         (lemit (LMonitorEnter lock) ;;
          lemit (LNotifyAll lock) ;;
          lemit (LMonitorExit lock))
  else ret tt.

(** [Thread::FromManagedThread(soa, thread_peer)], on a target where
    [uintptr_t] has the width of [int]; [AssertHeld] checks in debug
    builds. The [MutexLock] on the suspend-count lock is taken for the
    check and released at the return. *)
Definition FromManagedThread (thread_peer : Z) : M LState Z :=
  s <- get ;;
  let result := wrap_u32 (vmData s thread_peer) in
  (* Sanity check that if we have a result it is either suspended or we
     hold the thread_list_lock_ to stop it from going away. *)
  (if negb (result =? NULL) && negb (IsSuspended result) then
     if debug && negb thread_list_lock_held
     then LLOG FATAL [Str "Check failed: thread_list_lock_ not held"]
     else ret tt
   else ret tt) ;;
  ret result.

End WithPeer.

(** The state [ThreadExitCallback] runs in: the counter of the thread,
    the value of [pthread_key_self_] for the native thread, the log. *)
Record ExitState : Type := mkExitState {
  thread_exit_check_count_ : Z;
  key_self : Z;
  elog : list LogLine
}.

(** [Thread::ThreadExitCallback]; [setspecific_rc] is what
    [pthread_setspecific] returns. *)
Definition ThreadExitCallback (ShortDump : list Token) (setspecific_rc : Z)
    (self : Z) : M ExitState unit :=
  s <- get ;;
  if thread_exit_check_count_ s =? 0 then
    modify (fun s =>
      {| thread_exit_check_count_ := thread_exit_check_count_ s;
         key_self := key_self s;
         elog := elog s
                 ++ [(WARNING,
                      Str "Native thread exiting without having called DetachCurrentThread (maybe it's going to use a pthread_key_create destructor?): "
                      :: ShortDump)] |}) ;;
    (if setspecific_rc =? 0 then
       modify (fun s => {| thread_exit_check_count_ := thread_exit_check_count_ s;
                           key_self := self; elog := elog s |})
     else
       fun s => (Abort, {| thread_exit_check_count_ := thread_exit_check_count_ s;
                           key_self := key_self s;
                           elog := elog s
                                   ++ [(FATAL, [Str "pthread_setspecific failed for reattach self"])] |})) ;;
    modify (fun s => {| thread_exit_check_count_ := 1; key_self := key_self s;
                        elog := elog s |})
  else
    fun s => (Abort, {| thread_exit_check_count_ := thread_exit_check_count_ s;
                        key_self := key_self s;
                        elog := elog s
                                ++ [(FATAL,
                                     Str "Native thread exited without calling DetachCurrentThread: "
                                     :: ShortDump)] |}).

(** A thread at 4096 on which the exception at 777 is pending. *)
Definition dying : LState :=
  {| thread := set_exception_ 777 Thread_new;
     vmData := fun peer => if peer =? 50 then 4096 else 0;
     levents := []; llog := [] |}.

(** Its end: the peer is the object 50, of the group 60 and with the
    lock 70 and no handler of its own; the thread left the monitor of
    the object 900 locked; no managed code throws. *)
Definition end_of_dying : M LState unit :=
  Destroy 50 7 (Some [900; 901]) (fun o => if o =? 900 then 7 else 0)
    (fun _ => NULL) (fun _ => 60) (fun _ => 70) (fun receiver mid => receiver + mid)
    1 2 (fun _ => "java.lang.Object") [Str "Thread[1]"] (fun _ _ _ => NULL).

End Lifecycle.

(** ** The bounds of a thread's stack *)

Module StackBounds.

(** The stack fields of [Thread], what was written to [std::cerr], and
    the log. *)
Record BState : Type := mkBState {
  stack_begin_ : Z;
  stack_size_ : Z;
  stack_end_ : Z;
  cerr : list Token;
  blog : list LogLine
}.

Definition BFATAL (msg : list Token) : M BState unit :=
  fun s => (Abort, {| stack_begin_ := stack_begin_ s; stack_size_ := stack_size_ s;
                      stack_end_ := stack_end_ s; cerr := cerr s;
                      blog := blog s ++ [(FATAL, msg)] |}).

Section WithPlatform.

(** [SIZE_MAX] and [kStackOverflowReservedBytes]. *)
Variable SIZE_MAX : Z.
Variable kStackOverflowReservedBytes : Z.
(** What [DumpStack] writes for the thread. *)
Variable stack_dump : list Token.

(** Modelled from the spec: [Thread::ResetDefaultStackEnd] (thread.h)
    is not in [thread.cc]. The usable end of the stack is reset, for
    normal operation, to leave the reserved headroom below it free for
    the handling of a stack overflow. *)
Definition ResetDefaultStackEnd : M BState unit :=
  modify (fun s =>
    {| stack_begin_ := stack_begin_ s; stack_size_ := stack_size_ s;
       stack_end_ := stack_begin_ s + kStackOverflowReservedBytes;
       cerr := cerr s; blog := blog s |}).

(** [Thread::InitStackHwm], on a target that is not [__APPLE__].
    [stack_base] and [stack_size] are what [GetThreadStack] gives,
    [getrlimit_rc] and [rlim_cur_is_infinity] what
    [getrlimit(RLIMIT_STACK, ...)] gives, [pthread_attr_ok] whether the
    three [pthread_attr_] calls succeed, [default_stack_size] what
    [pthread_attr_getstacksize] gives, [stack_variable] the address of
    the local variable of the sanity check. The [VLOG]s are left out. *)
Definition InitStackHwm (stack_base stack_size : Z) (thin_lock_id_ : Z)
    (getrlimit_rc : Z) (rlim_cur_is_infinity pthread_attr_ok : bool)
    (default_stack_size stack_variable : Z) : M BState unit :=
  modify (fun s =>
    {| stack_begin_ := stack_base; stack_size_ := stack_size;
       stack_end_ := stack_end_ s; cerr := cerr s; blog := blog s |}) ;;
  (if stack_size <=? kStackOverflowReservedBytes then
     BFATAL [Str "Attempt to attach a thread with a too-small stack (";
             Num stack_size; Str " bytes)"]
   else ret tt) ;;
  (* If we're the main thread, check whether we were run with an unlimited
     stack. *)
  (if thin_lock_id_ =? 1 then
     (if getrlimit_rc =? -1 then BFATAL [Str "getrlimit(RLIMIT_STACK) failed"]
      else ret tt) ;;
     if rlim_cur_is_infinity then
       (* Find the default stack size for new threads... *)
       (if pthread_attr_ok then ret tt
        else BFATAL [Str "default stack size query"]) ;;
       (* ...and use that as our limit. *)
       modify (fun s =>
         let old_stack_size := stack_size_ s in
         {| stack_begin_ :=
              stack_begin_ s
              + (old_stack_size - default_stack_size) mod (SIZE_MAX + 1);
            stack_size_ := default_stack_size;
            stack_end_ := stack_end_ s; cerr := cerr s; blog := blog s |})
     else ret tt
   else ret tt) ;;
  (* Set stack_end_ to the bottom of the stack saving space of stack
     overflows *)
  ResetDefaultStackEnd ;;
  (* Sanity check. *)
  s <- get ;;
  if stack_variable >? stack_end_ s then ret tt
  else BFATAL [Str "Check failed: &stack_variable > stack_end_"].

(** [Thread::SetStackEndForStackOverflow]. *)
Definition SetStackEndForStackOverflow : M BState unit :=
  s <- get ;;
  (* During stack overflow we allow use of the full stack *)
  (if stack_end_ s =? stack_begin_ s then
     modify (fun s =>
       {| stack_begin_ := stack_begin_ s; stack_size_ := stack_size_ s;
          stack_end_ := stack_end_ s; cerr := cerr s ++ stack_dump;
          blog := blog s |}) ;;
     BFATAL [Str "Need to increase kStackOverflowReservedBytes (currently ";
             Num kStackOverflowReservedBytes; Str ")"]
   else ret tt) ;;
  modify (fun s =>
    {| stack_begin_ := stack_begin_ s; stack_size_ := stack_size_ s;
       stack_end_ := stack_begin_ s; cerr := cerr s; blog := blog s |}).

End WithPlatform.

(** A thread whose stack fields are not set yet. *)
Definition unset : BState :=
  {| stack_begin_ := 0; stack_size_ := 0; stack_end_ := 0; cerr := []; blog := [] |}.

End StackBounds.

(** ** The roots of a thread *)

Module ThreadRoots.

(** The state [Thread::VisitRoots] runs in: the callbacks made so far
    and the log, and the thread's [long_jump_context_]. *)
Record TState : Type := mkTState {
  visited : Roots.RState;
  context : option Context
}.

Definition lift_roots {A : Type} (m : M Roots.RState A) : M TState A :=
  fun s =>
    let (r, v) := m (visited s) in
    (r, {| visited := v; context := context s |}).

(** Modelled from the spec: [StackVisitor::WalkStack] (stack.cc) for a
    visitor with effects. The walker produces the frames from innermost
    to outermost in a single pass and, for each, invokes the visitor's
    callback, which answers "continue" or "stop". *)
Fixpoint WalkStackM {S : Type} (VisitFrame : Frame -> M S bool)
    (frames : list Frame) : M S unit :=
  match frames with
  | [] => ret tt
  | f :: outer =>
      continue <- VisitFrame f ;;
      if continue then WalkStackM VisitFrame outer else ret tt
  end.

(** [Thread::GetLongJumpContext], on this state. *)
Definition GetLongJumpContext : M TState Context :=
  s <- get ;;
  match context s with
  | None => ret Context_Create
  | Some result =>
      (* Avoid context being shared. *)
      modify (fun s => {| visited := visited s; context := None |}) ;;
      ret result
  end.

(** Modelled from the spec: [Thread::ReleaseLongJumpContext] (thread.h)
    is not in [thread.cc]. The long-jump context is moved between the
    stack walker and back to the thread afterwards, with one owner at a
    time. *)
Definition ReleaseLongJumpContext (c : Context) : M TState unit :=
  modify (fun s => {| visited := visited s; context := Some c |}).

Section WithThread.

Variable om : ObjectModel.
Variable gi : Roots.GcInfo.
(** [exception_], [peer_] and [class_loader_override_]. *)
Variable exception_ : Z.
Variable peer_ : Z.
Variable class_loader_override_ : Z.
(** The callbacks that [jni_env_->locals.VisitRoots] and
    [jni_env_->monitors.VisitRoots] make (reference_table.cc,
    indirect_reference_table.cc). *)
Variable locals_roots : list Z.
Variable monitors_roots : list Z.
Variable top_sirt_ : list Sirt.StackIndirectReferenceTable.

Definition visitor (root : Z) : M TState unit :=
  lift_roots (Roots.root_visitor_ root).

(** [Thread::VisitRoots], on the stack [frames]. *)
Definition VisitRoots (frames : list Frame) : M TState unit :=
  when (negb (exception_ =? NULL)) (visitor exception_) ;;
  when (negb (peer_ =? NULL)) (visitor peer_) ;;
  when (negb (class_loader_override_ =? NULL)) (visitor class_loader_override_) ;;
  Roots.for_each visitor locals_roots ;;
  Roots.for_each visitor monitors_roots ;;
  Roots.for_each visitor (Sirt.SirtVisitRoots top_sirt_) ;;
  (* Visit roots on this thread's stack *)
  context <- GetLongJumpContext ;;
  lift_roots (WalkStackM (Roots.VisitFrame om gi) frames) ;;
  ReleaseLongJumpContext context.

(** The callbacks of the visit of one frame. *)
Definition roots_of_frame (f : Frame) : list Z :=
  match GetCurrentShadowFrame f with
  | Some shadow_frame => Roots.ShadowFrame_VisitRoots gi shadow_frame
  | None =>
      let m := GetMethod f in
      if IsNative om m || IsRuntimeMethod om m || IsProxyMethod om m then []
      else
        match Roots.FindBitMap gi m (GetDexPc f) with
        | Some reg_bitmap =>
            map (Roots.reference_in gi f) (Roots.live_registers gi f reg_bitmap)
        | None => []
        end
  end.

(** The checks of [ReferenceMapVisitor::VisitFrame] pass on a frame. *)
Definition frame_checks_pass (f : Frame) : Prop :=
  match GetCurrentShadowFrame f with
  | Some _ => True
  | None =>
      let m := GetMethod f in
      if IsNative om m || IsRuntimeMethod om m || IsProxyMethod om m then True
      else exists reg_bitmap, Roots.checks_pass gi f reg_bitmap
  end.

End WithThread.

End ThreadRoots.

(** ** The stack trace elements of an internal stack trace *)

Module StackTraceElements.

(** What [InternalStackTraceToStackTraceElementArray] writes: the array
    [java_traces] and, through [stack_depth] when it is not [NULL], the
    number of frames. *)
Record EState : Type := mkEState {
  java_traces : list Z;
  stack_depth : option Z
}.

(** How the body of the loop ends for one frame: with the element to
    store, with a failed allocation (the function returns [NULL]) or with
    a failed [CHECK]. *)
Inductive Built : Type :=
| Element (obj : Z)
| AllocationFailed
| CheckFailed.

Section WithObjectModel.

Variable om : ObjectModel.
(** [mh.GetLineNumFromDexPC(dex_pc)], [mh.GetDeclaringClassDescriptor()]
    and [mh.GetName()] for a method, [NULL] as [None], and
    [PrettyDescriptor]. *)
Variable GetLineNumFromDexPC : Z -> Z -> Z.
Variable GetDeclaringClassDescriptor : Z -> option string.
Variable GetName : Z -> option string.
Variable PrettyDescriptor : string -> string.
(** The allocations of the iteration [i]: the first, second and third
    [String::AllocFromModifiedUtf8] and [StackTraceElement::Alloc];
    [NULL] when they fail. *)
Variable AllocFromModifiedUtf8 : Z -> Z -> option string -> Z.
Variable StackTraceElement_Alloc : Z -> Z -> Z -> Z -> Z -> Z.
(** Whether [AllocStackTraceElementArray(depth)] succeeds. *)
Variable AllocStackTraceElementArray : Z -> bool.

(** The body of the loop up to [java_traces->Set(i, obj)]. *)
Definition build_element (i method dex_pc : Z) : Built :=
  let line_number := GetLineNumFromDexPC method dex_pc in
  (* Allocate element, potentially triggering GC *)
  match GetDeclaringClassDescriptor method with
  | None => CheckFailed   (* CHECK(descriptor != NULL) *)
  | Some descriptor =>
      let class_name := PrettyDescriptor descriptor in
      let class_name_object := AllocFromModifiedUtf8 i 0 (Some class_name) in
      if class_name_object =? NULL then AllocationFailed
      else
        match GetName method with
        | None => CheckFailed   (* CHECK(method_name != NULL) *)
        | Some method_name =>
            let method_name_object := AllocFromModifiedUtf8 i 1 (Some method_name) in
            if method_name_object =? NULL then AllocationFailed
            else
              let source_file := GetDeclaringClassSourceFile om method in
              let source_name_object := AllocFromModifiedUtf8 i 2 source_file in
              let obj := StackTraceElement_Alloc i class_name_object
                           method_name_object source_name_object line_number in
              if obj =? NULL then AllocationFailed else Element obj
        end
  end.

(** The loop [for (int32_t i = 0; i < depth; ++i)], over the values of
    [i] that are left: whether it went through. *)
Fixpoint elements_loop (method_trace pc_trace : list Z) (indices : list Z)
  : M EState bool :=
  match indices with
  | [] => ret true
  | i :: rest =>
      let method := nth (Z.to_nat i) method_trace NULL in
      let dex_pc := nth (Z.to_nat i) pc_trace 0 in
      match build_element i method dex_pc with
      | CheckFailed => abort
      | AllocationFailed => ret false
      | Element obj =>
          modify (fun s => {| java_traces := StackTrace.Set_ (java_traces s) i obj;
                              stack_depth := stack_depth s |}) ;;
          elements_loop method_trace pc_trace rest
      end
  end.

(** [Thread::InternalStackTraceToStackTraceElementArray]: [method_trace]
    is the array that [internal] refers to and [pc_trace] the array that
    its last element refers to; [output_array] is [None] for [NULL];
    the result is whether the array returned is not [NULL]. *)
Definition InternalStackTraceToStackTraceElementArray
    (method_trace pc_trace : list Z) (output_array : option (list Z))
    (stack_depth_given : bool) : M EState bool :=
  (* Decode the internal stack trace into the depth, method trace and PC
     trace *)
  let depth := wrap_int (Z.of_nat (List.length method_trace) - 1) in
  let prepared :=
    match output_array with
    | Some java_traces =>
        (* Reuse the array we were given, adjusting the number of frames
           we'll write to not exceed the array length. *)
        Some (java_traces, Z.min depth (Z.of_nat (List.length java_traces)))
    | None =>
        (* Create java_trace array and place in local reference table *)
        if AllocStackTraceElementArray depth
        then Some (repeat NULL (Z.to_nat depth), depth)
        else None
    end in
  match prepared with
  | None => ret false
  | Some (java_traces, depth) =>
      modify (fun s =>
        {| java_traces := java_traces;
           stack_depth := if stack_depth_given then Some depth else stack_depth s |}) ;;
      elements_loop method_trace pc_trace (Roots.counter_values depth)
  end.

End WithObjectModel.

End StackTraceElements.

(** ** Throwing a new exception that wraps the pending one *)

Module Wrapped.

(** The JNI calls of [ThrowNewWrappedException], in order. *)
Inductive WEvent : Type :=
| WFindClass (descriptor : string)
| WAllocObject (class : Z)
| WSetDetailMessage (throwable : Z) (msg : string)
| WThrowNew (class : Z) (msg : string) (cause : Z).

(** The state it runs in: the thread's pending exception, the JNI calls
    made and the log. *)
Record WState : Type := mkWState {
  pending : Z;
  wevents : list WEvent;
  wlog : list LogLine
}.

Definition wemit (e : WEvent) : M WState unit :=
  modify (fun s => {| pending := pending s; wevents := wevents s ++ [e];
                      wlog := wlog s |}).

Definition set_pending (e : Z) : M WState unit :=
  modify (fun s => {| pending := e; wevents := wevents s; wlog := wlog s |}).

Definition WLOG (sev : Severity) (msg : list Token) : M WState unit :=
  fun s =>
    let s' := {| pending := pending s; wevents := wevents s;
                 wlog := wlog s ++ [(sev, msg)] |} in
    match sev with
    | FATAL => (Abort, s')
    | _ => (Ok tt, s')
    end.

(** [CHECK(IsExceptionPending())]. *)
Definition CHECK_pending : M WState unit :=
  s <- get ;;
  if negb (pending s =? NULL) then ret tt
  else WLOG FATAL [Str "Check failed: IsExceptionPending()"].

(** The last character of a string, and the string without it. *)
Fixpoint last_char (d : string) : option Ascii.ascii :=
  match d with
  | EmptyString => None
  | String c EmptyString => Some c
  | String _ rest => last_char rest
  end.

Fixpoint erase_last (d : string) : string :=
  match d with
  | EmptyString => EmptyString
  | String _ EmptyString => EmptyString
  | String c rest => String c (erase_last rest)
  end.

(** The characters [L] and [;]. *)
Definition char_L : Ascii.ascii := Ascii.ascii_of_nat 76.
Definition char_semicolon : Ascii.ascii := Ascii.ascii_of_nat 59.

Definition is_char (c : Ascii.ascii) (o : option Ascii.ascii) : bool :=
  match o with
  | Some c' => Ascii.eqb c c'
  | None => false
  end.

Section WithJni.

(** [env->FindClass(descriptor)] and [env->AllocObject(class)]: the
    class or the object, or for [NULL] the exception that the failed
    call left pending (jni_internal.cc). *)
Variable FindClass : string -> Z + Z.
Variable AllocObject : Z -> Z + Z.
(** [::art::ThrowNewException(env, class, msg, cause)]: the code it
    returns ([JNI_OK] is 0) and the exception pending after it. *)
Variable ThrowNew : Z -> string -> Z -> Z * Z.
Variable IsStarted : bool.
(** [PrettyTypeOf(GetException())]. *)
Variable PrettyTypeOf : Z -> string.

(** The log line of a failed JNI call. *)
Definition could_not_throw (descriptor what : string) : M WState unit :=
  s <- get ;;
  WLOG ERROR [Str "Couldn't throw new "; Str descriptor; Str " because JNI ";
              Str what; Str " failed: "; Str (PrettyTypeOf (pending s))].

(** [Thread::ThrowNewWrappedException]. A reference is the address of
    its object. For the descriptor [L] alone the source reads outside of
    an empty string; the model ends the call there. *)
Definition ThrowNewWrappedException (exception_class_descriptor msg : string)
  : M WState unit :=
  (* Convert "Ljava/lang/Exception;" into JNI-style "java/lang/Exception". *)
  match exception_class_descriptor with
  | String first descriptor =>
      if negb (Ascii.eqb first char_L) then
        WLOG FATAL [Str "Check failed: 'L' == exception_class_descriptor[0]"]
      else if negb (is_char char_semicolon (last_char descriptor)) then
        WLOG FATAL [Str "Check failed: ';' == descriptor[descriptor.length() - 1]"]
      else
        let descriptor := erase_last descriptor in
        s <- get ;;
        let cause := pending s in     (* env->ExceptionOccurred() *)
        set_pending NULL ;;            (* env->ExceptionClear() *)
        wemit (WFindClass descriptor) ;;
        match FindClass descriptor with
        | inr left_pending =>
            set_pending left_pending ;;
            could_not_throw descriptor "FindClass" ;;
            CHECK_pending
        | inl exception_class =>
            if negb IsStarted then
              (* Something is trying to throw an exception without a started
                 runtime. We won't be able to invoke the constructor of the
                 exception, so use AllocObject which will not invoke a
                 constructor. *)
              wemit (WAllocObject exception_class) ;;
              match AllocObject exception_class with
              | inl exception =>
                  wemit (WSetDetailMessage exception msg) ;;
                  set_pending exception
              | inr left_pending =>
                  set_pending left_pending ;;
                  could_not_throw descriptor "AllocObject" ;;
                  CHECK_pending
              end
            else
              wemit (WThrowNew exception_class msg cause) ;;
              let (rc, left_pending) := ThrowNew exception_class msg cause in
              set_pending left_pending ;;
              if negb (rc =? 0) then
                could_not_throw descriptor "ThrowNew" ;;
                CHECK_pending
              else ret tt
        end
  | EmptyString =>
      WLOG FATAL [Str "Check failed: 'L' == exception_class_descriptor[0]"]
  end.

End WithJni.

End Wrapped.

(** * Properties *)

(** ** Machine integers *)

Lemma wrap_int_id (z : Z) : INT_MIN <= z <= INT_MAX -> wrap_int z = z.
Proof.
  unfold wrap_int, INT_MIN, INT_MAX. intros H.
  rewrite Z.mod_small by lia. lia.
Qed.

Lemma wrap_u32_id (z : Z) : 0 <= z < 4294967296 -> wrap_u32 z = z.
Proof. intros H. unfold wrap_u32. now apply Z.mod_small. Qed.


(** ** Suspend accounting *)

Section SuspendFacts.

Import Suspend.

Variable rt : Runtime.

(** Past its entry assertions, [ModifySuspendCount] is the guarded
    update of the two counters. *)
Lemma ModifySuspendCount_body (d : Z) (f : bool) (w : World) :
  entry_assertions rt d w ->
  ModifySuspendCount rt d f w =
  if (d =? -1) && (suspend_count_ (this w) <=? 0) then
    if IsStillStarting (this w) then (Ok tt, w)
    else UnsafeLogFatalForSuspendCount rt w
  else
    (Ok tt,
     set_this
       (let t := set_suspend_count_ (wrap_int (suspend_count_ (this w) + d)) (this w) in
        if f then set_debug_suspend_count_ (wrap_int (debug_suspend_count_ t + d)) t
        else t) w).
Proof.
  intros Ha. unfold entry_assertions in Ha.
  unfold ModifySuspendCount, DCHECK.
  generalize (UnsafeLogFatalForSuspendCount rt). intros fatal.
  destruct (kIsDebugBuild rt).
  - destruct Ha as (Hd & Hge & Hl); [reflexivity|].
    assert (E : (d =? -1) || (d =? 1)
                || (d =? wrap_int (- debug_suspend_count_ (this w))) = true).
    { destruct Hd as [-> | [-> | Hd]]; [reflexivity | reflexivity |].
      rewrite <- Hd, Z.eqb_refl. now rewrite !orb_true_r. }
    apply Z.geb_le in Hge.
    unfold bind, get. rewrite E, Hge, Hl. cbn.
    destruct ((d =? -1) && (suspend_count_ (this w) <=? 0)).
    + destruct (IsStillStarting (this w)); cbn; [reflexivity|].
      destruct (fatal w) as [[[]| |] w']; reflexivity.
    + destruct f; reflexivity.
  - unfold bind, get. cbn.
    destruct ((d =? -1) && (suspend_count_ (this w) <=? 0)).
    + destruct (IsStillStarting (this w)); cbn; [reflexivity|].
      destruct (fatal w) as [[[]| |] w']; reflexivity.
    + destruct f; reflexivity.
Qed.

(** [UnsafeLogFatalForSuspendCount] never returns: it aborts, having
    logged some warnings and then the fatal line that carries the thread
    list dump; the thread itself is left as it was. *)
Lemma UnsafeLogFatalForSuspendCount_aborts (w : World) :
  exists w' warnings,
    UnsafeLogFatalForSuspendCount rt w = (Abort, w')
    /\ this w' = this w
    /\ Forall (fun l => fst l = WARNING) warnings
    /\ log w' = log w ++ warnings
                ++ [(FATAL, Ptr (this_addr w) :: Str " suspend count already zero.\n"
                            :: thread_list_dump rt)].
Proof.
  destruct w as [a t [l1 l2 l3] lg].
  unfold UnsafeLogFatalForSuspendCount, bind, get, modify, when, LOG, ret. cbn.
  destruct (l2 || mutator_SharedTryLock_succeeds rt); cbn;
    destruct (l3 || thread_list_TryLock_succeeds rt); cbn.
  - eexists; exists []. repeat split; constructor.
  - eexists; exists [(WARNING, [Str "Dumping thread list without holding thread_list_lock_"])].
    repeat split; [repeat constructor | cbn; now rewrite <- app_assoc].
  - eexists; exists [(WARNING, [Str "Dumping thread list without holding mutator_lock_"])].
    repeat split; [repeat constructor | cbn; now rewrite <- app_assoc].
  - eexists; exists [(WARNING, [Str "Dumping thread list without holding mutator_lock_"]);
                     (WARNING, [Str "Dumping thread list without holding thread_list_lock_"])].
    repeat split; [repeat constructor | cbn; now rewrite <- !app_assoc].
Qed.



(** C6. A call [ModifySuspendCount(-1, _)] made while
    [suspend_count_ <= 0] (and passing the entry assertions of a debug
    build): if the thread is still starting, the call returns and leaves
    the thread, both counters included, as it was; otherwise it aborts,
    and the last line logged before the abort is the fatal one carrying
    the dump of the thread list, after at most some warnings. *)
Theorem ModifySuspendCount_decrement_at_zero (f : bool) (w : World) :
  suspend_count_ (this w) <= 0 ->
  (kIsDebugBuild rt = true ->
   debug_suspend_count_ (this w) <= suspend_count_ (this w)
   /\ thread_suspend_count_lock_held (locks w) = true) ->
  (IsStillStarting (this w) = true ->
   ModifySuspendCount rt (-1) f w = (Ok tt, w))
  /\ (IsStillStarting (this w) = false ->
      exists w' warnings,
        ModifySuspendCount rt (-1) f w = (Abort, w')
        /\ suspend_count_ (this w') = suspend_count_ (this w)
        /\ debug_suspend_count_ (this w') = debug_suspend_count_ (this w)
        /\ Forall (fun l => fst l = WARNING) warnings
        /\ log w' = log w ++ warnings
                    ++ [(FATAL, Ptr (this_addr w)
                                :: Str " suspend count already zero.\n"
                                :: thread_list_dump rt)]).
Proof.
  intros Hz Hdbg.
  assert (Hbody := ModifySuspendCount_body (-1) f w).
  rewrite Hbody by (intros Hb; destruct (Hdbg Hb); repeat split; auto).
  apply Z.leb_le in Hz. rewrite Hz. cbn.
  split; intros Hs; rewrite Hs; [reflexivity|].
  destruct (UnsafeLogFatalForSuspendCount_aborts w) as (w' & ws & E & Ht & Hw & Hl).
  exists w', ws. rewrite Ht. repeat split; assumption.
Qed.

End SuspendFacts.



(** The other ways of breaking the invariant within the contract as
    stated: a debugger suspend undone by a plain resume, the
    force-clearing delta passed without [for_debugger], and an increment
    at [INT_MAX]. *)
Example ModifySuspendCount_plain_resume_of_debugger_suspend :
  Suspend.respects Suspend.debug_build Suspend.api_contract
    [Suspend.mkCall 1 true; Suspend.mkCall (-1) false] Suspend.world0 = true
  /\ map (fun w => (suspend_count_ (this w), debug_suspend_count_ (this w)))
         (Suspend.run Suspend.debug_build
            [Suspend.mkCall 1 true; Suspend.mkCall (-1) false] Suspend.world0)
     = [(1, 1); (0, 1)].
Proof. split; vm_compute; reflexivity. Qed.

Example ModifySuspendCount_force_clear_not_for_debugger :
  Suspend.respects Suspend.debug_build Suspend.api_contract
    [Suspend.mkCall 1 true; Suspend.mkCall 1 true; Suspend.mkCall 1 false;
     Suspend.mkCall (-2) false] Suspend.world0 = true
  /\ map (fun w => (suspend_count_ (this w), debug_suspend_count_ (this w)))
         (Suspend.run Suspend.debug_build
            [Suspend.mkCall 1 true; Suspend.mkCall 1 true; Suspend.mkCall 1 false;
             Suspend.mkCall (-2) false] Suspend.world0)
     = [(1, 1); (2, 2); (3, 2); (1, 2)].
Proof. split; vm_compute; reflexivity. Qed.

Example ModifySuspendCount_increment_at_INT_MAX :
  map (fun w => (suspend_count_ (this w), debug_suspend_count_ (this w)))
      (Suspend.run Suspend.debug_build [Suspend.mkCall 1 false]
         (set_this (set_suspend_count_ INT_MAX Thread_new) Suspend.world0))
  = [(INT_MIN, 0)].
Proof. vm_compute. reflexivity. Qed.

(** Witness of [ModifySuspendCount_decrement_at_zero]: a freshly
    attached thread is resumed by a GC that never suspended it. *)
Lemma ModifySuspendCount_decrement_at_zero_witness :
  Suspend.ModifySuspendCount Suspend.debug_build (-1) false Suspend.world0
  = (Ok tt, Suspend.world0).
Proof.
  apply (ModifySuspendCount_decrement_at_zero Suspend.debug_build false Suspend.world0).
  - cbn; lia.
  - intros _; cbn; split; [lia | reflexivity].
  - reflexivity.
Defined.

(** A resume of a started thread that nobody suspended: the process is
    aborted, the thread list dump in the fatal line. *)
Example ModifySuspendCount_underflow_is_fatal :
  Suspend.ModifySuspendCount Suspend.release_build (-1) false Suspend.started_world
  = (Abort,
     {| this_addr := 4096;
        this := set_name_ "main" Thread_new;
        locks := {| thread_suspend_count_lock_held := false;
                    mutator_lock_shared_held := true;
                    thread_list_lock_held := true |};
        log := [(FATAL, [Ptr 4096; Str " suspend count already zero.\n";
                         Str "DALVIK THREADS:\n"])] |}).
Proof. vm_compute. reflexivity. Qed.

(** ** The stack dump visitor *)

Section DumpFacts.

Import Dump.

Variable om : ObjectModel.
Variable DescribeWait : list Token.
Variable DescribeLocks : Frame -> list Token.

(** A frame that repeats the previous one. *)
Lemma VisitFrame_repeat (f : Frame) (o : list Token) (ca : bool)
    (lm ll rc fc : Z) :
  IsRuntimeMethod om (GetMethod f) = false ->
  GetMethod f = lm ->
  line_number_of om f = ll ->
  0 <= rc < 1000 ->
  VisitFrame om DescribeWait DescribeLocks f (mkStackDumpVisitor o ca lm ll rc fc)
  = (true,
     mkStackDumpVisitor
       (o ++ if rc + 1 <? kMaxRepetition
             then frame_lines om DescribeWait DescribeLocks ca fc f else [])
       ca lm ll (rc + 1) (wrap_int (fc + 1))).
Proof.
  intros Hrt <- <- Hrc. unfold VisitFrame.
  cbn [os can_allocate last_method last_line_number repetition_count frame_count].
  rewrite Hrt, !Z.eqb_refl. cbn [andb].
  cbn [os can_allocate last_method last_line_number repetition_count frame_count].
  rewrite (wrap_int_id (rc + 1)) by (unfold INT_MIN, INT_MAX; lia).
  destruct (rc + 1 <? kMaxRepetition); cbn; [reflexivity|].
  now rewrite app_nil_r.
Qed.

(** A frame that differs from the previous one. *)
Lemma VisitFrame_change (f : Frame) (o : list Token) (ca : bool) (lm ll rc fc : Z) :
  IsRuntimeMethod om (GetMethod f) = false ->
  GetMethod f <> lm \/ line_number_of om f <> ll ->
  0 <= rc < 1000 ->
  VisitFrame om DescribeWait DescribeLocks f (mkStackDumpVisitor o ca lm ll rc fc)
  = (true,
     mkStackDumpVisitor
       ((o ++ if rc >=? kMaxRepetition
              then [Str "  ... repeated "; Num (rc - kMaxRepetition); Str " times\n"]
              else [])
        ++ frame_lines om DescribeWait DescribeLocks ca fc f)
       ca (GetMethod f) (line_number_of om f) 0 (wrap_int (fc + 1))).
Proof.
  intros Hrt Hd Hrc. unfold VisitFrame.
  cbn [os can_allocate last_method last_line_number repetition_count frame_count].
  rewrite Hrt.
  assert (E : (line_number_of om f =? ll) && (lm =? GetMethod f) = false).
  { apply andb_false_iff. destruct Hd as [Hd | Hd].
    - right. apply Z.eqb_neq. congruence.
    - left. now apply Z.eqb_neq. }
  rewrite E.
  cbn [os can_allocate last_method last_line_number repetition_count frame_count].
  rewrite (wrap_int_id (rc - kMaxRepetition))
    by (unfold INT_MIN, INT_MAX, kMaxRepetition; lia).
  reflexivity.
Qed.

(** The same for any run of five: whatever the method, the line and the
    frame that ends the run, three frames are printed and the count
    written is 1. *)
Lemma StackDumpVisitor_run_of_five (ca : bool) (f1 f2 f3 f4 f5 g : Frame)
    (m line : Z) :
  IsRuntimeMethod om m = false ->
  IsRuntimeMethod om (GetMethod g) = false ->
  m <> NULL ->
  Forall (fun f => GetMethod f = m /\ line_number_of om f = line)
         [f1; f2; f3; f4; f5] ->
  GetMethod g <> m \/ line_number_of om g <> line ->
  dump om DescribeWait DescribeLocks ca [f1; f2; f3; f4; f5; g]
  = frame_lines om DescribeWait DescribeLocks ca 0 f1
    ++ frame_lines om DescribeWait DescribeLocks ca 1 f2
    ++ frame_lines om DescribeWait DescribeLocks ca 2 f3
    ++ [Str "  ... repeated "; Num 1; Str " times\n"]
    ++ frame_lines om DescribeWait DescribeLocks ca 5 g.
Proof.
  intros Hrt Hrg Hm Hall Hg.
  repeat match goal with
         | H : Forall _ (_ :: _) |- _ =>
             let Hh := fresh "Hh" in
             let Hl := fresh "Hl" in
             inversion H as [|? ? [Hh Hl] ?]; subst; clear H
         end.
  unfold dump, StackDumpVisitor_new. cbn [WalkStack].
  rewrite VisitFrame_change by (auto; lia).
  do 4 (rewrite VisitFrame_repeat by (try congruence; lia)).
  rewrite VisitFrame_change by (auto; lia).
  cbn [os]. change (0 + 1 + 1 + 1 + 1 - kMaxRepetition) with 1.
  change (wrap_int (wrap_int (wrap_int (wrap_int (wrap_int (0 + 1) + 1) + 1) + 1) + 1))
    with 5.
  change (wrap_int (wrap_int (0 + 1) + 1)) with 2.
  change (wrap_int (0 + 1)) with 1.
  cbn [Z.add Z.ltb Z.geb Z.compare Pos.add Pos.succ Pos.compare Pos.compare_cont
       kMaxRepetition].
  rewrite !app_nil_r. cbn [app]. now rewrite <- !app_assoc.
Qed.

End DumpFacts.

(** C9, on the code. Five consecutive frames of the same method at the
    same line, followed by a different frame: the frame is printed three
    times (repetition counts 0, 1, 2), two frames are left out, and the
    line written when the run ends reads "repeated 1 times", since
    [repetition_count] is 4 there and 4 - [kMaxRepetition] is 1. *)
Theorem StackDumpVisitor_five_repeats_print_1 :
  Dump.dump Dump.example_om [] (fun _ => []) false Dump.five_then_one
  = [Str "  at "; Str "Loop.spin"; Str "("; Str "unavailable"; Str ":"; Num 7; Str ")"; Str "\n";
     Str "  at "; Str "Loop.spin"; Str "("; Str "unavailable"; Str ":"; Num 7; Str ")"; Str "\n";
     Str "  at "; Str "Loop.spin"; Str "("; Str "unavailable"; Str ":"; Num 7; Str ")"; Str "\n";
     Str "  ... repeated "; Num 1; Str " times\n";
     Str "  at "; Str "Main.main"; Str "("; Str "unavailable"; Str ":"; Num 3; Str ")"; Str "\n"].
Proof. vm_compute. reflexivity. Qed.

(** ** Exception delivery *)

Section CatchFacts.

Import Catch.

Variable om : ObjectModel.
Variable ci : CodeInfo.

Lemma VisitFrame_keeps_search (f : Frame) (v : CatchBlockStackVisitor) :
  to_find_ (snd (VisitFrame om ci f v)) = to_find_ v
  /\ method_tracing_active_ (snd (VisitFrame om ci f v)) = method_tracing_active_ v.
Proof.
  unfold VisitFrame.
  destruct (GetMethod f =? NULL); [now split|].
  destruct (IsRuntimeMethod om (GetMethod f));
    destruct (negb (dex_pc_of om ci (method_tracing_active_ v) f =? kDexNoIndex ci));
    try destruct (negb (FindCatchBlock ci (GetMethod f) (to_find_ v)
                          (dex_pc_of om ci (method_tracing_active_ v) f)
                        =? kDexNoIndex ci));
    now split.
Qed.

(** A frame that does not decide is passed over. *)
Lemma VisitFrame_continues (f : Frame) (v : CatchBlockStackVisitor) :
  decides om ci (to_find_ v) (method_tracing_active_ v) f = false ->
  fst (VisitFrame om ci f v) = true.
Proof.
  unfold decides, has_handler, VisitFrame. intros H.
  apply orb_false_iff in H as [Hn H]. rewrite Hn in *. cbn in H.
  destruct (negb (dex_pc_of om ci (method_tracing_active_ v) f =? kDexNoIndex ci));
    [|reflexivity].
  cbn in H. rewrite H. reflexivity.
Qed.

(** A frame that decides ends the walk and is recorded. *)
Lemma VisitFrame_stops (f : Frame) (v : CatchBlockStackVisitor) :
  decides om ci (to_find_ v) (method_tracing_active_ v) f = true ->
  let found := FindCatchBlock ci (GetMethod f) (to_find_ v)
                 (dex_pc_of om ci (method_tracing_active_ v) f) in
  fst (VisitFrame om ci f v) = false
  /\ handler_quick_frame_ (snd (VisitFrame om ci f v)) = GetCurrentQuickFrame f
  /\ (GetMethod f = NULL ->
      handler_quick_frame_pc_ (snd (VisitFrame om ci f v)) = GetCurrentQuickFramePc f
      /\ handler_dex_pc_ (snd (VisitFrame om ci f v)) = handler_dex_pc_ v)
  /\ (GetMethod f <> NULL ->
      found <> kDexNoIndex ci
      /\ handler_dex_pc_ (snd (VisitFrame om ci f v)) = found
      /\ handler_quick_frame_pc_ (snd (VisitFrame om ci f v))
         = ToNativePC ci (GetMethod f) found).
Proof.
  unfold decides, has_handler, VisitFrame. intros H. cbv zeta.
  destruct (GetMethod f =? NULL) eqn:Hn.
  - apply Z.eqb_eq in Hn. cbn. repeat split; try reflexivity; intros; congruence.
  - apply Z.eqb_neq in Hn. cbn in H.
    apply andb_true_iff in H as [H1 H2]. rewrite H1, H2. cbn.
    split; [reflexivity|]. split; [reflexivity|].
    split; [intros E; congruence|]. intros _.
    split; [|split; reflexivity].
    intros E. rewrite E, Z.eqb_refl in H2. discriminate.
Qed.

Lemma VisitFrame_keeps_exception (f : Frame) (v : CatchBlockStackVisitor) :
  exception_ (snd (VisitFrame om ci f v)) = exception_ v
  /\ context_ (snd (VisitFrame om ci f v)) = context_ v.
Proof.
  unfold VisitFrame.
  destruct (GetMethod f =? NULL); [now split|].
  destruct (IsRuntimeMethod om (GetMethod f));
    destruct (negb (dex_pc_of om ci (method_tracing_active_ v) f =? kDexNoIndex ci));
    try destruct (negb (FindCatchBlock ci (GetMethod f) (to_find_ v)
                          (dex_pc_of om ci (method_tracing_active_ v) f)
                        =? kDexNoIndex ci));
    now split.
Qed.

Lemma WalkStack_keeps_exception (frames : list Frame) (v : CatchBlockStackVisitor) :
  exception_ (WalkStack (VisitFrame om ci) frames v) = exception_ v
  /\ context_ (WalkStack (VisitFrame om ci) frames v) = context_ v.
Proof.
  revert v. induction frames as [|f fs IH]; intros v; cbn [WalkStack].
  - now split.
  - destruct (VisitFrame_keeps_exception f v) as [He Hc].
    destruct (VisitFrame om ci f v) as [[] v1]; cbn in He, Hc.
    + destruct (IH v1) as [He1 Hc1]. split; congruence.
    + now split.
Qed.

(** C4. The catch search visits the frames innermost first and stops at
    the first frame that decides the transfer target, whatever lies
    outside it: if that frame has no method (the upcall marker), it is
    recorded as the target, with its program counter; otherwise it is
    the innermost frame whose method (one that executes bytecode) has a
    catch block for the thrown class at the frame's program counter, and
    it is recorded as the handler frame with the handler's dex and
    native program counters. *)
Theorem catch_search_innermost_wins (inner outer : list Frame) (f : Frame)
    (v0 : CatchBlockStackVisitor) :
  Forall (fun g => decides om ci (to_find_ v0) (method_tracing_active_ v0) g = false)
         inner ->
  decides om ci (to_find_ v0) (method_tracing_active_ v0) f = true ->
  let v := WalkStack (VisitFrame om ci) (inner ++ f :: outer) v0 in
  let found := FindCatchBlock ci (GetMethod f) (to_find_ v0)
                 (dex_pc_of om ci (method_tracing_active_ v0) f) in
  v = WalkStack (VisitFrame om ci) (inner ++ [f]) v0
  /\ handler_quick_frame_ v = GetCurrentQuickFrame f
  /\ (GetMethod f = NULL ->
      handler_quick_frame_pc_ v = GetCurrentQuickFramePc f)
  /\ (GetMethod f <> NULL ->
      found <> kDexNoIndex ci
      /\ handler_dex_pc_ v = found
      /\ handler_quick_frame_pc_ v = ToNativePC ci (GetMethod f) found).
Proof.
  revert v0. induction inner as [|g inner IH]; intros v0 Hin Hf; cbn [app WalkStack].
  - destruct (VisitFrame_stops f v0 Hf) as (Hs & Hq & Hu & Hh).
    destruct (VisitFrame om ci f v0) as [b v1]. cbn in *. subst b.
    repeat split; try assumption.
    + intros Hn. now apply Hu.
    + now apply Hh.
    + now apply Hh.
    + now apply Hh.
  - inversion Hin as [|? ? Hg Hin']; subst.
    pose proof (VisitFrame_continues g v0 Hg) as Hc.
    destruct (VisitFrame_keeps_search g v0) as [Ht Hm].
    destruct (VisitFrame om ci g v0) as [b v1]. cbn in *. subst b.
    rewrite <- Ht, <- Hm in Hin', Hf.
    specialize (IH v1 Hin' Hf). cbv zeta in IH.
    rewrite Ht, Hm in IH. exact IH.
Qed.

End CatchFacts.

Section DeliveryFacts.

Import Delivery.

Variable om : ObjectModel.
Variable ci : CodeInfo.
Variable jump_returns : bool.
Variable GetClass : Z -> Z.
Variable IsMethodTracingActive : bool.

(** [CatchBlockStackVisitor::DoLongJump], run: a [NULL] handler frame
    ends the process at the first read; a handler program counter of 0
    fails the check, with the exception already back on the thread;
    otherwise the context is put back on the thread with the handler's
    stack pointer and program counter and the jump is triggered. *)
Lemma DoLongJump_run (v : Catch.CatchBlockStackVisitor) (s : DState) :
  let sp := Catch.handler_quick_frame_ v in
  let pc := Catch.handler_quick_frame_pc_ v in
  let reinstated :=
    [EvPostException (Catch.throw_frame_id_ v) (Catch.throw_method_ v)
                     (Catch.throw_dex_pc_ v) (method_at ci sp)
                     (Catch.handler_dex_pc_ v) (Catch.exception_ v);
     EvSetException (Catch.exception_ v);
     EvEndAssertNoThreadSuspension] in
  let thread (c : Context) :=
    set_long_jump_context_ (Some c) (set_exception_ (Catch.exception_ v) (self s)) in
  Catch.DoLongJump ci jump_returns v s
  = if sp =? NULL then
      (Abort,
       {| self := self s; events := events s;
          dlog := dlog s ++ [(FATAL, [Str "Check failed: "; Str "SIGSEGV"])] |})
    else if pc =? 0 then
      (Abort,
       {| self := thread {| SP := sp; PC := PC (Catch.context_ v);
                            caller_saves_smashed :=
                              caller_saves_smashed (Catch.context_ v) |};
          events := events s ++ reinstated;
          dlog := dlog s ++ [(FATAL, [Str "Check failed: ";
                                      Str "handler_quick_frame_pc_ != 0u"])] |})
    else
      ((if jump_returns then Ok tt else LongJump sp pc),
       {| self := thread {| SP := sp; PC := pc; caller_saves_smashed := true |};
          events := events s ++ reinstated ++ [EvContextDoLongJump sp pc];
          dlog := dlog s |}).
Proof.
  destruct s as [t ev lg]. cbv zeta.
  unfold Catch.DoLongJump, Catch.update_context, Catch.Context_DoLongJump,
    CHECK, LOG_FATAL, emit, bind, modify, get, ret.
  cbn [self events dlog].
  destruct (Catch.handler_quick_frame_ v =? NULL); cbn [negb]; [reflexivity|].
  destruct (Catch.handler_quick_frame_pc_ v =? 0); cbn [negb].
  - cbn. rewrite <- !app_assoc. reflexivity.
  - cbn. destruct jump_returns; cbn; rewrite <- !app_assoc; reflexivity.
Qed.

(** [DeliverException] up to the end of the stack walk: the exception is
    taken off the thread, the context is taken for the visitor, and
    [DoLongJump] runs on the visitor the walk leaves. *)
Lemma DeliverException_run (frames : list Frame) (s : DState) :
  exception_ (self s) <> NULL ->
  let exception := exception_ (self s) in
  let context := match long_jump_context_ (self s) with
                 | Some c => c
                 | None => Context_Create
                 end in
  DeliverException om ci jump_returns GetClass IsMethodTracingActive frames s
  = bind (Catch.DoLongJump ci jump_returns
            (WalkStack (Catch.VisitFrame om ci) frames
               (Catch.CatchBlockStackVisitor_new context exception
                  (GetClass exception) IsMethodTracingActive)))
         (fun _ => LOG_FATAL [Str "UNREACHABLE"])
         {| self := set_long_jump_context_ None (set_exception_ NULL (self s));
            events := events s
                      ++ [EvClearException;
                          EvStartAssertNoThreadSuspension "Finding catch block";
                          EvWalkStack true NULL];
            dlog := dlog s |}.
Proof.
  intros He. apply Z.eqb_neq in He. cbv zeta.
  destruct s as [t ev lg]. cbn [self events dlog] in *.
  unfold DeliverException, GetLongJumpContext, CHECK.
  unfold bind at 1 2, get. cbn [self]. rewrite He. cbn [negb]. unfold ret at 1.
  unfold bind at 1 2 3 4 5 6 7, emit, modify, get, ret.
  cbn [self events dlog].
  destruct t as [sc ex st [c|] th dsc nm]; cbn;
    unfold bind, emit, modify, get, ret; cbn; rewrite <- !app_assoc; reflexivity.
Qed.

(** C5. [DeliverException] on a thread with a pending exception never
    returns: it ends in an abort or in the long jump. The exception
    slot is cleared before the stack walk for the handler starts: the
    walk finds it [NULL]. With [catch_finder] the visitor that the walk
    leaves, the rest of the call is decided by the handler frame and
    program counter it recorded:
    - no handler frame recorded ([NULL]): the call aborts at the read
      through it, the slot still cleared;
    - a handler program counter of 0: that same exception is set as the
      pending one again, then the check aborts the call;
    - otherwise that same exception is set as the pending one again,
      the context is put back on the thread, and only then the jump is
      triggered, to the recorded frame and program counter; no other
      field of the thread has changed. The call ends in that jump; and
      should the trigger come back, the call aborts with the fatal line
      "UNREACHABLE". *)
Theorem DeliverException_never_returns (frames : list Frame) (s : DState) :
  exception_ (self s) <> NULL ->
  let exception := exception_ (self s) in
  let context := match long_jump_context_ (self s) with
                 | Some c => c
                 | None => Context_Create
                 end in
  let catch_finder :=
    WalkStack (Catch.VisitFrame om ci) frames
      (Catch.CatchBlockStackVisitor_new context exception (GetClass exception)
                                        IsMethodTracingActive) in
  let sp := Catch.handler_quick_frame_ catch_finder in
  let pc := Catch.handler_quick_frame_pc_ catch_finder in
  let searched :=
    events s ++ [EvClearException;
                 EvStartAssertNoThreadSuspension "Finding catch block";
                 EvWalkStack true NULL] in
  let reinstated :=
    [EvPostException (Catch.throw_frame_id_ catch_finder)
                     (Catch.throw_method_ catch_finder)
                     (Catch.throw_dex_pc_ catch_finder) (method_at ci sp)
                     (Catch.handler_dex_pc_ catch_finder) exception;
     EvSetException exception;
     EvEndAssertNoThreadSuspension] in
  exists r s',
    DeliverException om ci jump_returns GetClass IsMethodTracingActive frames s
    = (r, s')
    /\ (forall u, r <> Ok u)
    /\ if sp =? NULL then
         r = Abort
         /\ events s' = searched
         /\ exception_ (self s') = NULL
       else if pc =? 0 then
         r = Abort
         /\ events s' = searched ++ reinstated
         /\ exception_ (self s') = exception
       else
         events s' = searched ++ reinstated ++ [EvContextDoLongJump sp pc]
         /\ exception_ (self s') = exception
         /\ self s' = set_long_jump_context_
                        (Some {| SP := sp; PC := pc; caller_saves_smashed := true |})
                        (self s)
         /\ if jump_returns
            then r = Abort
                 /\ dlog s' = dlog s ++ [(FATAL, [Str "UNREACHABLE"])]
            else r = LongJump sp pc /\ dlog s' = dlog s.
Proof.
  intros He exception context catch_finder sp pc searched reinstated.
  rewrite (DeliverException_run frames s He).
  fold exception context catch_finder.
  assert (Hex : Catch.exception_ catch_finder = exception).
  { subst catch_finder.
    now rewrite (proj1 (WalkStack_keeps_exception om ci frames _)). }
  unfold bind. rewrite DoLongJump_run. cbv zeta.
  fold sp pc. rewrite Hex. fold reinstated. cbn [self events dlog].
  fold searched.
  destruct (sp =? NULL).
  { eexists _, _. split; [reflexivity|]. split; [discriminate|].
    cbn [self events dlog]. split; [reflexivity|]. split; [reflexivity|].
    now destruct (self s). }
  destruct (pc =? 0).
  { eexists _, _. split; [reflexivity|]. split; [discriminate|].
    cbn [self events dlog]. split; [reflexivity|]. split; [reflexivity|].
    now destruct (self s). }
  assert (Hself : set_long_jump_context_
                    (Some {| SP := sp; PC := pc; caller_saves_smashed := true |})
                    (set_exception_ exception
                       (set_long_jump_context_ None (set_exception_ NULL (self s))))
                  = set_long_jump_context_
                      (Some {| SP := sp; PC := pc; caller_saves_smashed := true |})
                      (self s)).
  { subst exception. now destruct (self s). }
  destruct jump_returns.
  - eexists _, _. unfold LOG_FATAL. split; [reflexivity|]. split; [discriminate|].
    cbn [self events dlog]. split; [reflexivity|].
    split; [now destruct (self s)|]. split; [exact Hself|]. split; reflexivity.
  - eexists _, _. split; [reflexivity|]. split; [discriminate|].
    cbn [self events dlog]. split; [reflexivity|].
    split; [now destruct (self s)|]. split; [exact Hself|]. split; reflexivity.
Qed.

End DeliveryFacts.

(** Witness of [catch_search_innermost_wins]: only the outermost of three
    frames declares a handler; the two inner frames are passed over. *)
Lemma catch_search_innermost_wins_witness :
  let v := WalkStack (Catch.VisitFrame Scenario.plain_om Scenario.only_outer_catches)
             Scenario.stack Scenario.finder in
  Catch.handler_quick_frame_ v = GetCurrentQuickFrame Scenario.outer_f
  /\ Catch.handler_dex_pc_ v = 40
  /\ Catch.handler_quick_frame_pc_ v = 70340.
Proof.
  destruct (catch_search_innermost_wins Scenario.plain_om Scenario.only_outer_catches
              [Scenario.inner_f; Scenario.middle_f] [Scenario.upcall_f]
              Scenario.outer_f Scenario.finder)
    as (_ & Hq & _ & Hh).
  - repeat constructor.
  - reflexivity.
  - destruct Hh as (_ & Hd & Hp); [discriminate|].
    split; [exact Hq|]. split; [exact Hd | exact Hp].
Defined.

(** Two frames in sequence declare matching handlers: the inner of the
    two is the handler frame. *)
Example catch_search_two_handlers :
  let v := WalkStack (Catch.VisitFrame Scenario.plain_om Scenario.two_catch)
             Scenario.stack Scenario.finder in
  Catch.handler_quick_frame_ v = GetCurrentQuickFrame Scenario.middle_f
  /\ Catch.handler_dex_pc_ v = 30.
Proof. split; reflexivity. Qed.

(** No handler in managed code: the upcall marker is the target. *)
Example catch_search_no_handler :
  let v := WalkStack (Catch.VisitFrame Scenario.plain_om Scenario.nobody_catches)
             Scenario.stack Scenario.finder in
  Catch.handler_quick_frame_ v = GetCurrentQuickFrame Scenario.upcall_f
  /\ Catch.handler_quick_frame_pc_ v = GetCurrentQuickFramePc Scenario.upcall_f.
Proof. split; reflexivity. Qed.

(** Witness of [DeliverException_never_returns]: the exception at 777 is
    delivered on the example stack; the jump goes to the handler of the
    outermost frame. *)
Lemma DeliverException_never_returns_witness :
  exists s',
    Delivery.DeliverException Scenario.plain_om Scenario.only_outer_catches false
      (fun _ => 42) false Scenario.stack Scenario.throwing
    = (LongJump 9128 70340, s')
    /\ events s' = [EvClearException;
                    EvStartAssertNoThreadSuspension "Finding catch block";
                    EvWalkStack true NULL;
                    EvPostException 0 100 5 300 40 777;
                    EvSetException 777;
                    EvEndAssertNoThreadSuspension;
                    EvContextDoLongJump 9128 70340]
    /\ exception_ (self s') = 777.
Proof.
  destruct (DeliverException_never_returns Scenario.plain_om
              Scenario.only_outer_catches false (fun _ => 42) false
              Scenario.stack Scenario.throwing)
    as (r & s' & Hrun & _ & Hev & Hexc & _ & Hr & _).
  - cbn. discriminate.
  - exists s'. rewrite Hrun, Hr. split; [reflexivity|].
    split; [exact Hev | exact Hexc].
Defined.

(** The delivery of that exception on the example stack, run: the long
    jump is taken to the outermost frame's handler, the exception is
    pending again, and the context is back on the thread. *)
Example DeliverException_takes_the_jump :
  Delivery.DeliverException Scenario.plain_om Scenario.only_outer_catches false
    (fun _ => 42) false Scenario.stack Scenario.throwing
  = (LongJump 9128 70340,
     {| self := set_long_jump_context_
                  (Some {| SP := 9128; PC := 70340; caller_saves_smashed := true |})
                  (set_exception_ 777 Thread_new);
        events := [EvClearException;
                   EvStartAssertNoThreadSuspension "Finding catch block";
                   EvWalkStack true NULL;
                   EvPostException 0 100 5 300 40 777;
                   EvSetException 777;
                   EvEndAssertNoThreadSuspension;
                   EvContextDoLongJump 9128 70340];
        dlog := [] |}).
Proof. vm_compute. reflexivity. Qed.

(** The same delivery with a jump trigger that comes back: the call ends
    at the fatal line, after the jump was triggered. *)
Example DeliverException_trigger_comes_back :
  let run := Delivery.DeliverException Scenario.plain_om Scenario.only_outer_catches
               true (fun _ => 42) false Scenario.stack Scenario.throwing in
  fst run = Abort
  /\ dlog (snd run) = [(FATAL, [Str "UNREACHABLE"])]
  /\ last (events (snd run)) EvClearException = EvContextDoLongJump 9128 70340.
Proof. vm_compute. repeat split. Qed.

(** The same delivery on a stack without frames: the walk records no
    handler frame, the call ends at the read through it and the
    exception stays cleared. *)
Example DeliverException_without_frames :
  let run := Delivery.DeliverException Scenario.plain_om Scenario.only_outer_catches
               false (fun _ => 42) false [] Scenario.throwing in
  fst run = Abort
  /\ exception_ (self (snd run)) = NULL
  /\ events (snd run) = [EvClearException;
                         EvStartAssertNoThreadSuspension "Finding catch block";
                         EvWalkStack true NULL].
Proof. vm_compute. repeat split. Qed.

(** ** The reference resolver *)

Section DecodeFacts.

Import Decode.

Variable debug : bool.
Variable jt : JniTables.

(** C8. For a non-null handle of a recognized kind (local, global, weak
    global), resolved where direct references may be accessed: a weak
    global whose table entry is the cleared sentinel resolves to null,
    with neither an abort nor a heap check; any other entry that is null
    ends in the "use of deleted" abort; and an entry that is neither
    null nor a sentinel (the cleared weak global, the invalid-reference
    object) is passed to the heap check and then, the heap found
    consistent, returned. *)
Theorem DecodeJObject_recognized (obj : Z) (s : JState) :
  obj <> NULL ->
  GetIndirectRefKind jt obj <> kSirtOrInvalid ->
  (debug = true -> CanAccessDirectReferences jt = true) ->
  let kind := GetIndirectRefKind jt obj in
  let entry := table_entry jt obj in
  let cleared := kind = kWeakGlobal /\ entry = kClearedJniWeakGlobal jt in
  (cleared ->
   DecodeJObject debug jt obj s
   = (Ok NULL, {| jevents := jevents s ++ lock_events kind; jlog := jlog s |}))
  /\ (~ cleared -> entry = NULL ->
      DecodeJObject debug jt obj s
      = (Abort,
         {| jevents := jevents s ++ lock_events kind
                       ++ [JJniAbort [Str "use of deleted "; Str (ToStr jt kind);
                                      Str " "; Ptr obj]];
            jlog := jlog s |}))
  /\ (~ cleared -> entry <> NULL -> entry <> kInvalidIndirectRefObject jt ->
      exists s',
        DecodeJObject debug jt obj s
        = (if heap_is_consistent_at jt entry then Ok entry else Abort, s')
        /\ jevents s' = jevents s ++ lock_events kind ++ [JVerifyObject entry]).
Proof.
  intros Hobj Hkind Hdbg. cbv zeta.
  apply Z.eqb_neq in Hobj.
  assert (Hd : debug && negb (CanAccessDirectReferences jt) = false).
  { destruct debug; [|reflexivity]. now rewrite Hdbg. }
  destruct s as [ev lg].
  unfold DecodeJObject, table_entry, lookup, JniAbortF, VerifyObject,
    jemit, jfatal, bind, modify, ret, when, abort.
  rewrite Hd, Hobj. cbn [jevents jlog].
  destruct (GetIndirectRefKind jt obj) eqn:Hk; [congruence| | |].
  - (* local *)
    split; [intros [? _]; discriminate|].
    split.
    + intros _ ->. cbn. reflexivity.
    + intros _ Hn Hi. apply Z.eqb_neq in Hn, Hi. rewrite Hn, Hi. cbn.
      destruct (heap_is_consistent_at jt (locals_Get jt obj));
        eexists; split; reflexivity.
  - (* global *)
    split; [intros [? _]; discriminate|].
    split.
    + intros _ ->. cbn. now rewrite <- !app_assoc.
    + intros _ Hn Hi. apply Z.eqb_neq in Hn, Hi. rewrite Hn, Hi. cbn.
      destruct (heap_is_consistent_at jt (globals_Get jt obj));
        eexists; (split; [reflexivity|]); cbn; now rewrite <- !app_assoc.
  - (* weak global *)
    split.
    + intros [_ ->]. rewrite Z.eqb_refl. cbn. now rewrite <- app_assoc.
    + assert (Hc : forall P : Prop,
                 ~ (kWeakGlobal = kWeakGlobal
                    /\ weak_globals_Get jt obj = kClearedJniWeakGlobal jt) ->
                 (weak_globals_Get jt obj =? kClearedJniWeakGlobal jt) = false).
      { intros _ H. apply Z.eqb_neq. intros E. apply H. now split. }
      split.
      * intros Hnc Hz. rewrite (Hc True Hnc), Hz. cbn. now rewrite <- !app_assoc.
      * intros Hnc Hn Hi. apply Z.eqb_neq in Hn, Hi.
        rewrite (Hc True Hnc), Hn, Hi. cbn.
        destruct (heap_is_consistent_at jt (weak_globals_Get jt obj));
          eexists; (split; [reflexivity|]); cbn; now rewrite <- !app_assoc.
Qed.

End DecodeFacts.

(** Witness of [DecodeJObject_recognized]: the cleared weak global 19,
    the deleted global 18 and the live local 17 of the example tables. *)
Lemma DecodeJObject_recognized_witness :
  Decode.DecodeJObject true Decode.example_tables 19 Decode.state0
  = (Ok NULL,
     {| Decode.jevents := [Decode.JLock "weak_globals_lock";
                           Decode.JUnlock "weak_globals_lock"];
        Decode.jlog := [] |}).
Proof.
  destruct (DecodeJObject_recognized true Decode.example_tables 19 Decode.state0)
    as (Hc & _).
  - discriminate.
  - discriminate.
  - reflexivity.
  - apply Hc. split; reflexivity.
Defined.

Example DecodeJObject_deleted_global :
  Decode.DecodeJObject true Decode.example_tables 18 Decode.state0
  = (Abort,
     {| Decode.jevents := [Decode.JLock "globals_lock"; Decode.JUnlock "globals_lock";
                           Decode.JJniAbort [Str "use of deleted ";
                                             Str "global reference"; Str " "; Ptr 18]];
        Decode.jlog := [] |}).
Proof. vm_compute. reflexivity. Qed.

Example DecodeJObject_live_local :
  Decode.DecodeJObject true Decode.example_tables 17 Decode.state0
  = (Ok 4096, {| Decode.jevents := [Decode.JVerifyObject 4096]; Decode.jlog := [] |}).
Proof. vm_compute. reflexivity. Qed.

(** ** Throwing OutOfMemoryError *)

Section OomFacts.

Import Oom.

Variable preallocated_OOME : Z.
Variable Dump : Thread -> list Token.
Variable ThrowNewWrappedException : string -> string -> M World unit.

(** C10. [ThrowOutOfMemoryError] called while a throw of
    OutOfMemoryError is in progress on the thread returns without going
    through [ThrowNewException] (whatever that would do, nothing is
    allocated): it logs the recursive case and a dump, and leaves the
    pre-allocated OutOfMemoryError pending. Called otherwise, it sets
    the flag, goes through [ThrowNewException] and returns if that
    does. And whenever a call returns, in the recursive case or not, the
    guard flag is false. *)
Theorem ThrowOutOfMemoryError_guard (msg : string) (w : World) :
  (throwing_OutOfMemoryError_ (this w) = true ->
   ThrowOutOfMemoryError preallocated_OOME Dump ThrowNewWrappedException msg w
   = (Ok tt,
      {| this_addr := this_addr w;
         this := set_throwing_OutOfMemoryError_ false
                   (set_exception_ preallocated_OOME (this w));
         locks := locks w;
         log := log w
                ++ [(ERROR, [Str "Throwing OutOfMemoryError "; Str double_quote;
                             Str msg; Str double_quote; Str " (recursive case)"]);
                    (ERROR, Dump (this w))] |}))
  /\ (throwing_OutOfMemoryError_ (this w) = false ->
      forall w1,
        ThrowNewException ThrowNewWrappedException "Ljava/lang/OutOfMemoryError;" msg
          {| this_addr := this_addr w;
             this := set_throwing_OutOfMemoryError_ true (this w);
             locks := locks w;
             log := log w
                    ++ [(ERROR, [Str "Throwing OutOfMemoryError "; Str double_quote;
                                 Str msg; Str double_quote; Str EmptyString])] |}
        = (Ok tt, w1) ->
        ThrowOutOfMemoryError preallocated_OOME Dump ThrowNewWrappedException msg w
        = (Ok tt, set_this (set_throwing_OutOfMemoryError_ false (this w1)) w1))
  /\ (forall w',
      ThrowOutOfMemoryError preallocated_OOME Dump ThrowNewWrappedException msg w
      = (Ok tt, w') ->
      throwing_OutOfMemoryError_ (this w') = false).
Proof.
  split; [|split].
  - intros Ht. destruct w as [a t lk lg]. cbn in Ht.
    unfold ThrowOutOfMemoryError, SetException, LOG, bind, get, modify, ret.
    cbn. rewrite Ht. cbn. now rewrite <- app_assoc.
  - intros Ht w1 Hnew. destruct w as [a t lk lg]. cbn in Ht, Hnew.
    unfold ThrowOutOfMemoryError.
    unfold bind at 1 2 3, get, LOG. cbn [this this_addr locks log].
    rewrite Ht. cbn [negb].
    unfold bind at 1, modify at 1. unfold set_this at 1.
    cbn [this this_addr locks log].
    rewrite Hnew. reflexivity.
  - intros w'. unfold ThrowOutOfMemoryError. unfold bind at 1 2 3, get, modify.
    destruct (LOG ERROR _ w) as [[[]| |] w1]; try discriminate.
    match goal with
    | |- context [let (r, s') := ?m w1 in _] => destruct (m w1) as [[[]| |] w2]
    end; try discriminate.
    intros H. inversion H. reflexivity.
Qed.

End OomFacts.

(** Witness of [ThrowOutOfMemoryError_guard]: a call in the recursive
    case; the [ThrowNewWrappedException] it is given would abort. *)
Lemma ThrowOutOfMemoryError_guard_witness :
  Oom.ThrowOutOfMemoryError 999 Oom.short_dump (fun _ _ => abort) "heap full"
    (Oom.world_of true)
  = (Ok tt,
     {| this_addr := 4096;
        this := set_exception_ 999 Thread_new;
        locks := locks (Oom.world_of true);
        log := [(ERROR, [Str "Throwing OutOfMemoryError "; Str double_quote;
                         Str "heap full"; Str double_quote;
                         Str " (recursive case)"]);
                (ERROR, [Str "(no managed stack frames)"])] |}).
Proof.
  apply (proj1 (ThrowOutOfMemoryError_guard 999 Oom.short_dump (fun _ _ => abort)
                  "heap full" (Oom.world_of true))).
  reflexivity.
Defined.

(** The allocation of the OutOfMemoryError itself fails: the nested call
    takes the recursive case, the pre-allocated error is pending and the
    flag is false when the outer call returns. *)
Example ThrowOutOfMemoryError_nested :
  Oom.ThrowOutOfMemoryError 999 Oom.short_dump Oom.exhausted_heap "heap full"
    (Oom.world_of false)
  = (Ok tt,
     {| this_addr := 4096;
        this := set_exception_ 999 Thread_new;
        locks := locks (Oom.world_of false);
        log := [(ERROR, [Str "Throwing OutOfMemoryError "; Str double_quote;
                         Str "heap full"; Str double_quote; Str EmptyString]);
                (ERROR, [Str "Throwing OutOfMemoryError "; Str double_quote;
                         Str "Failed to allocate the exception"; Str double_quote;
                         Str " (recursive case)"]);
                (ERROR, [Str "(no managed stack frames)"])] |}).
Proof. vm_compute. reflexivity. Qed.

(** ** The GC root visitor *)

Section RootsFacts.

Import Roots.

Variable om : ObjectModel.
Variable gi : GcInfo.

Lemma land_1_bit (x : Z) : 0 <= Z.land x 1 <= 1.
Proof.
  assert (E : Z.land x 1 = x mod 2).
  { change 1 with (Z.ones 1). rewrite Z.land_ones by lia. reflexivity. }
  rewrite E. pose proof (Z.mod_pos_bound x 2). lia.
Qed.

Lemma popcount_nonneg (n : nat) (x : Z) : 0 <= popcount n x.
Proof.
  revert x. induction n as [|n IH]; intros x; cbn [popcount]; [lia|].
  pose proof (land_1_bit x). pose proof (IH (Z.shiftr x 1)). lia.
Qed.

(** With as many iterations as the mask has bits, the loop finds its
    register whenever the mask has enough bits set. *)
Lemma spill_loop_total (n : nat) (target matches mask shifts : Z) :
  0 <= matches <= target ->
  target <= matches + popcount n mask ->
  target < 4294967296 ->
  exists r, spill_loop n target matches mask shifts = Some r.
Proof.
  revert matches mask shifts.
  induction n as [|n IH]; intros matches mask shifts Hm Ht Hb; cbn [spill_loop popcount] in *.
  - replace (matches =? target) with true by (symmetry; apply Z.eqb_eq; lia).
    eauto.
  - destruct (matches =? target) eqn:E; [eauto|].
    apply Z.eqb_neq in E. pose proof (land_1_bit mask) as Hbit.
    pose proof (popcount_nonneg n (Z.shiftr mask 1)) as Hp.
    rewrite (wrap_u32_id (matches + Z.land mask 1)) by lia.
    assert (Hcase : Z.land mask 1 = 0 \/ Z.land mask 1 = 1) by lia.
    apply IH; lia.
Qed.

(** Past [CHECK_LT(vmap_offset, popcount(spill_mask))] the loop ends. *)
Lemma spill_register_total (core_spills vmap_offset : Z) :
  0 <= vmap_offset < popcount 32 core_spills ->
  exists r, spill_register core_spills vmap_offset = Some r.
Proof.
  intros H. unfold spill_register.
  assert (Hle : popcount 32 core_spills <= 32).
  { cbn [popcount].
    repeat match goal with
           | |- context [Z.land ?x 1] =>
               let Hb := fresh "Hb" in
               pose proof (land_1_bit x) as Hb;
               generalize dependent (Z.land x 1); intros
           end. lia. }
  rewrite (wrap_u32_id (vmap_offset + 1)) by lia.
  destruct (spill_loop_total 32 (vmap_offset + 1) 0 core_spills 0) as [r Hr];
    [lia | lia | lia |].
  rewrite Hr. eauto.
Qed.

Lemma land_1_testbit (x : Z) : Z.land x 1 = 1 -> Z.testbit x 0 = true.
Proof.
  intros H. rewrite Z.bit0_odd.
  assert (E : Z.land x 1 = x mod 2).
  { change 1 with (Z.ones 1). rewrite Z.land_ones by lia. reflexivity. }
  rewrite E in H. rewrite Zodd_mod. now apply Z.eqb_eq.
Qed.

(** What the loop finds: it stops one past a set bit of the mask, with
    [target - matches - 1] set bits below that bit. *)
Lemma spill_loop_spec (n : nat) (target matches mask shifts r : Z) :
  spill_loop n target matches mask shifts = Some r ->
  0 <= matches < target ->
  target < 4294967296 ->
  0 <= shifts -> shifts + Z.of_nat n < 4294967296 ->
  exists k : nat,
    (k < n)%nat /\ r = shifts + Z.of_nat k + 1
    /\ Z.testbit mask (Z.of_nat k) = true
    /\ popcount k mask = target - matches - 1.
Proof.
  revert matches mask shifts.
  induction n as [|n IH]; intros matches mask shifts Hr Hm Ht Hs Hn;
    cbn [spill_loop] in Hr.
  - replace (matches =? target) with false in Hr by (symmetry; apply Z.eqb_neq; lia).
    discriminate.
  - replace (matches =? target) with false in Hr by (symmetry; apply Z.eqb_neq; lia).
    pose proof (land_1_bit mask) as Hbit.
    rewrite (wrap_u32_id (matches + Z.land mask 1)) in Hr by lia.
    rewrite (wrap_u32_id (shifts + 1)) in Hr by lia.
    destruct (Z.eq_dec (matches + Z.land mask 1) target) as [E | E].
    + destruct n; cbn [spill_loop] in Hr;
        (replace (matches + Z.land mask 1 =? target) with true in Hr
          by (symmetry; apply Z.eqb_eq; lia));
        inversion Hr; subst r; exists 0%nat;
        (split; [lia|]); (split; [lia|]);
        (split; [apply land_1_testbit; lia | cbn; lia]).
    + destruct (IH _ _ _ Hr) as (k & Hk & Hrk & Hb & Hp); try lia.
      exists (S k). split; [lia|]. split; [lia|]. split.
      * rewrite <- Hb, Z.shiftr_spec by lia. f_equal. lia.
      * cbn [popcount]. rewrite Hp. lia.
Qed.

(** X30. The register read from the context is the spilled core
    register number [vmap_offset], counting the set bits of the spill
    mask from the lowest: when the loop of [VisitFrame] ends, at
    register [r], the bit [r] of the mask is set and [vmap_offset] bits
    are set below it. *)
Lemma spill_register_spec (core_spills vmap_offset r : Z) :
  spill_register core_spills vmap_offset = Some r ->
  0 <= vmap_offset < 4294967295 ->
  0 <= r < 32
  /\ Z.testbit core_spills r = true
  /\ popcount (Z.to_nat r) core_spills = vmap_offset.
Proof.
  unfold spill_register. intros H Hv.
  rewrite (wrap_u32_id (vmap_offset + 1)) in H by lia.
  destruct (spill_loop 32 (vmap_offset + 1) 0 core_spills 0) as [sh|] eqn:E;
    [|discriminate].
  destruct (spill_loop_spec _ _ _ _ _ _ E) as (k & Hk & Hsh & Hb & Hp); try lia.
  subst sh. rewrite wrap_u32_id in H by lia.
  assert (Hr : r = Z.of_nat k) by (inversion H; lia).
  subst r. rewrite Nat2Z.id. repeat split; try lia; assumption.
Qed.

Lemma load_reference_run (f : Frame) (bm : list Z) (reg : Z) (s : RState) :
  checks_pass gi f bm ->
  TestBitmap reg bm = true ->
  load_reference gi f reg s = (Ok (reference_in gi f reg), s).
Proof.
  intros (_ & _ & _ & Hc) Hbit.
  unfold load_reference, reference_in.
  destruct (IsInContext gi (GetMethod f) reg) as [off|] eqn:Ein; [|reflexivity].
  specialize (Hc reg off Hbit Ein).
  destruct (spill_register_total _ _ Hc) as [r Hr]. rewrite Hr.
  unfold RCHECK, bind, ret.
  replace (off <? popcount 32 (GetCoreSpillMask gi (GetMethod f))) with true
    by (symmetry; apply Z.ltb_lt; lia).
  reflexivity.
Qed.

Lemma visit_registers_run (f : Frame) (bm : list Z) (regs : list Z) (s : RState) :
  checks_pass gi f bm ->
  for_each (visit_register gi f bm) regs s
  = (Ok tt,
     {| roots := roots s
                 ++ map (reference_in gi f)
                      (filter (fun reg => TestBitmap reg bm
                                          && negb (reference_in gi f reg =? NULL))
                              regs);
        rlog := rlog s |}).
Proof.
  intros Hc. revert s. induction regs as [|reg regs IH]; intros s; cbn [for_each filter map].
  - unfold ret. rewrite app_nil_r. now destruct s.
  - unfold bind at 1. unfold visit_register at 1.
    destruct (TestBitmap reg bm) eqn:Hbit; cbn [andb].
    + unfold bind at 1. rewrite (load_reference_run f bm reg s Hc Hbit).
      destruct (reference_in gi f reg =? NULL); cbn [negb when map].
      * unfold ret. apply IH.
      * unfold root_visitor_, modify. rewrite IH. cbn [roots rlog].
        now rewrite <- app_assoc.
    + unfold ret. apply IH.
Qed.

Lemma root_visitor_run (refs : list Z) (s : RState) :
  for_each root_visitor_ refs s
  = (Ok tt, {| roots := roots s ++ refs; rlog := rlog s |}).
Proof.
  revert s. induction refs as [|r refs IH]; intros s; cbn [for_each].
  - unfold ret. rewrite app_nil_r. now destruct s.
  - unfold bind, root_visitor_ at 1, modify. rewrite IH. cbn [roots rlog].
    now rewrite <- app_assoc.
Qed.

Lemma counter_values_spec (n reg : Z) :
  In reg (counter_values n) <-> 0 <= reg < n.
Proof.
  unfold counter_values. rewrite in_map_iff. split.
  - intros (k & <- & Hk). apply in_seq in Hk. lia.
  - intros H. exists (Z.to_nat reg). split; [lia|]. apply in_seq. lia.
Qed.

Lemma counter_values_NoDup (n : Z) : NoDup (counter_values n).
Proof.
  unfold counter_values. apply Injective_map_NoDup.
  - intros a b H. lia.
  - apply seq_NoDup.
Qed.

(** C3. A frame visited by the GC root visitor. A shadow frame: the
    callbacks are those of the visit of its own slots. A compiled frame
    of a native, runtime or proxy method: none. A compiled frame of
    another method, the checks on its GC map passing: the callbacks are,
    in register order, the references held by the live registers, one
    callback per register; a register is live exactly when it is below
    the number of registers, marked in the bitmap for the frame's pc and
    holds a non-null reference, which is read from the context when the
    vmap table says so and from the frame otherwise ([reference_in]). *)
Theorem VisitFrame_reports_live_references (f : Frame) (s : RState) :
  (forall shadow_frame,
     GetCurrentShadowFrame f = Some shadow_frame ->
     VisitFrame om gi f s
     = (Ok true, {| roots := roots s ++ ShadowFrame_VisitRoots gi shadow_frame;
                    rlog := rlog s |}))
  /\ (GetCurrentShadowFrame f = None ->
      IsNative om (GetMethod f) || IsRuntimeMethod om (GetMethod f)
      || IsProxyMethod om (GetMethod f) = true ->
      VisitFrame om gi f s = (Ok true, s))
  /\ (forall reg_bitmap,
      GetCurrentShadowFrame f = None ->
      IsNative om (GetMethod f) || IsRuntimeMethod om (GetMethod f)
      || IsProxyMethod om (GetMethod f) = false ->
      checks_pass gi f reg_bitmap ->
      VisitFrame om gi f s
      = (Ok true,
         {| roots := roots s ++ map (reference_in gi f) (live_registers gi f reg_bitmap);
            rlog := rlog s |})
      /\ NoDup (live_registers gi f reg_bitmap)
      /\ forall reg,
           In reg (live_registers gi f reg_bitmap)
           <-> (0 <= reg < Z.min (RegWidth gi (GetMethod f) * 8)
                                 (registers_size_ gi (GetMethod f))
                /\ TestBitmap reg reg_bitmap = true
                /\ reference_in gi f reg <> NULL)).
Proof.
  split; [|split].
  - intros sf Hsf. unfold VisitFrame. rewrite Hsf.
    unfold bind. now rewrite root_visitor_run.
  - intros Hsf Hm. unfold VisitFrame. rewrite Hsf.
    destruct (IsNative om (GetMethod f)), (IsRuntimeMethod om (GetMethod f)),
      (IsProxyMethod om (GetMethod f)); try discriminate; reflexivity.
  - intros bm Hsf Hm Hc. split; [|split].
    + unfold VisitFrame. rewrite Hsf.
      apply orb_false_iff in Hm as [Hm Hp]. apply orb_false_iff in Hm as [Hn Hr].
      rewrite Hn, Hr, Hp. cbn [negb andb].
      pose proof Hc as (Hg & Hl & Hb & _).
      apply Z.eqb_neq in Hg, Hl. rewrite Hb.
      unfold RCHECK, bind at 1 2 3. rewrite Hg, Hl. cbn [negb]. unfold ret at 1 2.
      rewrite (visit_registers_run f bm _ s Hc). reflexivity.
    + unfold live_registers. apply NoDup_filter, counter_values_NoDup.
    + intros reg. unfold live_registers. rewrite filter_In, counter_values_spec.
      rewrite andb_true_iff, negb_true_iff, Z.eqb_neq. tauto.
Qed.

End RootsFacts.

(** Witness of [VisitFrame_reports_live_references]: of the four
    registers of the example frame, the marked and non-null registers 0
    (in the context) and 3 (in the frame) are reported, the marked null
    register 1 and the unmarked register 2 are not. *)
Lemma VisitFrame_reports_live_references_witness :
  Roots.VisitFrame Roots.example_om Roots.example_gi Roots.compiled_frame Roots.rstate0
  = (Ok true, {| Roots.roots := [7777; 3333]; Roots.rlog := [] |}).
Proof.
  destruct (VisitFrame_reports_live_references Roots.example_om Roots.example_gi
              Roots.compiled_frame Roots.rstate0) as (_ & _ & H).
  destruct (H [11]) as (Hrun & _).
  - reflexivity.
  - reflexivity.
  - unfold Roots.checks_pass. cbn.
    split; [discriminate|]. split; [discriminate|]. split; [reflexivity|].
    intros reg off _ Hin.
    destruct (reg =? 0); [|discriminate]. inversion Hin. lia.
  - exact Hrun.
Defined.

(** ** Suspending a thread for the debugger *)

Section DebuggerFacts.

Import Debugger.

Variable rt : Runtime.
Variable FromManagedThread : nat -> bool.
Variable IsSuspended : nat -> Thread -> bool.

Hypothesis thread_found : forall poll, FromManagedThread poll = true.
Hypothesis never_suspended : forall poll t, IsSuspended poll t = false.

Create HintDb poll_steps.

#[local] Hint Unfold bind get modify when ret lift pause enter_block
  lock_suspend_count leave_block check_no_mutex_held : poll_steps.

Ltac run_step :=
  repeat progress
    (autounfold with poll_steps;
     cbn [world pauses locks set_locks this this_addr log no_locks negb orb
          mutator_lock_shared_held thread_list_lock_held
          thread_suspend_count_lock_held]).

(** One iteration that sleeps. *)
Lemma loop_sleep_step (fuel poll : nat) (peer : Z) (did : bool)
    (total delay : Z) (w : World) (ps : list Pause) :
  locks w = no_locks ->
  (total >=? kTimeoutUs) || (wrap_u32 (delay * 2) <? delay)
  || (next_delay delay =? 0) = false ->
  loop rt FromManagedThread IsSuspended false (S fuel) poll peer false did
       total delay {| world := w; pauses := ps |}
  = loop rt FromManagedThread IsSuspended false fuel (S poll) peer false did
         (wrap_u32 (total + next_delay delay)) (next_delay delay)
         {| world := w; pauses := ps ++ [usleep (next_delay delay)] |}.
Proof.
  intros Hl Hc.
  apply orb_false_iff in Hc as [Hc Hz]. apply orb_false_iff in Hc as [Ht Hge].
  destruct w as [a t l lg]. cbn in Hl. subst l.
  assert (Hge' : (wrap_u32 (delay * 2) >=? delay) = true)
    by (apply Z.geb_le; apply Z.ltb_ge in Hge; lia).
  cbn [loop]. run_step.
  rewrite thread_found. run_step.
  rewrite never_suspended, Ht. run_step.
  rewrite Hge'. fold (next_delay delay). rewrite Hz. run_step.
  rewrite orb_false_r. reflexivity.
Qed.

(** The iterations that sleep, as far as [schedule] goes. *)
Lemma loop_sleeps (n fuel poll : nat) (peer : Z) (did : bool)
    (total delay : Z) (w : World) (ps : list Pause) (ds : list Z) (total' delay' : Z) :
  locks w = no_locks ->
  schedule n total delay = Some (ds, total', delay') ->
  loop rt FromManagedThread IsSuspended false (n + fuel) poll peer false did
       total delay {| world := w; pauses := ps |}
  = loop rt FromManagedThread IsSuspended false fuel (n + poll) peer false did
         total' delay' {| world := w; pauses := ps ++ map usleep ds |}.
Proof.
  intros Hl. revert poll total delay ps ds.
  induction n as [|n IH]; intros poll total delay ps ds Hs; cbn [schedule] in Hs.
  - inversion Hs; subst. cbn. now rewrite app_nil_r.
  - destruct ((total >=? kTimeoutUs) || (wrap_u32 (delay * 2) <? delay)
              || (next_delay delay =? 0)) eqn:Hc; [discriminate|].
    destruct (schedule n (wrap_u32 (total + next_delay delay)) (next_delay delay))
      as [[[ds1 t1] d1]|] eqn:Hn; [|discriminate].
    inversion Hs; subst.
    change (S n + fuel)%nat with (S (n + fuel)).
    rewrite (loop_sleep_step _ _ _ _ _ _ _ _ Hl Hc).
    rewrite (IH _ _ _ _ _ Hn). cbn [map].
    rewrite <- app_assoc. cbn [app].
    replace (n + S poll)%nat with (S n + poll)%nat by lia. reflexivity.
Qed.

(** The first iteration: the suspend request is made, and the caller
    yields. *)
Lemma loop_first_iteration (fuel : nat) (peer : Z) (w : World) (ps : list Pause) :
  locks w = no_locks ->
  Suspend.invariant (this w) ->
  Suspend.counters_are_int (this w) ->
  suspend_count_ (this w) < INT_MAX ->
  loop rt FromManagedThread IsSuspended false (S fuel) 0 peer true false 0 0
       {| world := w; pauses := ps |}
  = loop rt FromManagedThread IsSuspended false fuel 1 peer false true 0 500
         {| world :=
              set_this
                (set_debug_suspend_count_ (debug_suspend_count_ (this w) + 1)
                   (set_suspend_count_ (suspend_count_ (this w) + 1) (this w))) w;
            pauses := ps ++ [sched_yield] |}.
Proof.
  intros Hl [Hd0 Hds] [Hsi Hdi] Hmax.
  destruct w as [a t l lg]. cbn in Hl. subst l. cbn [this] in *.
  unfold INT_MIN, INT_MAX in *.
  cbn [loop]. run_step. rewrite thread_found. run_step.
  rewrite ModifySuspendCount_body.
  2:{ intros _. cbn. split; [tauto|]. split; [lia | reflexivity]. }
  run_step.
  cbn [andb Z.eqb this set_this set_suspend_count_ set_debug_suspend_count_
       suspend_count_ debug_suspend_count_ this_addr locks log].
  rewrite !wrap_int_id by (unfold INT_MIN, INT_MAX; lia).
  run_step. rewrite never_suspended. reflexivity.
Qed.

(** The iteration that sees the time out: the request is taken back. *)
Lemma loop_times_out (fuel poll : nat) (peer : Z) (total delay : Z)
    (w : World) (ps : list Pause) :
  locks w = no_locks ->
  kTimeoutUs <= total ->
  0 < suspend_count_ (this w) ->
  debug_suspend_count_ (this w) <= suspend_count_ (this w) ->
  loop rt FromManagedThread IsSuspended false (S fuel) poll peer false true
       total delay {| world := w; pauses := ps |}
  = (Ok (Some {| result := NULL; timeout := true |}),
     {| world :=
          {| this_addr := this_addr w;
             this := set_debug_suspend_count_
                       (wrap_int (debug_suspend_count_ (this w) + -1))
                       (set_suspend_count_
                          (wrap_int (suspend_count_ (this w) + -1)) (this w));
             locks := no_locks;
             log := log w ++ [(ERROR, [Str "Thread suspension timed out: "; Ptr peer])] |};
        pauses := ps |}).
Proof.
  intros Hl Ht Hs Hd.
  destruct w as [a t l lg]. cbn in Hl. subst l. cbn [this] in *.
  apply Z.geb_le in Ht.
  cbn [loop]. run_step. rewrite thread_found. run_step.
  rewrite never_suspended, Ht. run_step.
  unfold LOG at 1. run_step.
  rewrite ModifySuspendCount_body.
  2:{ intros _. cbn. split; [tauto|]. split; [lia | reflexivity]. }
  run_step.
  replace (suspend_count_ t <=? 0) with false by (symmetry; apply Z.leb_gt; lia).
  rewrite andb_false_r. reflexivity.
Qed.

(** The same two iterations of a call that was not asked to make the
    suspend request. *)
Lemma loop_first_iteration_no_request (fuel : nat) (peer : Z) (w : World)
    (ps : list Pause) :
  locks w = no_locks ->
  loop rt FromManagedThread IsSuspended false (S fuel) 0 peer false false 0 0
       {| world := w; pauses := ps |}
  = loop rt FromManagedThread IsSuspended false fuel 1 peer false false 0 500
         {| world := w; pauses := ps ++ [sched_yield] |}.
Proof.
  intros Hl. destruct w as [a t l lg]. cbn in Hl. subst l.
  cbn [loop]. run_step. rewrite thread_found. run_step.
  rewrite never_suspended. reflexivity.
Qed.

Lemma loop_times_out_no_request (fuel poll : nat) (peer : Z) (total delay : Z)
    (w : World) (ps : list Pause) :
  locks w = no_locks ->
  kTimeoutUs <= total ->
  loop rt FromManagedThread IsSuspended false (S fuel) poll peer false false
       total delay {| world := w; pauses := ps |}
  = (Ok (Some {| result := NULL; timeout := true |}),
     {| world :=
          {| this_addr := this_addr w;
             this := this w;
             locks := no_locks;
             log := log w ++ [(ERROR, [Str "Thread suspension timed out: "; Ptr peer])] |};
        pauses := ps |}).
Proof.
  intros Hl Ht. destruct w as [a t l lg]. cbn in Hl. subst l.
  apply Z.geb_le in Ht.
  cbn [loop]. run_step. rewrite thread_found. run_step.
  rewrite never_suspended, Ht. run_step.
  unfold LOG at 1. run_step. reflexivity.
Qed.

Lemma schedule_of_a_timeout :
  schedule 125 0 500 = Some (timeout_delays, 30207000, 256000).
Proof. vm_compute. reflexivity. Qed.

(** C7. [SuspendForDebugger] called for a thread that exists, is not
    the caller and never reports itself suspended, by a caller that
    holds no lock: the call returns null with the timeout flag set; the
    target thread is as it was before the call, its two counters
    included (the increment the call made, if it was asked to make one,
    was taken back); one error line was logged; and the caller yielded
    once and then slept 1 ms, 2 ms, ... doubling up to 256 ms and
    staying there, every sleep below 0.5 s, until the sleeps added up to
    30 s or more. *)
Theorem SuspendForDebugger_times_out (extra : nat) (peer : Z)
    (request_suspension : bool) (s : DbgState) :
  locks (world s) = no_locks ->
  Suspend.invariant (this (world s)) ->
  Suspend.counters_are_int (this (world s)) ->
  suspend_count_ (this (world s)) < INT_MAX ->
  SuspendForDebugger rt FromManagedThread IsSuspended false (127 + extra) peer
    request_suspension s
  = (Ok (Some {| result := NULL; timeout := true |}),
     {| world :=
          {| this_addr := this_addr (world s);
             this := this (world s);
             locks := no_locks;
             log := log (world s)
                    ++ [(ERROR, [Str "Thread suspension timed out: "; Ptr peer])] |};
        pauses := pauses s ++ sched_yield :: map usleep timeout_delays |})
  /\ forallb (fun d => (0 <? d) && (d <? 500000)) timeout_delays = true
  /\ hd 0 timeout_delays = 1000
  /\ doubling_capped timeout_delays = true
  /\ kTimeoutUs <= sum timeout_delays
  /\ sum (removelast timeout_delays) < kTimeoutUs.
Proof.
  intros Hl Hinv Hint Hmax.
  split; [|repeat split; vm_compute; congruence].
  destruct s as [w ps]. cbn [world pauses] in *.
  unfold SuspendForDebugger.
  replace (127 + extra)%nat with (S (125 + S extra)) by lia.
  destruct request_suspension.
  - rewrite (loop_first_iteration _ _ _ _ Hl Hinv Hint Hmax).
    destruct Hinv as [Hd0 Hds]. destruct Hint as [Hsi Hdi].
    unfold INT_MIN, INT_MAX in *.
    set (w1 := set_this _ w).
    assert (Hl1 : locks w1 = no_locks) by (subst w1; destruct w; exact Hl).
    rewrite (loop_sleeps 125 (S extra) 1 peer true 0 500 w1 _ _ _ _
               Hl1 schedule_of_a_timeout).
    rewrite loop_times_out.
    + subst w1. destruct w as [a [sc ex st lj th dsc nm] l lg]. cbn in *.
      rewrite !wrap_int_id by (unfold INT_MIN, INT_MAX; lia).
      replace (sc + 1 + -1) with sc by lia.
      replace (dsc + 1 + -1) with dsc by lia.
      rewrite <- app_assoc. subst l. reflexivity.
    + exact Hl1.
    + unfold kTimeoutUs. lia.
    + subst w1. destruct w as [a t l lg]. cbn in *. lia.
    + subst w1. destruct w as [a t l lg]. cbn in *. lia.
  - rewrite (loop_first_iteration_no_request _ _ _ _ Hl).
    rewrite (loop_sleeps 125 (S extra) 1 peer false 0 500 w _ _ _ _
               Hl schedule_of_a_timeout).
    rewrite loop_times_out_no_request; [|exact Hl | unfold kTimeoutUs; lia].
    rewrite <- app_assoc. reflexivity.
Qed.

End DebuggerFacts.

(** Witness of [SuspendForDebugger_times_out]: a running thread that
    never reaches a safepoint. *)
Lemma SuspendForDebugger_times_out_witness :
  Debugger.SuspendForDebugger Suspend.debug_build (fun _ => true) (fun _ _ => false)
    false 127 77 true Debugger.state0
  = (Ok (Some {| Debugger.result := NULL; Debugger.timeout := true |}),
     {| Debugger.world :=
          {| this_addr := 4096;
             this := set_state_ kRunnable Thread_new;
             locks := Debugger.no_locks;
             log := [(ERROR, [Str "Thread suspension timed out: "; Ptr 77])] |};
        Debugger.pauses :=
          Debugger.sched_yield :: map Debugger.usleep Debugger.timeout_delays |}).
Proof.
  apply (proj1 (SuspendForDebugger_times_out Suspend.debug_build
                  (fun _ => true) (fun _ _ => false)
                  (fun _ => eq_refl) (fun _ _ => eq_refl)
                  0 77 true Debugger.state0
                  eq_refl
                  (conj (Z.le_refl 0) (Z.le_refl 0))
                  (conj (conj (Zle_bool_imp_le INT_MIN 0 eq_refl)
                              (Zle_bool_imp_le 0 INT_MAX eq_refl))
                        (conj (Zle_bool_imp_le INT_MIN 0 eq_refl)
                              (Zle_bool_imp_le 0 INT_MAX eq_refl)))
                  eq_refl)).
Defined.

(** ** The transition to runnable, among other threads *)

Section TransitionFacts.

Import Transition.

Lemma initial_Inv (s : State) : initial s -> Inv (state s) s.
Proof.
  intros (Hpc & Hst & Hm & Hh). unfold Inv. rewrite Hpc. tauto.
Qed.

Ltac split_conditions :=
  repeat match goal with
         | H : context [if ?c then _ else _] |- _ =>
             let E := fresh "E" in destruct c eqn:E
         end.

(** No action of the thread or of the others breaks [Inv]. *)
Lemma step_Inv (e : ThreadState) (a : Action) (s s' : State) :
  Inv e s -> step a s = Some s' -> Inv e s'.
Proof.
  intros [He Hi] Hs. split; [exact He|].
  destruct s as [p sc st h m os d].
  destruct a; cbn in Hs.
  - unfold thread_step in Hs; cbn in Hs.
    destruct p; cbn in Hi; split_conditions; try discriminate;
      inversion Hs; subst; clear Hs; cbn in *;
      try (apply Z.eqb_eq in E);
      destruct h; cbn in *; try discriminate;
      intuition (try congruence).
  - destruct h; cbn in Hs; try discriminate. inversion Hs; subst; clear Hs.
    destruct p; cbn in *; intuition (try congruence).
  - destruct h; cbn in Hs; try discriminate. inversion Hs; subst; clear Hs.
    destruct p; cbn in *; intuition (try congruence).
  - destruct h; cbn in Hs; try discriminate. inversion Hs; subst; clear Hs.
    destruct p; cbn in *; intuition (try congruence).
Qed.

Lemma run_Inv (e : ThreadState) (schedule : list Action) (s s' : State) :
  Inv e s -> run schedule s = Some s' -> Inv e s'.
Proof.
  revert s. induction schedule as [|a rest IH]; intros s Hi Hr; cbn in Hr.
  - inversion Hr; subst. exact Hi.
  - destruct (step a s) as [s1|] eqn:Hs; [|discriminate].
    apply (IH s1); [|exact Hr]. exact (step_Inv e a s s1 Hi Hs).
Qed.

(** C2. In every interleaving of [TransitionFromSuspendedToRunnable]
    with the other threads: the step that makes the thread runnable is
    the thread's own [SetState(kRunnable)], taken while it holds the
    suspend-count lock and the suspend count is zero, before and after
    the step; the function has returned only in a state where the thread
    is runnable (so after such a step), and then returns the state the
    thread had at entry; and the thread enters the wait on the resume
    condition only from the check under the lock that found the count
    non-zero, and while it is in the wait it holds neither the mutator
    lock nor the suspend-count lock. *)
Theorem TransitionFromSuspendedToRunnable_safe (s0 : State)
    (schedule : list Action) (s : State) :
  initial s0 ->
  run schedule s0 = Some s ->
  (forall a s',
     step a s = Some s' -> state s <> kRunnable -> state s' = kRunnable ->
     a = Thread_moves /\ pc s = at_set_runnable /\ holder s = Self
     /\ suspend_count s = 0 /\ suspend_count s' = 0)
  /\ (pc s = at_return ->
      state s = kRunnable /\ done s = true /\ old_state s = state s0)
  /\ (pc s = at_waiting -> mutator_shared s = false /\ holder s <> Self)
  /\ (forall s',
        thread_step s = Some s' -> pc s' = at_waiting ->
        pc s = at_wait_check /\ holder s = Self /\ suspend_count s <> 0).
Proof.
  intros Hinit Hrun.
  pose proof (run_Inv _ _ _ _ (initial_Inv s0 Hinit) Hrun) as [He Hi].
  destruct s as [p sc st h m os d]. cbn [pc state holder suspend_count
    mutator_shared done old_state] in *.
  split; [|split; [|split]].
  - intros a s' Hs Hn Hr.
    destruct a; cbn in Hs.
    + unfold thread_step in Hs; cbn in Hs.
      destruct p; cbn in Hi; split_conditions; try discriminate;
        inversion Hs; subst; clear Hs; cbn in *; try congruence.
      intuition.
    + destruct h; cbn in Hs; try discriminate. inversion Hs; subst. cbn in *.
      congruence.
    + destruct h; cbn in Hs; try discriminate. inversion Hs; subst. cbn in *.
      congruence.
    + destruct h; cbn in Hs; try discriminate. inversion Hs; subst. cbn in *.
      congruence.
  - intros ->. cbn in Hi. tauto.
  - intros ->. cbn in Hi. tauto.
  - intros s' Hs Hw. unfold thread_step in Hs; cbn in Hs.
    destruct p; cbn in Hi; split_conditions; try discriminate;
      inversion Hs; subst; clear Hs; cbn in *; try discriminate.
    apply negb_true_iff, Z.eqb_neq in E. tauto.
Qed.

End TransitionFacts.

(** Witness of [TransitionFromSuspendedToRunnable_safe]: a suspended
    thread waits, is resumed, and returns runnable with its old state. *)
Lemma TransitionFromSuspendedToRunnable_safe_witness :
  exists s,
    Transition.run Transition.resume_schedule Transition.suspended_once = Some s
    /\ Transition.pc s = Transition.at_return
    /\ Transition.state s = kRunnable
    /\ Transition.done s = true
    /\ Transition.old_state s = kSuspended.
Proof.
  pose (s := {| Transition.pc := Transition.at_return;
                Transition.suspend_count := 0;
                Transition.state := kRunnable;
                Transition.holder := Transition.Free;
                Transition.mutator_shared := true;
                Transition.old_state := kSuspended;
                Transition.done := true |}).
  assert (Hrun : Transition.run Transition.resume_schedule Transition.suspended_once
                 = Some s) by (vm_compute; reflexivity).
  assert (Hinit : Transition.initial Transition.suspended_once).
  { unfold Transition.initial. cbn.
    split; [reflexivity|]. split; [discriminate|]. split; [reflexivity | discriminate]. }
  destruct (TransitionFromSuspendedToRunnable_safe _ _ _ Hinit Hrun) as (_ & Hret & _).
  destruct (Hret eq_refl) as (H1 & H2 & H3).
  exists s. split; [exact Hrun|]. split; [reflexivity|].
  split; [exact H1|]. split; [exact H2 | exact H3].
Defined.

(** ** The stack size of a new thread *)

Section StackSizeFacts.

Import StackSize.

Variable SIZE_MAX GetDefaultStackSize MB PTHREAD_STACK_MIN : Z.
Variable kStackOverflowReservedBytes kPageSize : Z.
Variable RoundUp : Z -> Z -> Z.

Hypothesis page_positive : 0 < kPageSize.
Hypothesis constants_nonnegative :
  0 <= MB /\ 0 <= PTHREAD_STACK_MIN /\ 0 <= kStackOverflowReservedBytes.
(** What is assumed of [RoundUp] on the page size: its result is a
    [size_t]; where [x + kPageSize - 1] does not overflow [size_t], it is
    the least multiple of the page size not below [x]. Nothing is
    assumed where that sum overflows. *)
Hypothesis RoundUp_spec :
  forall x, 0 <= x <= SIZE_MAX ->
    0 <= RoundUp x kPageSize <= SIZE_MAX
    /\ (x + kPageSize - 1 <= SIZE_MAX ->
        x <= RoundUp x kPageSize < x + kPageSize
        /\ RoundUp x kPageSize mod kPageSize = 0).

(** X1. [FixStackSize], for a request that overflows [size_t] neither in
    the two additions nor in the rounding up to a page: the size
    returned is a [size_t] and a multiple of the page size, leaves the
    requested size (the default size for a request of zero) plus 1 MB
    and plus the bytes reserved for stack overflows, is not below
    [PTHREAD_STACK_MIN] plus the reserved bytes, and is less than a page
    above the larger of the two. *)
Theorem FixStackSize_bounds (stack_size : Z) :
  let wanted := if stack_size =? 0 then GetDefaultStackSize else stack_size in
  0 <= wanted ->
  Z.max (wanted + MB) PTHREAD_STACK_MIN + kStackOverflowReservedBytes
    + kPageSize - 1 <= SIZE_MAX ->
  let size := FixStackSize SIZE_MAX GetDefaultStackSize MB PTHREAD_STACK_MIN
                kStackOverflowReservedBytes kPageSize RoundUp stack_size in
  0 <= size <= SIZE_MAX
  /\ size mod kPageSize = 0
  /\ wanted + MB + kStackOverflowReservedBytes <= size
  /\ PTHREAD_STACK_MIN + kStackOverflowReservedBytes <= size
  /\ size < Z.max (wanted + MB) PTHREAD_STACK_MIN
            + kStackOverflowReservedBytes + kPageSize.
Proof.
  intros wanted Hw Hmax size.
  destruct constants_nonnegative as (HMB & HPSM & Hres).
  subst size. unfold FixStackSize. fold wanted. rewrite Z.mul_1_l.
  unfold wrap_size_t.
  rewrite (Z.mod_small (wanted + MB)) by lia.
  set (clamped := if wanted + MB <? PTHREAD_STACK_MIN then PTHREAD_STACK_MIN
                  else wanted + MB).
  assert (Hc : clamped = Z.max (wanted + MB) PTHREAD_STACK_MIN).
  { subst clamped. destruct (wanted + MB <? PTHREAD_STACK_MIN) eqn:E.
    - apply Z.ltb_lt in E. lia.
    - apply Z.ltb_ge in E. lia. }
  rewrite Hc.
  rewrite (Z.mod_small (Z.max (wanted + MB) PTHREAD_STACK_MIN
                        + kStackOverflowReservedBytes)) by lia.
  destruct (RoundUp_spec (Z.max (wanted + MB) PTHREAD_STACK_MIN
                          + kStackOverflowReservedBytes)) as [Hrange Hr]; [lia|].
  destruct Hr as [Hr Hm]; [lia|].
  repeat split; try assumption; lia.
Qed.

(** X2. [FixStackSize] wraps around: for a request within 1 MB of
    [SIZE_MAX], the addition of 1 MB overflows [size_t] and the size
    returned is smaller than the size requested. *)
Theorem FixStackSize_wraps_around (stack_size : Z) :
  SIZE_MAX + 1 - MB <= stack_size <= SIZE_MAX ->
  PTHREAD_STACK_MIN <= MB ->
  2 * MB + kStackOverflowReservedBytes + kPageSize <= SIZE_MAX + 1 ->
  0 < MB ->
  FixStackSize SIZE_MAX GetDefaultStackSize MB PTHREAD_STACK_MIN
    kStackOverflowReservedBytes kPageSize RoundUp stack_size
  < stack_size.
Proof.
  intros Hs Hpsm Hbig HMB.
  destruct constants_nonnegative as (_ & HPSM & Hres).
  unfold FixStackSize. rewrite Z.mul_1_l.
  replace (stack_size =? 0) with false by (symmetry; apply Z.eqb_neq; lia).
  unfold wrap_size_t.
  assert (E : (stack_size + MB) mod (SIZE_MAX + 1) = stack_size + MB - (SIZE_MAX + 1)).
  { symmetry. apply Z.mod_unique with (q := 1); lia. }
  rewrite E.
  set (clamped := if stack_size + MB - (SIZE_MAX + 1) <? PTHREAD_STACK_MIN
                  then PTHREAD_STACK_MIN else stack_size + MB - (SIZE_MAX + 1)).
  assert (Hc : 0 <= clamped <= MB).
  { subst clamped.
    destruct (stack_size + MB - (SIZE_MAX + 1) <? PTHREAD_STACK_MIN) eqn:El.
    - lia.
    - apply Z.ltb_ge in El. lia. }
  rewrite (Z.mod_small (clamped + kStackOverflowReservedBytes)) by lia.
  destruct (RoundUp_spec (clamped + kStackOverflowReservedBytes))
    as [_ Hr]; [lia|].
  destruct Hr as [Hr _]; lia.
Qed.

End StackSizeFacts.

(** [round_up] meets what is assumed of [RoundUp]. *)
Lemma round_up_spec (SIZE_MAX n x : Z) :
  0 < n ->
  0 <= x <= SIZE_MAX ->
  0 <= StackSize.round_up SIZE_MAX x n <= SIZE_MAX
  /\ (x + n - 1 <= SIZE_MAX ->
      x <= StackSize.round_up SIZE_MAX x n < x + n
      /\ StackSize.round_up SIZE_MAX x n mod n = 0).
Proof.
  intros Hn Hx. unfold StackSize.round_up, StackSize.wrap_size_t.
  pose proof (Z.mod_pos_bound (x + n - 1) (SIZE_MAX + 1) ltac:(lia)) as Hw.
  set (y := (x + n - 1) mod (SIZE_MAX + 1)) in *.
  pose proof (Z.mod_pos_bound y n Hn) as Hb.
  pose proof (Z.div_mod y n ltac:(lia)) as Hd.
  assert (Hq : 0 <= y / n) by (apply Z.div_pos; lia).
  assert (Hy : x + n - 1 <= SIZE_MAX -> y = x + n - 1).
  { intros Hroom. subst y. apply Z.mod_small. lia. }
  clearbody y. rewrite (Z.mul_comm (y / n) n).
  split; [nia|].
  intros Hroom. specialize (Hy Hroom).
  split; [lia|]. rewrite Z.mul_comm. apply Z.mod_mul. lia.
Qed.

(** Witness of [FixStackSize_bounds]: a request of 64 KB on a 32-bit
    system with 4 KB pages gets 1 MB + 64 KB + 4 KB. *)
Lemma FixStackSize_bounds_witness :
  StackSize.FixStackSize 4294967295 2097152 1048576 16384 4096 4096
    (StackSize.round_up 4294967295) 65536 mod 4096 = 0
  /\ 65536 + 1048576 + 4096
     <= StackSize.FixStackSize 4294967295 2097152 1048576 16384 4096 4096
          (StackSize.round_up 4294967295) 65536.
Proof.
  destruct (FixStackSize_bounds 4294967295 2097152 1048576 16384 4096 4096
              (StackSize.round_up 4294967295)) with (stack_size := 65536)
    as (_ & Hm & Hl & _).
  - lia.
  - lia.
  - intros x Hx. apply round_up_spec; lia.
  - cbn. lia.
  - cbn. lia.
  - split; [exact Hm | exact Hl].
Defined.

(** Within a page of the end of [size_t] the rounding up itself wraps
    around: with that [round_up], a request of 4 GB - 1 MB - 4 KB - 4095
    on the same system gets a stack size of 0. *)
Example FixStackSize_rounds_up_to_zero :
  StackSize.FixStackSize 4294967295 2097152 1048576 16384 4096 4096
    (StackSize.round_up 4294967295) 4293910529 = 0.
Proof. reflexivity. Qed.

(** Witness of [FixStackSize_wraps_around]: a request of 4 GB - 4 KB on
    that system. *)
Lemma FixStackSize_wraps_around_witness :
  StackSize.FixStackSize 4294967295 2097152 1048576 16384 4096 4096
    (StackSize.round_up 4294967295) 4294963200
  < 4294963200.
Proof.
  apply (FixStackSize_wraps_around 4294967295 2097152 1048576 16384 4096 4096
           (StackSize.round_up 4294967295)).
  - lia.
  - lia.
  - intros x Hx. apply round_up_spec; lia.
  - lia.
  - lia.
  - lia.
  - lia.
Defined.

(** ** The internal stack trace *)

Section StackTraceFacts.

Import StackTrace.

Variable om : ObjectModel.
Variable DeclaredByThrowable : Z -> bool.

Local Abbreviation not_runtime :=
  (fun f : Frame => negb (IsRuntimeMethod om (GetMethod f))).
Local Abbreviation Count := (Count_VisitFrame om DeclaredByThrowable).
Local Abbreviation Build := (Build_VisitFrame om).

Lemma array_set_middle (a b : list Z) (y x : Z) :
  array_set (a ++ y :: b) (List.length a) x = a ++ x :: b.
Proof. induction a as [|z a IH]; cbn; [reflexivity | now rewrite IH]. Qed.

Lemma Set_middle (a b : list Z) (y x : Z) :
  Set_ (a ++ y :: b) (Z.of_nat (List.length a)) x = a ++ x :: b.
Proof.
  unfold Set_.
  replace (Z.of_nat (List.length a) <? 0) with false by (symmetry; apply Z.ltb_ge; lia).
  rewrite Nat2Z.id. apply array_set_middle.
Qed.

(** Once the constructor's frames are passed, the count visitor counts
    the frames that are not runtime frames. *)
Lemma Count_walk_counting (frames : list Frame) (d s : Z) :
  0 <= d -> d + Z.of_nat (List.length frames) < 4294967296 ->
  WalkStack Count frames (mkCountStackDepthVisitor d s false)
  = mkCountStackDepthVisitor
      (d + Z.of_nat (List.length (filter not_runtime frames))) s false.
Proof.
  revert d. induction frames as [|f outer IH]; intros d Hd Hlen.
  - cbn. now rewrite Z.add_0_r.
  - cbn [WalkStack Count_VisitFrame skipping_ depth_ skip_depth_ andb negb filter].
    cbn [List.length] in Hlen.
    destruct (IsRuntimeMethod om (GetMethod f)); cbn [negb List.length].
    + apply IH; lia.
    + rewrite wrap_u32_id by lia. rewrite IH by lia. f_equal. lia.
Qed.

(** The whole walk of the count visitor: [depth_] is the number of the
    frames the trace shows, [skip_depth_] the number of the frames
    before the throw site. *)
Lemma Count_walk (frames : list Frame) (s : Z) :
  0 <= s -> s + Z.of_nat (List.length frames) < 4294967296 ->
  let v := WalkStack Count frames (mkCountStackDepthVisitor 0 s true) in
  depth_ v = Z.of_nat (List.length (trace_frames om DeclaredByThrowable frames))
  /\ skip_depth_ v
     = s + Z.of_nat (List.length frames
                     - List.length (from_throw_site om DeclaredByThrowable frames)).
Proof.
  revert s. induction frames as [|f outer IH]; intros s Hs Hlen.
  - cbn. split; [reflexivity | lia].
  - cbn [List.length] in Hlen.
    unfold trace_frames.
    cbn [WalkStack Count_VisitFrame skipping_ depth_ skip_depth_ andb
         from_throw_site].
    unfold is_skipped.
    destruct (IsRuntimeMethod om (GetMethod f)) eqn:Hrt;
      [|destruct (DeclaredByThrowable (GetMethod f)) eqn:Hthr];
      cbn [negb andb orb].
    + destruct (IH (wrap_u32 (s + 1))) as [Hd Hk];
        try (rewrite wrap_u32_id by lia; lia).
      cbv zeta in Hd, Hk. unfold trace_frames in Hd. rewrite Hd, Hk.
      split; [reflexivity|]. rewrite wrap_u32_id by lia.
      pose proof (filter_length_le (fun _ => true)
                    (from_throw_site om DeclaredByThrowable outer)) as _.
      assert (Hle : (List.length (from_throw_site om DeclaredByThrowable outer)
                     <= List.length outer)%nat).
      { clear. induction outer as [|g gs IHg]; cbn; [lia|].
        destruct (is_skipped om DeclaredByThrowable g); cbn; lia. }
      cbn [List.length]. lia.
    + destruct (IH (wrap_u32 (s + 1))) as [Hd Hk];
        try (rewrite wrap_u32_id by lia; lia).
      cbv zeta in Hd, Hk. unfold trace_frames in Hd. rewrite Hd, Hk.
      split; [reflexivity|]. rewrite wrap_u32_id by lia.
      assert (Hle : (List.length (from_throw_site om DeclaredByThrowable outer)
                     <= List.length outer)%nat).
      { clear. induction outer as [|g gs IHg]; cbn; [lia|].
        destruct (is_skipped om DeclaredByThrowable g); cbn; lia. }
      cbn [List.length]. lia.
    + rewrite wrap_u32_id by lia.
      rewrite Count_walk_counting by lia.
      cbn [depth_ skip_depth_ filter]. rewrite Hrt. cbn [negb List.length].
      split; lia.
Qed.

Lemma from_throw_site_skipn (frames : list Frame) :
  from_throw_site om DeclaredByThrowable frames
  = skipn (List.length frames
           - List.length (from_throw_site om DeclaredByThrowable frames)) frames.
Proof.
  induction frames as [|f outer IH]; [reflexivity|].
  assert (Hle : (List.length (from_throw_site om DeclaredByThrowable outer)
                 <= List.length outer)%nat).
  { clear. induction outer as [|g gs IHg]; cbn; [lia|].
    destruct (is_skipped om DeclaredByThrowable g); cbn; lia. }
  cbn [from_throw_site]. destruct (is_skipped om DeclaredByThrowable f).
  - cbn [List.length].
    replace (S (List.length outer)
             - List.length (from_throw_site om DeclaredByThrowable outer))%nat
      with (S (List.length outer
               - List.length (from_throw_site om DeclaredByThrowable outer)))
      by lia.
    cbn [skipn]. exact IH.
  - now rewrite Nat.sub_diag.
Qed.

(** The build visitor passes the first [skip_depth_] frames, whatever
    they are. *)
Lemma Build_walk_skip (k : nat) (frames : list Frame) (c : Z) (pt mt : list Z) :
  Z.of_nat k <= INT_MAX ->
  WalkStack Build frames
    (mkBuildInternalStackTraceVisitor (Z.of_nat k) c (Some pt) (Some mt))
  = WalkStack Build (skipn k frames)
      (mkBuildInternalStackTraceVisitor
         (Z.of_nat (k - List.length frames)) c (Some pt) (Some mt)).
Proof.
  revert frames. induction k as [|k IH]; intros frames Hk.
  - reflexivity.
  - destruct frames as [|f outer]; [reflexivity|].
    cbn [WalkStack skipn Build_VisitFrame method_trace_ dex_pc_trace_
         build_skip_depth_ count_ List.length].
    replace (Z.of_nat (S k) >? 0) with true by (symmetry; apply Z.gtb_lt; lia).
    rewrite wrap_int_id by (unfold INT_MIN, INT_MAX in *; lia).
    replace (Z.of_nat (S k) - 1) with (Z.of_nat k) by lia.
    rewrite IH by lia. reflexivity.
Qed.

(** Past the skipped frames, the build visitor fills the two arrays from
    the slot [count_] on with the frames that are not runtime frames. *)
Lemma Build_walk_record (frames : list Frame) (done_m done_pc : list Z)
    (n : nat) (ref : Z) :
  List.length done_pc = List.length done_m ->
  (List.length (filter not_runtime frames) <= n)%nat ->
  Z.of_nat (List.length done_m + n) < 4294967296 ->
  let shown := filter not_runtime frames in
  WalkStack Build frames
    (mkBuildInternalStackTraceVisitor 0 (Z.of_nat (List.length done_m))
       (Some (done_pc ++ repeat 0 n)) (Some (done_m ++ repeat NULL n ++ [ref])))
  = mkBuildInternalStackTraceVisitor 0
      (Z.of_nat (List.length done_m + List.length shown))
      (Some (done_pc ++ map GetDexPc shown ++ repeat 0 (n - List.length shown)))
      (Some (done_m ++ map GetMethod shown
             ++ repeat NULL (n - List.length shown) ++ [ref])).
Proof.
  revert done_m done_pc n.
  induction frames as [|f outer IH]; intros done_m done_pc n Hlen Hn Hmax shown.
  - subst shown. cbn. now rewrite Nat.add_0_r, Nat.sub_0_r.
  - subst shown.
    cbn [WalkStack Build_VisitFrame method_trace_ dex_pc_trace_
         build_skip_depth_ count_ filter].
    cbn [filter] in Hn.
    change (0 >? 0) with false. cbv iota.
    destruct (IsRuntimeMethod om (GetMethod f)) eqn:Hrt; cbn [negb] in *.
    + apply IH; assumption.
    + cbn [List.length] in Hn. destruct n as [|n]; [lia|].
      cbn [repeat app].
      rewrite Set_middle.
      pose proof (Set_middle done_pc (repeat 0 n) 0 (GetDexPc f)) as Hpc.
      rewrite Hlen in Hpc. rewrite Hpc. clear Hpc.
      rewrite wrap_u32_id by lia.
      replace (Z.of_nat (List.length done_m) + 1)
        with (Z.of_nat (List.length (done_m ++ [GetMethod f])))
        by (rewrite length_app; cbn; lia).
      replace (done_m ++ GetMethod f :: repeat NULL n ++ [ref])
        with ((done_m ++ [GetMethod f]) ++ repeat NULL n ++ [ref])
        by (now rewrite <- app_assoc).
      replace (done_pc ++ GetDexPc f :: repeat 0 n)
        with ((done_pc ++ [GetDexPc f]) ++ repeat 0 n)
        by (now rewrite <- app_assoc).
      rewrite IH.
      * cbn [map List.length]. rewrite <- !app_assoc. cbn [app].
        rewrite length_app. cbn [List.length].
        replace (S n - S (List.length (filter not_runtime outer)))%nat
          with (n - List.length (filter not_runtime outer))%nat by lia.
        f_equal. f_equal. lia.
      * rewrite !length_app. cbn. lia.
      * lia.
      * rewrite length_app. cbn. lia.
Qed.

(** The two walks of [CreateInternalStackTrace], the arrays allocated. *)
Lemma CreateInternalStackTrace_allocated (frames : list Frame) (pc_trace_ref : Z) :
  Z.of_nat (List.length frames) <= INT_MAX ->
  let shown := trace_frames om DeclaredByThrowable frames in
  CreateInternalStackTrace om DeclaredByThrowable frames true true pc_trace_ref
  = Some (map GetMethod shown ++ [pc_trace_ref], map GetDexPc shown).
Proof.
  intros Hlen shown. unfold INT_MAX in Hlen.
  unfold CreateInternalStackTrace, CountStackDepthVisitor_new.
  destruct (Count_walk frames 0) as [Hd Hk]; [lia | lia |].
  cbv zeta in Hd, Hk. rewrite Hd, Hk. fold shown.
  assert (Hshown : (List.length shown <= List.length frames)%nat).
  { subst shown. unfold trace_frames.
    etransitivity; [apply filter_length_le|].
    clear. induction frames as [|g gs IHg]; cbn; [lia|].
    destruct (is_skipped om DeclaredByThrowable g); cbn; lia. }
  rewrite !wrap_int_id by (unfold INT_MIN, INT_MAX; lia).
  unfold Init, BuildInternalStackTraceVisitor_new.
  cbn [negb build_skip_depth_ count_]. cbv iota.
  rewrite Nat2Z.id.
  replace (Z.to_nat (Z.of_nat (List.length shown) + 1)) with (S (List.length shown)) by lia.
  cbn [repeat]. rewrite repeat_cons.
  pose proof (Set_middle (repeat NULL (List.length shown)) [] NULL pc_trace_ref)
    as Hset.
  rewrite repeat_length in Hset. rewrite Hset. clear Hset.
  rewrite Z.add_0_l.
  rewrite Build_walk_skip by (unfold INT_MAX; lia).
  rewrite <- from_throw_site_skipn.
  replace (List.length frames
           - List.length (from_throw_site om DeclaredByThrowable frames)
           - List.length frames)%nat with 0%nat by lia.
  pose proof (Build_walk_record (from_throw_site om DeclaredByThrowable frames)
                [] [] (List.length shown) pc_trace_ref) as Hrec.
  cbn [List.length app Nat.add] in Hrec. cbv zeta in Hrec.
  change (filter not_runtime (from_throw_site om DeclaredByThrowable frames))
    with shown in Hrec.
  change (Z.of_nat 0) with 0 in *.
  rewrite Hrec by lia.
  cbn [method_trace_ dex_pc_trace_].
  rewrite Nat.sub_diag. cbn [repeat app]. now rewrite app_nil_r.
Qed.

(** X3. [Thread::CreateInternalStackTrace] on a stack of at most
    [INT_MAX] frames returns [NULL] when one of the two allocations
    fails. Otherwise the frames up to and including the exception's
    constructor (runtime frames and frames of methods declared by a
    [Throwable], from the innermost frame on) are left out, and so are
    the runtime frames after them; the method trace is the methods of
    the other frames, innermost first, followed by the reference to the
    pc trace, and the pc trace is their dex pcs. The depth counted by
    the first walk is the number of entries written by the second. *)
Theorem CreateInternalStackTrace_spec (frames : list Frame)
    (method_trace_alloc dex_pc_trace_alloc : bool) (pc_trace_ref : Z) :
  Z.of_nat (List.length frames) <= INT_MAX ->
  let shown := trace_frames om DeclaredByThrowable frames in
  CreateInternalStackTrace om DeclaredByThrowable frames
    method_trace_alloc dex_pc_trace_alloc pc_trace_ref
  = if method_trace_alloc && dex_pc_trace_alloc
    then Some (map GetMethod shown ++ [pc_trace_ref], map GetDexPc shown)
    else None.
Proof.
  intros Hlen shown.
  destruct method_trace_alloc; [destruct dex_pc_trace_alloc|];
    [| reflexivity | reflexivity].
  cbn [andb]. now apply CreateInternalStackTrace_allocated.
Qed.

(** X4. [Thread::GetCurrentMethod] returns the method, dex pc and frame
    id of the innermost frame that is not a runtime frame, and [NULL],
    0 and 0 when the stack has no such frame. *)
Theorem GetCurrentMethod_innermost (frames : list Frame) :
  GetCurrentMethod om frames
  = match find not_runtime frames with
    | Some f => (GetMethod f, GetDexPc f, GetFrameId f)
    | None => (NULL, 0, 0)
    end.
Proof.
  unfold GetCurrentMethod. generalize (NULL, 0, 0).
  induction frames as [|f outer IH]; intros v; [reflexivity|].
  cbn [WalkStack find]. unfold Current_VisitFrame at 1.
  destruct (IsRuntimeMethod om (GetMethod f)); cbn [negb]; [apply IH | reflexivity].
Qed.

End StackTraceFacts.

(** Witness of [CreateInternalStackTrace_spec]: the trace of
    [throwing_stack] shows [Loop.spin] and [Main.main]. *)
Lemma CreateInternalStackTrace_spec_witness :
  StackTrace.CreateInternalStackTrace StackTrace.trace_om (fun m => m =? 10)
    StackTrace.throwing_stack true true 77
  = Some ([100; 200; 77], [7; 3]).
Proof.
  apply (CreateInternalStackTrace_spec StackTrace.trace_om (fun m => m =? 10)
           StackTrace.throwing_stack true true 77).
  vm_compute. discriminate.
Defined.

(** ** The stack indirect reference tables *)

Section SirtFacts.

Import Sirt.

Lemma visit_references_filter (refs : list Z) :
  visit_references refs = filter (fun object => negb (object =? NULL)) refs.
Proof.
  induction refs as [|r rest IH]; [reflexivity|].
  cbn [visit_references filter]. destruct (negb (r =? NULL)); now rewrite IH.
Qed.

Lemma SirtVisitRoots_filter (top_sirt_ : list StackIndirectReferenceTable) :
  SirtVisitRoots top_sirt_
  = filter (fun object => negb (object =? NULL)) (flat_map references top_sirt_).
Proof.
  induction top_sirt_ as [|cur link IH]; [reflexivity|].
  cbn [SirtVisitRoots flat_map]. rewrite filter_app, IH.
  now rewrite visit_references_filter.
Qed.

Lemma NumSirtReferences_flat_map (top_sirt_ : list StackIndirectReferenceTable) :
  NumSirtReferences top_sirt_ = Z.of_nat (List.length (flat_map references top_sirt_)).
Proof.
  induction top_sirt_ as [|cur link IH]; [reflexivity|].
  cbn [NumSirtReferences flat_map]. rewrite length_app, IH. lia.
Qed.

(** X5. [Thread::SirtVisitRoots] calls the visitor on exactly the
    non-null references of the tables of the chain, [NULL] never, those
    of the most recent table first and each table in the order of its
    slots; the number of calls is [NumSirtReferences] less the number of
    the slots that hold [NULL]. *)
Theorem SirtVisitRoots_spec (top_sirt_ : list StackIndirectReferenceTable) :
  SirtVisitRoots top_sirt_
  = filter (fun object => negb (object =? NULL)) (flat_map references top_sirt_)
  /\ ~ In NULL (SirtVisitRoots top_sirt_)
  /\ Z.of_nat (List.length (SirtVisitRoots top_sirt_))
     = NumSirtReferences top_sirt_
       - Z.of_nat (count_occ Z.eq_dec (flat_map references top_sirt_) NULL).
Proof.
  split; [apply SirtVisitRoots_filter|]. split.
  - rewrite SirtVisitRoots_filter. intros Hin. apply filter_In in Hin.
    destruct Hin as [_ Hn]. now rewrite Z.eqb_refl in Hn.
  - rewrite SirtVisitRoots_filter, NumSirtReferences_flat_map.
    induction (flat_map references top_sirt_) as [|r rest IH]; [reflexivity|].
    cbn [filter count_occ List.length].
    destruct (Z.eq_dec r NULL) as [->|Hne].
    + rewrite Z.eqb_refl. cbn [negb]. lia.
    + replace (r =? NULL) with false by (symmetry; now apply Z.eqb_neq).
      cbn [negb List.length]. lia.
Qed.

Lemma is_chain_top (links : Z -> Z) (cur : Z) (tables : list Z) :
  is_chain links cur tables = true -> cur = hd NULL tables.
Proof.
  destruct tables as [|table rest]; cbn [is_chain hd]; intros H.
  - now apply Z.eqb_eq.
  - apply andb_true_iff in H as [H _]. apply andb_true_iff in H as [_ H].
    now apply Z.eqb_eq.
Qed.

(** A write to the link of a table that is not on the chain leaves the
    chain as it is. *)
Lemma is_chain_SetLink (sirt link : Z) (links : Z -> Z) (tables : list Z) (cur : Z) :
  ~ In sirt tables ->
  is_chain (SetLink sirt link links) cur tables = is_chain links cur tables.
Proof.
  revert cur. induction tables as [|table rest IH]; intros cur Hn; [reflexivity|].
  cbn [is_chain]. unfold SetLink at 2.
  replace (table =? sirt) with false
    by (symmetry; apply Z.eqb_neq; intros E; apply Hn; left; now symmetry).
  rewrite IH; [reflexivity|]. intros Hin. apply Hn. now right.
Qed.

Lemma run_ops_pushes (pushed : list Z) (rest : list SirtOp) (tables : list Z)
    (t : SirtChain) :
  is_chain (link_ t) (top_sirt_ t) tables = true ->
  NoDup pushed ->
  ~ In NULL pushed ->
  (forall sirt, In sirt pushed -> ~ In sirt tables) ->
  exists t1,
    run_ops (map Push pushed ++ rest) t = run_ops rest t1
    /\ is_chain (link_ t1) (top_sirt_ t1) (rev pushed ++ tables) = true
    /\ (forall table, ~ In table pushed -> link_ t1 table = link_ t table).
Proof.
  revert tables t.
  induction pushed as [|p ps IH]; intros tables t Hc Hnd Hnull Hfresh.
  - exists t. cbn. repeat split; assumption.
  - inversion Hnd as [|? ? Hp Hnd']; subst.
    assert (Hpn : (p =? NULL) = false).
    { apply Z.eqb_neq. intros E. apply Hnull. now left. }
    cbn [map app run_ops]. unfold PushSirt. rewrite Hpn.
    set (t0 := {| top_sirt_ := p; link_ := SetLink p (top_sirt_ t) (link_ t) |}).
    destruct (IH (p :: tables) t0) as (t1 & Hrun & Hc1 & Hframe).
    + subst t0. cbn [link_ top_sirt_ is_chain]. rewrite Hpn, Z.eqb_refl. cbn.
      unfold SetLink at 2. rewrite Z.eqb_refl.
      rewrite is_chain_SetLink; [assumption|]. apply Hfresh. now left.
    + assumption.
    + intros Hin. apply Hnull. now right.
    + intros sirt Hin [E | Hin'].
      * subst sirt. contradiction.
      * apply (Hfresh sirt); [now right | assumption].
    + exists t1. split; [exact Hrun|]. split.
      * cbn [rev]. rewrite <- app_assoc. exact Hc1.
      * intros table Hn. rewrite Hframe by (intros Hin; apply Hn; now right).
        subst t0. cbn [link_]. unfold SetLink.
        replace (table =? p) with false; [reflexivity|].
        symmetry. apply Z.eqb_neq. intros E. apply Hn. left. now symmetry.
Qed.

Lemma run_ops_pops (front tables : list Z) (t : SirtChain) :
  is_chain (link_ t) (top_sirt_ t) (front ++ tables) = true ->
  exists t',
    run_ops (repeat Pop (List.length front)) t = Some (front, t')
    /\ link_ t' = link_ t
    /\ is_chain (link_ t') (top_sirt_ t') tables = true.
Proof.
  revert t. induction front as [|f front IH]; intros t Hc.
  - exists t. cbn. repeat split. exact Hc.
  - cbn [app is_chain] in Hc.
    apply andb_true_iff in Hc as [Hc Hrest]. apply andb_true_iff in Hc as [Hn Hf].
    apply Z.eqb_eq in Hf. apply negb_true_iff in Hn.
    cbn [List.length repeat run_ops]. unfold PopSirt. rewrite Hn.
    destruct (IH {| top_sirt_ := link_ t (top_sirt_ t); link_ := link_ t |})
      as (t' & Hrun & Hl & Hc').
    + cbn [link_ top_sirt_]. now rewrite Hf.
    + exists t'. cbv zeta. rewrite Hrun, Hf. repeat split; assumption.
Qed.

Lemma run_ops_one_pop_more (tables : list Z) (t : SirtChain) :
  is_chain (link_ t) (top_sirt_ t) tables = true ->
  run_ops (repeat Pop (S (List.length tables))) t = None.
Proof.
  revert t. induction tables as [|table rest IH]; intros t Hc.
  - cbn [is_chain] in Hc. cbn. unfold PopSirt. now rewrite Hc.
  - cbn [is_chain] in Hc.
    apply andb_true_iff in Hc as [Hc Hrest]. apply andb_true_iff in Hc as [Hn Hf].
    apply Z.eqb_eq in Hf. apply negb_true_iff in Hn.
    change (repeat Pop (S (List.length (table :: rest))))
      with (Pop :: repeat Pop (S (List.length rest))).
    cbn [run_ops]. unfold PopSirt. rewrite Hn. cbv zeta.
    rewrite IH; [reflexivity|]. cbn [link_ top_sirt_]. now rewrite Hf.
Qed.

(** A table whose link is the table itself is what every pop returns. *)
Lemma run_ops_pops_loop (sirt : Z) (n : nat) (t : SirtChain) :
  sirt <> NULL ->
  top_sirt_ t = sirt ->
  link_ t sirt = sirt ->
  run_ops (repeat Pop n) t = Some (repeat sirt n, t).
Proof.
  intros Hn Htop Hlink. induction n as [|n IH]; [reflexivity|].
  cbn [repeat run_ops]. unfold PopSirt. rewrite Htop.
  replace (sirt =? NULL) with false by (symmetry; now apply Z.eqb_neq).
  cbv zeta. rewrite Hlink.
  replace {| top_sirt_ := sirt; link_ := link_ t |} with t
    by (destruct t; cbn in *; now subst).
  now rewrite IH.
Qed.

(** X6. The tables are a stack, as long as every table pushed is a table
    of its own: after pushes of distinct tables that are not on the
    chain, as many calls of [Thread::PopSirt] return the tables pushed,
    the last pushed first, and leave the chain as it was before the
    pushes, with the links of all other tables untouched; one pop more
    than the chain has tables fails its [CHECK]. A table pushed twice is
    linked to itself: from then on every pop returns that table, and
    neither is the chain below it reached again nor does a pop fail. *)
Theorem PopSirt_undoes_PushSirt (pushed tables : list Z) (t : SirtChain) :
  is_chain (link_ t) (top_sirt_ t) tables = true ->
  NoDup pushed ->
  ~ In NULL pushed ->
  (forall sirt, In sirt pushed -> ~ In sirt tables) ->
  (exists t',
     run_ops (map Push pushed ++ repeat Pop (List.length pushed)) t
     = Some (rev pushed, t')
     /\ top_sirt_ t' = top_sirt_ t
     /\ is_chain (link_ t') (top_sirt_ t') tables = true
     /\ (forall table, ~ In table pushed -> link_ t' table = link_ t table))
  /\ run_ops (repeat Pop (S (List.length tables))) t = None
  /\ (forall (sirt : Z) (n : nat),
        sirt <> NULL ->
        exists t',
          run_ops (Push sirt :: Push sirt :: repeat Pop n) t
          = Some (repeat sirt n, t')
          /\ top_sirt_ t' = sirt
          /\ link_ t' sirt = sirt).
Proof.
  intros Hc Hnd Hnull Hfresh. split; [|split].
  - destruct (run_ops_pushes pushed (repeat Pop (List.length pushed)) tables t
                Hc Hnd Hnull Hfresh) as (t1 & Hrun & Hc1 & Hframe).
    destruct (run_ops_pops (rev pushed) tables t1 Hc1) as (t' & Hpops & Hl & Hc').
    rewrite length_rev in Hpops.
    exists t'. rewrite Hrun, Hpops. split; [reflexivity|].
    split.
    + rewrite (is_chain_top _ _ _ Hc'). symmetry. now apply is_chain_top with (link_ t).
    + split; [exact Hc'|]. intros table Hn. rewrite Hl. now apply Hframe.
  - now apply run_ops_one_pop_more.
  - intros sirt n Hs.
    assert (Hsn : (sirt =? NULL) = false) by now apply Z.eqb_neq.
    cbn [run_ops]. unfold PushSirt. rewrite Hsn. cbn [top_sirt_ link_].
    eexists. rewrite (run_ops_pops_loop sirt n); [split; [reflexivity|] | | |].
    + cbn [top_sirt_ link_]. unfold SetLink. rewrite Z.eqb_refl. now split.
    + assumption.
    + reflexivity.
    + cbn [link_]. unfold SetLink. now rewrite Z.eqb_refl.
Qed.

End SirtFacts.

(** Witness of [PopSirt_undoes_PushSirt]: the tables at 100 and 200 are
    pushed on a chain that holds the table at 50. *)
Lemma PopSirt_undoes_PushSirt_witness :
  let t := {| Sirt.top_sirt_ := 50; Sirt.link_ := fun _ => NULL |} in
  exists t',
    Sirt.run_ops [Sirt.Push 100; Sirt.Push 200; Sirt.Pop; Sirt.Pop] t
    = Some ([200; 100], t')
    /\ Sirt.top_sirt_ t' = 50.
Proof.
  intros t.
  destruct (PopSirt_undoes_PushSirt [100; 200] [50] t)
    as ((t' & Hrun & Htop & _) & _).
  - reflexivity.
  - repeat constructor; cbn; intuition discriminate.
  - cbn. intuition discriminate.
  - cbn. intros sirt [E | [E | []]]; subst; intuition discriminate.
  - exists t'. split; [exact Hrun | exact Htop].
Defined.

(** ** Runs of one frame in the dump of a stack *)

Section StackDumpFacts.

Import Dump StackDump.

Variable om : ObjectModel.
Variable DescribeWait : list Token.
Variable DescribeLocks : Frame -> list Token.

Local Abbreviation Visit := (VisitFrame om DescribeWait DescribeLocks).
Local Abbreviation lines := (frame_lines om DescribeWait DescribeLocks).
Local Abbreviation printed := (print_frames om DescribeWait DescribeLocks).

(** A frame of the method and line of the frame before it, at any
    repetition count. *)
Lemma VisitFrame_same (f : Frame) (o : list Token) (ca : bool) (rc fc : Z) :
  IsRuntimeMethod om (GetMethod f) = false ->
  0 <= rc < INT_MAX ->
  Visit f (mkStackDumpVisitor o ca (GetMethod f) (line_number_of om f) rc fc)
  = (true,
     mkStackDumpVisitor
       (o ++ if rc + 1 <? kMaxRepetition then lines ca fc f else [])
       ca (GetMethod f) (line_number_of om f) (rc + 1) (wrap_int (fc + 1))).
Proof.
  intros Hrt Hrc. unfold VisitFrame.
  cbn [os can_allocate last_method last_line_number repetition_count frame_count].
  rewrite Hrt, !Z.eqb_refl. cbn [andb].
  cbn [os can_allocate last_method last_line_number repetition_count frame_count].
  rewrite (wrap_int_id (rc + 1)) by (unfold INT_MIN, INT_MAX in *; lia).
  destruct (rc + 1 <? kMaxRepetition); cbn; [reflexivity|].
  now rewrite app_nil_r.
Qed.

(** A frame of another method or line, at any repetition count. *)
Lemma VisitFrame_other (f : Frame) (o : list Token) (ca : bool) (lm ll rc fc : Z) :
  IsRuntimeMethod om (GetMethod f) = false ->
  GetMethod f <> lm \/ line_number_of om f <> ll ->
  0 <= rc <= INT_MAX ->
  Visit f (mkStackDumpVisitor o ca lm ll rc fc)
  = (true,
     mkStackDumpVisitor
       ((o ++ if rc >=? kMaxRepetition
              then [Str "  ... repeated "; Num (rc - kMaxRepetition); Str " times\n"]
              else [])
        ++ lines ca fc f)
       ca (GetMethod f) (line_number_of om f) 0 (wrap_int (fc + 1))).
Proof.
  intros Hrt Hd Hrc. unfold VisitFrame.
  cbn [os can_allocate last_method last_line_number repetition_count frame_count].
  rewrite Hrt.
  assert (E : (line_number_of om f =? ll) && (lm =? GetMethod f) = false).
  { apply andb_false_iff. destruct Hd as [Hd | Hd].
    - right. apply Z.eqb_neq. congruence.
    - left. now apply Z.eqb_neq. }
  rewrite E.
  cbn [os can_allocate last_method last_line_number repetition_count frame_count].
  rewrite (wrap_int_id (rc - kMaxRepetition))
    by (unfold INT_MIN, INT_MAX, kMaxRepetition in *; lia).
  reflexivity.
Qed.

(** The visitor never ends the walk. *)
Lemma WalkStack_Visit_app (inner outer : list Frame) (v : StackDumpVisitor) :
  WalkStack Visit (inner ++ outer) v = WalkStack Visit outer (WalkStack Visit inner v).
Proof.
  revert v. induction inner as [|f fs IH]; intros v; [reflexivity|].
  cbn [app WalkStack].
  assert (Ht : fst (Visit f v) = true).
  { unfold VisitFrame. destruct (IsRuntimeMethod om (GetMethod f)); reflexivity. }
  destruct (Visit f v) as [[] v']; [apply IH | discriminate].
Qed.

(** The frames of a run after its first: the first [2 - rc] of them are
    printed, and both counters grow by their number. *)
Lemma WalkStack_run (run : list Frame) (m line : Z) (o : list Token) (ca : bool)
    (rc fc : Z) :
  IsRuntimeMethod om m = false ->
  Forall (fun f => GetMethod f = m /\ line_number_of om f = line) run ->
  0 <= rc -> rc + Z.of_nat (List.length run) <= INT_MAX ->
  0 <= fc -> fc + Z.of_nat (List.length run) <= INT_MAX ->
  WalkStack Visit run (mkStackDumpVisitor o ca m line rc fc)
  = mkStackDumpVisitor
      (o ++ printed ca fc (firstn (Z.to_nat (2 - rc)) run))
      ca m line (rc + Z.of_nat (List.length run)) (fc + Z.of_nat (List.length run)).
Proof.
  intros Hrt Hall. revert o rc fc.
  induction Hall as [|f rest [Hm Hl] Hall IH]; intros o rc fc Hrc Hrcn Hfc Hfcn.
  - cbn [WalkStack List.length]. rewrite firstn_nil. cbn [print_frames].
    now rewrite app_nil_r, !Z.add_0_r.
  - cbn [List.length] in Hrcn, Hfcn. cbn [WalkStack].
    subst m line. rewrite VisitFrame_same by (unfold INT_MAX in *; auto; lia).
    rewrite wrap_int_id by (unfold INT_MIN, INT_MAX in *; lia).
    rewrite IH by lia.
    cbn [List.length]. f_equal; try lia.
    unfold kMaxRepetition.
    destruct (rc + 1 <? 3) eqn:E.
    + apply Z.ltb_lt in E.
      replace (Z.to_nat (2 - rc)) with (S (Z.to_nat (2 - (rc + 1)))) by lia.
      cbn [firstn print_frames]. now rewrite <- app_assoc.
    + apply Z.ltb_ge in E.
      replace (Z.to_nat (2 - rc)) with 0%nat by lia.
      replace (Z.to_nat (2 - (rc + 1))) with 0%nat by lia.
      cbn [firstn print_frames]. now rewrite !app_nil_r.
Qed.

(** X7. The dump of a run of [n] frames of one method at one line that
    is followed by another frame: the first three frames of the run are
    printed and the other [n - 3] are not; for [n >= 4] a line follows
    that says "repeated [n - 4] times", one less than the number of
    frames left out, and for [n <= 3] no such line. *)
Theorem StackDumpVisitor_run_then_change (ca : bool) (run : list Frame) (g : Frame)
    (m line : Z) :
  run <> [] ->
  Forall (fun f => GetMethod f = m /\ line_number_of om f = line) run ->
  IsRuntimeMethod om m = false ->
  m <> NULL ->
  IsRuntimeMethod om (GetMethod g) = false ->
  GetMethod g <> m \/ line_number_of om g <> line ->
  Z.of_nat (List.length run) < INT_MAX ->
  let n := Z.of_nat (List.length run) in
  dump om DescribeWait DescribeLocks ca (run ++ [g])
  = printed ca 0 (firstn 3 run)
    ++ (if 4 <=? n
        then [Str "  ... repeated "; Num (n - 4); Str " times\n"] else [])
    ++ lines ca n g.
Proof.
  intros Hne Hall Hrt Hm Hrg Hg Hlen n.
  destruct run as [|f1 rest]; [congruence|]. clear Hne.
  inversion Hall as [|? ? [Hm1 Hl1] Hrest]; subst.
  cbn [List.length] in Hlen, n.
  unfold dump. rewrite WalkStack_Visit_app.
  unfold StackDumpVisitor_new. cbn [app WalkStack].
  rewrite VisitFrame_other by (unfold INT_MAX; auto; lia).
  change (0 >=? kMaxRepetition) with false. cbv iota.
  change (wrap_int (0 + 1)) with 1.
  rewrite (WalkStack_run rest (GetMethod f1) (line_number_of om f1))
    by (unfold INT_MAX in *; auto; lia).
  rewrite VisitFrame_other by (unfold INT_MAX in *; auto; lia).
  cbn [os firstn print_frames app]. change (Z.to_nat (2 - 0)) with 2%nat.
  change (0 + 1) with 1.
  replace (1 + Z.of_nat (List.length rest)) with n by lia.
  unfold kMaxRepetition.
  replace (0 + Z.of_nat (List.length rest) >=? 3) with (4 <=? n)
    by (destruct (4 <=? n) eqn:E;
        [apply Z.leb_le in E; symmetry; apply Z.geb_le; lia
        |apply Z.leb_gt in E;
         destruct (0 + Z.of_nat (List.length rest) >=? 3) eqn:E';
         [apply Z.geb_le in E'; lia | reflexivity]]).
  replace (0 + Z.of_nat (List.length rest) - 3) with (n - 4) by lia.
  now rewrite <- !app_assoc.
Qed.

(** X8. The dump of a stack that is one run of frames of one method at
    one line, or that ends in one: the first three frames of the run
    are printed and nothing else, however long the run is; the line
    that tells of the repetition is written only when another frame
    follows. *)
Theorem StackDumpVisitor_trailing_run (ca : bool) (run : list Frame) (m line : Z) :
  Forall (fun f => GetMethod f = m /\ line_number_of om f = line) run ->
  IsRuntimeMethod om m = false ->
  m <> NULL ->
  Z.of_nat (List.length run) < INT_MAX ->
  dump om DescribeWait DescribeLocks ca run = printed ca 0 (firstn 3 run).
Proof.
  intros Hall Hrt Hm Hlen.
  destruct run as [|f1 rest]; [reflexivity|].
  inversion Hall as [|? ? [Hm1 Hl1] Hrest]; subst.
  cbn [List.length] in Hlen.
  unfold dump, StackDumpVisitor_new. cbn [WalkStack].
  rewrite VisitFrame_other by (unfold INT_MAX; auto; lia).
  change (0 >=? kMaxRepetition) with false. cbv iota.
  change (wrap_int (0 + 1)) with 1.
  rewrite (WalkStack_run rest (GetMethod f1) (line_number_of om f1))
    by (unfold INT_MAX in *; auto; lia).
  cbn [os firstn print_frames app]. change (Z.to_nat (2 - 0)) with 2%nat.
  reflexivity.
Qed.

(** The frames counted by a walk are the frames that are not runtime
    frames, and a walk over runtime frames writes nothing. *)
Lemma WalkStack_frame_count (frames : list Frame) (v : StackDumpVisitor) :
  0 <= frame_count v ->
  frame_count v + Z.of_nat (List.length frames) <= INT_MAX ->
  let not_runtime := fun f => negb (IsRuntimeMethod om (GetMethod f)) in
  frame_count (WalkStack Visit frames v)
  = frame_count v + Z.of_nat (List.length (filter not_runtime frames))
  /\ (existsb not_runtime frames = false -> WalkStack Visit frames v = v).
Proof.
  revert v. induction frames as [|f outer IH]; intros v H0 Hmax not_runtime.
  - cbn. split; [lia | reflexivity].
  - cbn [List.length] in Hmax. cbn [WalkStack filter existsb].
    subst not_runtime. cbv beta.
    unfold VisitFrame at 1 3.
    destruct (IsRuntimeMethod om (GetMethod f)) eqn:Hrt; cbn [negb orb].
    + apply IH; lia.
    + split; [|discriminate].
      match goal with
      | |- frame_count (WalkStack _ _ ?v1) = _ =>
          destruct (IH v1) as [E _]
      end.
      * cbn [frame_count].
        match goal with
        | |- 0 <= wrap_int (frame_count ?x + 1) =>
            replace (frame_count x) with (frame_count v)
              by (destruct ((_ =? _) && (_ =? _));
                  cbn [repetition_count frame_count];
                  match goal with
                  | |- context [if ?c then _ else _] => destruct c
                  end; reflexivity)
        end.
        rewrite wrap_int_id by (unfold INT_MIN, INT_MAX in *; lia). lia.
      * cbn [frame_count].
        match goal with
        | |- wrap_int (frame_count ?x + 1) + _ <= _ =>
            replace (frame_count x) with (frame_count v)
              by (destruct ((_ =? _) && (_ =? _));
                  cbn [repetition_count frame_count];
                  match goal with
                  | |- context [if ?c then _ else _] => destruct c
                  end; reflexivity)
        end.
        rewrite wrap_int_id by (unfold INT_MIN, INT_MAX in *; lia). lia.
      * rewrite E. cbn [frame_count List.length].
        match goal with
        | |- wrap_int (frame_count ?x + 1) + _ = _ =>
            replace (frame_count x) with (frame_count v)
              by (destruct ((_ =? _) && (_ =? _));
                  cbn [repetition_count frame_count];
                  match goal with
                  | |- context [if ?c then _ else _] => destruct c
                  end; reflexivity)
        end.
        rewrite wrap_int_id by (unfold INT_MIN, INT_MAX in *; lia). lia.
Qed.

(** X9. [Thread::DumpStack] ends with the line "(no managed stack
    frames)" exactly when the stack has no frame that is not a runtime
    frame, and the visitor has then written nothing else: the dump is
    that line after the kernel and native stacks, which are written
    only for a thread in the state [kNative]. *)
Theorem DumpStack_no_managed_frames (kernel_stack native_stack : list Token)
    (t : Thread) (frames : list Frame) (os0 : list Token) :
  Z.of_nat (List.length frames) <= INT_MAX ->
  let not_runtime := fun f => negb (IsRuntimeMethod om (GetMethod f)) in
  let before := match state_ t with
                | kNative => os0 ++ kernel_stack ++ native_stack
                | _ => os0
                end in
  let walked :=
    WalkStack Visit frames
      (StackDumpVisitor_new before (negb (throwing_OutOfMemoryError_ t))) in
  DumpStack om DescribeWait DescribeLocks kernel_stack native_stack t frames os0
  = os walked
    ++ (if existsb not_runtime frames then []
        else [Str "  (no managed stack frames)\n"])
  /\ (existsb not_runtime frames = false -> os walked = before).
Proof.
  intros Hlen not_runtime before walked.
  destruct (WalkStack_frame_count frames
              (StackDumpVisitor_new before (negb (throwing_OutOfMemoryError_ t))))
    as [Hc Hnone]; [cbn; lia | cbn; lia |].
  fold not_runtime in Hc, Hnone. fold walked in Hc, Hnone.
  split.
  - unfold DumpStack, StackDumpVisitor_delete. fold before. fold walked.
    rewrite Hc. cbn [frame_count StackDumpVisitor_new]. f_equal.
    destruct (existsb not_runtime frames) eqn:E.
    + apply existsb_exists in E as (f & Hin & Hf).
      assert (Hin' : In f (filter not_runtime frames)) by (apply filter_In; now split).
      destruct (filter not_runtime frames) as [|g gs]; [contradiction|].
      cbn [List.length].
      replace (0 + Z.of_nat (S (List.length gs)) =? 0) with false
        by (symmetry; apply Z.eqb_neq; lia).
      reflexivity.
    + assert (En : filter not_runtime frames = []).
      { clear -E. induction frames as [|g gs IH]; [reflexivity|].
        cbn [existsb filter] in *. apply orb_false_iff in E as [E1 E2].
        rewrite E1. now apply IH. }
      rewrite En. reflexivity.
  - intros E. rewrite (Hnone E). reflexivity.
Qed.

End StackDumpFacts.

(** Witness of [StackDumpVisitor_run_then_change]: four frames of
    [Loop.spin] at line 7, then [Main.main]; the line written says
    "repeated 0 times". *)
Lemma StackDumpVisitor_run_then_change_witness :
  Dump.dump Dump.example_om [] (fun _ => []) true
    ([Dump.spin_frame 0; Dump.spin_frame 1; Dump.spin_frame 2; Dump.spin_frame 3]
     ++ [Dump.main_frame])
  = StackDump.print_frames Dump.example_om [] (fun _ => []) true 0
      [Dump.spin_frame 0; Dump.spin_frame 1; Dump.spin_frame 2]
    ++ [Str "  ... repeated "; Num 0; Str " times\n"]
    ++ Dump.frame_lines Dump.example_om [] (fun _ => []) true 4 Dump.main_frame.
Proof.
  apply (StackDumpVisitor_run_then_change Dump.example_om [] (fun _ => []) true
           [Dump.spin_frame 0; Dump.spin_frame 1; Dump.spin_frame 2;
            Dump.spin_frame 3]
           Dump.main_frame 100 7).
  - discriminate.
  - repeat constructor.
  - reflexivity.
  - discriminate.
  - reflexivity.
  - left. discriminate.
  - reflexivity.
Defined.

(** Witness of [StackDumpVisitor_trailing_run]: a stack of five frames
    of [Loop.spin] at line 7 and nothing else. *)
Lemma StackDumpVisitor_trailing_run_witness :
  Dump.dump Dump.example_om [] (fun _ => []) true
    [Dump.spin_frame 0; Dump.spin_frame 1; Dump.spin_frame 2; Dump.spin_frame 3;
     Dump.spin_frame 4]
  = StackDump.print_frames Dump.example_om [] (fun _ => []) true 0
      [Dump.spin_frame 0; Dump.spin_frame 1; Dump.spin_frame 2].
Proof.
  apply (StackDumpVisitor_trailing_run Dump.example_om [] (fun _ => []) true
           [Dump.spin_frame 0; Dump.spin_frame 1; Dump.spin_frame 2;
            Dump.spin_frame 3; Dump.spin_frame 4] 100 7).
  - repeat constructor.
  - reflexivity.
  - discriminate.
  - reflexivity.
Defined.

(** Witness of [DumpStack_no_managed_frames]: a thread in native code
    whose stack is one callee-save frame. *)
Lemma DumpStack_no_managed_frames_witness :
  StackDump.DumpStack StackTrace.trace_om [] (fun _ => [])
    [Str "  kernel: (unavailable)\n"] [Str "  native: (unavailable)\n"]
    (set_state_ kNative Thread_new) [StackTrace.trace_frame 1 0 0] []
  = [Str "  kernel: (unavailable)\n"; Str "  native: (unavailable)\n";
     Str "  (no managed stack frames)\n"].
Proof.
  destruct (DumpStack_no_managed_frames StackTrace.trace_om [] (fun _ => [])
              [Str "  kernel: (unavailable)\n"] [Str "  native: (unavailable)\n"]
              (set_state_ kNative Thread_new) [StackTrace.trace_frame 1 0 0] [])
    as [E _].
  - vm_compute. discriminate.
  - exact E.
Defined.

(** ** What the reference resolver returns *)

Section DecodeResults.

Import Decode.

Variable debug : bool.
Variable jt : JniTables.

(** X10. [Thread::DecodeJObject] on a non-null handle whose kind is not
    recognized and that the SIRTs do not contain: with
    [work_around_app_jni_bugs] the handle is taken for a direct pointer
    and, the heap check passed, comes back as it was given; without it
    the result is [kInvalidIndirectRefObject], with neither an abort nor
    a heap check. *)
Theorem DecodeJObject_unrecognized (obj : Z) (s : JState) :
  obj <> NULL ->
  GetIndirectRefKind jt obj = kSirtOrInvalid ->
  SirtContains jt obj = false ->
  (debug = true -> CanAccessDirectReferences jt = true) ->
  kInvalidIndirectRefObject jt <> NULL ->
  DecodeJObject debug jt obj s
  = if work_around_app_jni_bugs jt then
      if obj =? kInvalidIndirectRefObject jt then (Ok obj, s)
      else if heap_is_consistent_at jt obj then
        (Ok obj, {| jevents := jevents s ++ [JVerifyObject obj]; jlog := jlog s |})
      else
        (Abort, {| jevents := jevents s ++ [JVerifyObject obj];
                   jlog := jlog s ++ [(FATAL, [Str "Heap corruption at "; Ptr obj])] |})
    else (Ok (kInvalidIndirectRefObject jt), s).
Proof.
  intros Hobj Hkind Hsirt Hdbg Hinv.
  apply Z.eqb_neq in Hobj. apply Z.eqb_neq in Hinv.
  assert (Hd : debug && negb (CanAccessDirectReferences jt) = false).
  { destruct debug; [|reflexivity]. now rewrite Hdbg. }
  destruct s as [ev lg].
  unfold DecodeJObject, lookup, JniAbortF, VerifyObject,
    jemit, jfatal, bind, modify, ret, when, abort.
  rewrite Hd, Hobj, Hkind, Hsirt. cbn [jevents jlog].
  destruct (work_around_app_jni_bugs jt).
  - rewrite Hobj.
    destruct (obj =? kInvalidIndirectRefObject jt); cbn; [reflexivity|].
    destruct (heap_is_consistent_at jt obj); reflexivity.
  - rewrite Hinv, Z.eqb_refl. reflexivity.
Qed.

(** X11. Whatever the handle and the tables, a call of
    [Thread::DecodeJObject] that returns has logged nothing and reported
    no JNI error; it returns [NULL] only for the [NULL] handle and for a
    weak global that was cleared; and a result that is neither [NULL]
    nor [kInvalidIndirectRefObject] went through the heap check, as the
    last thing done, and passed it. *)
Theorem DecodeJObject_returns (obj r : Z) (s s' : JState) :
  DecodeJObject debug jt obj s = (Ok r, s') ->
  jlog s' = jlog s
  /\ (forall msg, In (JJniAbort msg) (jevents s') -> In (JJniAbort msg) (jevents s))
  /\ (r = NULL ->
      obj = NULL
      \/ (GetIndirectRefKind jt obj = kWeakGlobal
          /\ weak_globals_Get jt obj = kClearedJniWeakGlobal jt))
  /\ (r <> NULL -> r <> kInvalidIndirectRefObject jt ->
      heap_is_consistent_at jt r = true
      /\ exists before, jevents s' = before ++ [JVerifyObject r]).
Proof.
  destruct s as [ev lg].
  unfold DecodeJObject, lookup, JniAbortF, VerifyObject,
    jemit, jfatal, bind, modify, ret, when, abort.
  destruct (debug && negb (CanAccessDirectReferences jt)); [discriminate|].
  cbn [jevents jlog].
  destruct (obj =? NULL) eqn:Hobj.
  { intros H. inversion H; subst. apply Z.eqb_eq in Hobj.
    repeat split; auto; congruence. }
  assert (Hnot : forall events msg,
             In (JJniAbort msg) (ev ++ events) ->
             (forall e, In e events -> forall m, e <> JJniAbort m) ->
             In (JJniAbort msg) ev).
  { intros events msg Hin Hno. apply in_app_or in Hin as [Hin | Hin]; [exact Hin|].
    exfalso. exact (Hno _ Hin msg eq_refl). }
  assert (Hfinish : forall (events : list JEvent) (result : Z),
             (forall e, In e events -> forall m, e <> JJniAbort m) ->
             (let '(x, st) :=
                (if result =? NULL
                 then fun s0 : JState =>
                        (@Abort unit,
                         {| jevents := jevents s0
                                       ++ [JJniAbort [Str "use of deleted ";
                                                      Str (ToStr jt (GetIndirectRefKind jt obj));
                                                      Str " "; Ptr obj]];
                            jlog := jlog s0 |})
                 else if negb (result =? kInvalidIndirectRefObject jt)
                      then fun s0 : JState =>
                             (if heap_is_consistent_at jt result
                              then fun s1 => (Ok tt, s1)
                              else fun s1 =>
                                     (Abort,
                                      {| jevents := jevents s1;
                                         jlog := jlog s1
                                                 ++ [(FATAL, [Str "Heap corruption at ";
                                                              Ptr result])] |}))
                               {| jevents := jevents s0 ++ [JVerifyObject result];
                                  jlog := jlog s0 |}
                      else fun s0 => (Ok tt, s0))
                  {| jevents := ev ++ events; jlog := lg |} in
              match x with
              | Ok _ => (Ok result, st)
              | Abort => (Abort, st)
              | LongJump sp pc => (LongJump sp pc, st)
              end) = (Ok r, s') ->
             jlog s' = lg
             /\ (forall msg, In (JJniAbort msg) (jevents s') -> In (JJniAbort msg) ev)
             /\ (r = NULL -> False)
             /\ (r <> NULL -> r <> kInvalidIndirectRefObject jt ->
                 heap_is_consistent_at jt r = true
                 /\ exists before, jevents s' = before ++ [JVerifyObject r])).
  { intros events result Hno.
    destruct (result =? NULL) eqn:Hnull; [discriminate|].
    apply Z.eqb_neq in Hnull.
    destruct (result =? kInvalidIndirectRefObject jt) eqn:Hinv; cbn [negb].
    - intros H. inversion H; subst. apply Z.eqb_eq in Hinv.
      repeat split; try congruence.
      intros msg Hin. exact (Hnot _ _ Hin Hno).
    - destruct (heap_is_consistent_at jt result) eqn:Hheap; [|discriminate].
      cbn [jevents jlog]. intros H. inversion H; subst.
      repeat split; try congruence.
      + cbn [jevents]. intros msg Hin.
        apply in_app_or in Hin as [Hin | [Hin | []]]; [|discriminate].
        exact (Hnot _ _ Hin Hno).
      + eexists. cbn [jevents]. reflexivity. }
  assert (Hlocks : forall name e,
             In e [JLock name; JUnlock name] -> forall m, e <> JJniAbort m).
  { intros name e [<- | [<- | []]] m; discriminate. }
  destruct (GetIndirectRefKind jt obj) eqn:Hkind.
  - (* SIRT or invalid *)
    intros H.
    assert (Hgoal := fun result Hr =>
              Hfinish [] result (fun e (Hin : In e []) => match Hin with end) Hr).
    rewrite app_nil_r in Hgoal.
    destruct (SirtContains jt obj); [|destruct (work_around_app_jni_bugs jt)];
      apply Hgoal in H; destruct H as (H1 & H2 & H3 & H4);
      (repeat split; [exact H1 | exact H2 | intros Hr; destruct (H3 Hr) | apply H4 | apply H4]);
      assumption.
  - (* local *)
    intros H.
    assert (Hgoal := fun result Hr =>
              Hfinish [] result (fun e (Hin : In e []) => match Hin with end) Hr).
    rewrite app_nil_r in Hgoal.
    apply Hgoal in H; destruct H as (H1 & H2 & H3 & H4).
    repeat split; [exact H1 | exact H2 | intros Hr; destruct (H3 Hr) | apply H4 | apply H4];
      assumption.
  - (* global *)
    cbn [jevents jlog]. rewrite <- app_assoc. cbn [app].
    intros H. apply (Hfinish _ _ (Hlocks "globals_lock")) in H.
    destruct H as (H1 & H2 & H3 & H4).
    repeat split; [exact H1 | exact H2 | intros Hr; destruct (H3 Hr) | apply H4 | apply H4];
      assumption.
  - (* weak global *)
    destruct (weak_globals_Get jt obj =? kClearedJniWeakGlobal jt) eqn:Hc.
    + cbn [jevents jlog]. intros H. inversion H; subst. apply Z.eqb_eq in Hc.
      repeat split; try congruence; auto.
      cbn [jevents]. rewrite <- app_assoc. intros msg Hin.
      exact (Hnot _ _ Hin (Hlocks "weak_globals_lock")).
    + cbn [jevents jlog]. rewrite <- app_assoc. cbn [app].
      intros H. apply (Hfinish _ _ (Hlocks "weak_globals_lock")) in H.
      destruct H as (H1 & H2 & H3 & H4).
      repeat split; [exact H1 | exact H2 | intros Hr; destruct (H3 Hr) | apply H4 | apply H4];
        assumption.
Qed.

End DecodeResults.

(** Witness of [DecodeJObject_unrecognized]: the handle 16 of the
    example tables, which are strict. *)
Lemma DecodeJObject_unrecognized_witness :
  Decode.DecodeJObject true Decode.example_tables 16 Decode.state0
  = (Ok 3735896865, Decode.state0).
Proof.
  apply (DecodeJObject_unrecognized true Decode.example_tables 16 Decode.state0).
  - discriminate.
  - reflexivity.
  - reflexivity.
  - reflexivity.
  - discriminate.
Defined.

(** Witness of [DecodeJObject_returns]: the live local 17 of the example
    tables. *)
Lemma DecodeJObject_returns_witness :
  Decode.heap_is_consistent_at Decode.example_tables 4096 = true
  /\ exists before,
       [Decode.JVerifyObject 4096] = before ++ [Decode.JVerifyObject 4096].
Proof.
  destruct (DecodeJObject_returns true Decode.example_tables 17 4096 Decode.state0
              {| Decode.jevents := [Decode.JVerifyObject 4096]; Decode.jlog := [] |})
    as (_ & _ & _ & H).
  - vm_compute. reflexivity.
  - apply H; discriminate.
Defined.

(** ** Suspending and resuming, in pairs *)

Section SuspendPairs.

Import Suspend.

Variable rt : Runtime.

(** X12. A suspend request followed by the resume of the same kind
    leaves the thread, the locks and the log as they were: under the
    suspend-count lock, on a thread whose counters satisfy the invariant
    and are below [INT_MAX], [ModifySuspendCount(+1, d)] and then
    [ModifySuspendCount(-1, d)] both return and the second undoes the
    first. *)
Theorem ModifySuspendCount_suspend_resume (w : World) (for_debugger : bool) :
  thread_suspend_count_lock_held (locks w) = true ->
  invariant (this w) ->
  counters_are_int (this w) ->
  suspend_count_ (this w) < INT_MAX ->
  (ModifySuspendCount rt 1 for_debugger ;;
   ModifySuspendCount rt (-1) for_debugger)%monad w
  = (Ok tt, w).
Proof.
  intros Hl [H0 Hle] [Hs Hd] Hmax.
  unfold INT_MIN, INT_MAX in *.
  unfold bind at 1.
  rewrite ModifySuspendCount_body
    by (intros _; split; [tauto | split; [lia | exact Hl]]).
  cbn [Z.eqb andb].
  destruct w as [a [sc ex st lj th dsc nm] l lg]. cbn [this locks] in *.
  cbn [suspend_count_ debug_suspend_count_] in *.
  rewrite ModifySuspendCount_body.
  2:{ intros _. split; [tauto|]. split; [|exact Hl].
      destruct for_debugger; cbn;
        rewrite ?wrap_int_id by (unfold INT_MIN, INT_MAX; lia); lia. }
  destruct for_debugger; cbn;
    rewrite !wrap_int_id by (unfold INT_MIN, INT_MAX; lia);
    (replace (sc + 1 <=? 0) with false by (symmetry; apply Z.leb_gt; lia));
    cbn; rewrite ?wrap_int_id by (unfold INT_MIN, INT_MAX; lia);
    unfold set_this, set_debug_suspend_count_, set_suspend_count_; cbn;
    repeat (f_equal; try lia).
Qed.

(** X13. The force-clearing call
    [ModifySuspendCount(-debug_suspend_count_, true)], made under the
    suspend-count lock on a thread whose counters satisfy the invariant,
    returns and takes back the debugger's suspend requests and only
    them: [debug_suspend_count_] is 0 after it and [suspend_count_] is
    lower by what [debug_suspend_count_] was. *)
Theorem ModifySuspendCount_force_clear (w : World) :
  thread_suspend_count_lock_held (locks w) = true ->
  invariant (this w) ->
  counters_are_int (this w) ->
  ModifySuspendCount rt (- debug_suspend_count_ (this w)) true w
  = (Ok tt,
     set_this
       (set_debug_suspend_count_ 0
          (set_suspend_count_
             (suspend_count_ (this w) - debug_suspend_count_ (this w)) (this w)))
       w).
Proof.
  intros Hl [H0 Hle] [Hs Hd].
  unfold INT_MIN, INT_MAX in *.
  rewrite ModifySuspendCount_body.
  2:{ intros _. split; [|split; [lia | exact Hl]].
      right. right. symmetry. apply wrap_int_id. unfold INT_MIN, INT_MAX. lia. }
  destruct w as [a [sc ex st lj th dsc nm] l lg]. cbn [this locks] in *.
  cbn [suspend_count_ debug_suspend_count_] in *.
  replace ((- dsc =? -1) && (sc <=? 0)) with false.
  2:{ symmetry. apply andb_false_iff.
      destruct (Z.eq_dec dsc 1) as [-> | Hn].
      - right. apply Z.leb_gt. lia.
      - left. apply Z.eqb_neq. lia. }
  cbn. rewrite !wrap_int_id by (unfold INT_MIN, INT_MAX; lia).
  unfold set_this, set_debug_suspend_count_, set_suspend_count_. cbn.
  repeat (f_equal; try lia).
Qed.

End SuspendPairs.

(** Witness of [ModifySuspendCount_suspend_resume]: a debugger's
    suspend and resume of a thread nobody else suspended, in a debug
    build. *)
Lemma ModifySuspendCount_suspend_resume_witness :
  (Suspend.ModifySuspendCount Suspend.debug_build 1 true ;;
   Suspend.ModifySuspendCount Suspend.debug_build (-1) true)%monad
    Suspend.started_world
  = (Ok tt, Suspend.started_world).
Proof.
  apply (ModifySuspendCount_suspend_resume Suspend.debug_build
           Suspend.started_world true).
  - reflexivity.
  - split; cbn; lia.
  - split; cbn; unfold INT_MIN, INT_MAX; lia.
  - cbn. unfold INT_MAX. lia.
Defined.

(** Witness of [ModifySuspendCount_force_clear]: a thread suspended
    twice by the debugger and once by the collector. *)
Lemma ModifySuspendCount_force_clear_witness :
  Suspend.ModifySuspendCount Suspend.debug_build (-2) true
    (set_this (set_debug_suspend_count_ 2 (set_suspend_count_ 3 Thread_new))
       Suspend.world0)
  = (Ok tt,
     set_this (set_debug_suspend_count_ 0 (set_suspend_count_ 1 Thread_new))
       Suspend.world0).
Proof.
  apply (ModifySuspendCount_force_clear Suspend.debug_build
           (set_this (set_debug_suspend_count_ 2 (set_suspend_count_ 3 Thread_new))
              Suspend.world0)).
  - reflexivity.
  - split; cbn; lia.
  - split; cbn; unfold INT_MIN, INT_MAX; lia.
Defined.

(** ** Throwing with an exception pending *)

Section PendingExceptionFacts.

Import Oom.

Variable preallocated_OOME : Z.
Variable Dump : Thread -> list Token.
Variable ThrowNewWrappedException : string -> string -> M World unit.

(** X14. [Thread::ThrowNewException], and so
    [Thread::ThrowOutOfMemoryError] outside of its recursive case, ends
    the process when an exception is already pending on the thread:
    the fatal line "No pending exception expected" is logged,
    [ThrowNewWrappedException] is not reached, the pending exception
    stays, and the guard flag of [ThrowOutOfMemoryError] is left set. *)
Theorem ThrowOutOfMemoryError_with_pending_exception (msg : string) (w : World) :
  exception_ (this w) <> NULL ->
  (forall descriptor,
     ThrowNewException ThrowNewWrappedException descriptor msg w
     = (Abort,
        {| this_addr := this_addr w; this := this w; locks := locks w;
           log := log w ++ [(FATAL, [Str "No pending exception expected: ";
                                     Ptr (exception_ (this w))])] |}))
  /\ (throwing_OutOfMemoryError_ (this w) = false ->
      ThrowOutOfMemoryError preallocated_OOME Dump ThrowNewWrappedException msg w
      = (Abort,
         {| this_addr := this_addr w;
            this := set_throwing_OutOfMemoryError_ true (this w);
            locks := locks w;
            log := log w
                   ++ [(ERROR, [Str "Throwing OutOfMemoryError "; Str double_quote;
                                Str msg; Str double_quote; Str EmptyString]);
                       (FATAL, [Str "No pending exception expected: ";
                                Ptr (exception_ (this w))])] |})).
Proof.
  intros Hex. apply Z.eqb_neq in Hex.
  destruct w as [a t lk lg]. cbn [this this_addr locks log] in *.
  split.
  - intros descriptor.
    unfold ThrowNewException, AssertNoPendingException, bind, get, when, LOG.
    cbn [this this_addr locks log]. rewrite Hex. reflexivity.
  - intros Ht.
    unfold ThrowOutOfMemoryError, ThrowNewException, AssertNoPendingException,
      bind, get, modify, when, LOG.
    cbn [this this_addr locks log]. rewrite Ht. cbn [negb].
    unfold set_this. cbn [this this_addr locks log].
    destruct t as [sc ex st lj th dsc nm]. cbn in *. rewrite Hex. cbn.
    now rewrite <- app_assoc.
Qed.

End PendingExceptionFacts.

(** Witness of [ThrowOutOfMemoryError_with_pending_exception]: a thread
    on which the exception at 777 is pending. *)
Lemma ThrowOutOfMemoryError_with_pending_exception_witness :
  Oom.ThrowNewException (fun _ _ => ret tt) "Ljava/lang/Error;" "boom"
    (set_this (set_exception_ 777 Thread_new) (Oom.world_of false))
  = (Abort,
     {| this_addr := 4096;
        this := set_exception_ 777 Thread_new;
        locks := locks (Oom.world_of false);
        log := [(FATAL, [Str "No pending exception expected: "; Ptr 777])] |}).
Proof.
  destruct (ThrowOutOfMemoryError_with_pending_exception 999 Oom.short_dump
              (fun _ _ => ret tt) "boom"
              (set_this (set_exception_ 777 Thread_new) (Oom.world_of false)))
    as [H _].
  - discriminate.
  - exact (H "Ljava/lang/Error;").
Defined.

(** ** The throw site found by the catch search *)

Section CatchThrowSite.

Import Catch.

Variable om : ObjectModel.
Variable ci : CodeInfo.

Local Abbreviation managed :=
  (fun g : Frame =>
     negb (GetMethod g =? NULL) && negb (IsRuntimeMethod om (GetMethod g))).

Local Abbreviation site_of v :=
  (throw_method_ v, throw_frame_id_ v, throw_dex_pc_ v).

(** What one frame does to the throw site and to the count of native
    methods, whether it ends the walk or not. *)
Lemma VisitFrame_throw_site (g : Frame) (v : CatchBlockStackVisitor) :
  let v1 := snd (VisitFrame om ci g v) in
  site_of v1
  = (if managed g && (throw_method_ v =? NULL)
     then (GetMethod g, GetFrameId g, GetDexPc g) else site_of v)
  /\ native_method_count_ v1
     = (if managed g && IsNative om (GetMethod g)
        then wrap_u32 (native_method_count_ v + 1) else native_method_count_ v).
Proof.
  unfold VisitFrame.
  destruct (GetMethod g =? NULL); [now split|]. cbn [negb andb].
  destruct (IsRuntimeMethod om (GetMethod g)); cbn [negb andb];
    destruct (negb (dex_pc_of om ci (method_tracing_active_ v) g =? kDexNoIndex ci));
    try destruct (negb (FindCatchBlock ci (GetMethod g) (to_find_ v)
                          (dex_pc_of om ci (method_tracing_active_ v) g)
                        =? kDexNoIndex ci));
    cbn [snd throw_method_ throw_frame_id_ throw_dex_pc_ native_method_count_];
    try (now split);
    destruct (throw_method_ v =? NULL); now split.
Qed.

(** The frames passed before the one that decides. *)
Lemma WalkStack_throw_site (inner : list Frame) (v : CatchBlockStackVisitor) :
  Forall (fun g => decides om ci (to_find_ v) (method_tracing_active_ v) g = false)
         inner ->
  0 <= native_method_count_ v ->
  native_method_count_ v + Z.of_nat (List.length inner) < 4294967296 ->
  let v' := WalkStack (VisitFrame om ci) inner v in
  to_find_ v' = to_find_ v
  /\ method_tracing_active_ v' = method_tracing_active_ v
  /\ site_of v'
     = (if throw_method_ v =? NULL then
          match find managed inner with
          | Some g => (GetMethod g, GetFrameId g, GetDexPc g)
          | None => site_of v
          end
        else site_of v)
  /\ native_method_count_ v'
     = native_method_count_ v
       + Z.of_nat (List.length
                     (filter (fun g => managed g && IsNative om (GetMethod g)) inner)).
Proof.
  revert v. induction inner as [|g inner IH]; intros v Hall H0 Hmax.
  - cbn. repeat split; [destruct (throw_method_ v =? NULL); reflexivity | lia].
  - inversion Hall as [|? ? Hg Hall']; subst. cbn [List.length] in Hmax.
    pose proof (VisitFrame_continues om ci g v Hg) as Hc.
    destruct (VisitFrame_keeps_search om ci g v) as [Ht Hm].
    destruct (VisitFrame_throw_site g v) as [Hs Hn]. cbv zeta in Hs, Hn.
    assert (Hnn : (GetMethod g =? NULL) = false).
    { unfold decides in Hg. now apply orb_false_iff in Hg as [Hg _]. }
    cbn [WalkStack find filter].
    destruct (VisitFrame om ci g v) as [b v1]. cbn [fst snd] in *. subst b.
    rewrite <- Ht, <- Hm in Hall'.
    assert (Hn1 : 0 <= native_method_count_ v1
                  /\ native_method_count_ v1 + Z.of_nat (List.length inner) < 4294967296).
    { rewrite Hn. destruct (managed g && IsNative om (GetMethod g));
        rewrite ?wrap_u32_id by lia; lia. }
    destruct (IH v1 Hall') as (It & Im & Is & In_); [lia | lia |].
    cbv zeta in Is, In_.
    split; [congruence|]. split; [congruence|]. split.
    + rewrite Is. clear Is In_ IH.
      rewrite Hnn in *. cbn [negb andb] in *.
      destruct (IsRuntimeMethod om (GetMethod g)); cbn [negb andb] in *.
      * injection Hs as E1 E2 E3. rewrite E1, E2, E3. reflexivity.
      * destruct (throw_method_ v =? NULL) eqn:Ev.
        -- injection Hs as E1 E2 E3. rewrite E1, E2, E3, Hnn. reflexivity.
        -- injection Hs as E1 E2 E3. rewrite E1, E2, E3, Ev. reflexivity.
    + rewrite In_, Hn.
      destruct (managed g && IsNative om (GetMethod g)); cbn [List.length];
        rewrite ?wrap_u32_id by lia; lia.
Qed.

(** X15. What the catch search records about the throw: when the walk
    ends at the first frame that decides, the throw method, frame id
    and dex pc recorded are those of the innermost frame with a method
    that is not a runtime method, among the frames up to the deciding
    one, and [NULL], 0 and 0 if there is none; and the native methods
    counted are the native frames among those passed. *)
Theorem catch_search_throw_site (inner outer : list Frame) (f : Frame)
    (context : Context) (exception to_find : Z) (tracing : bool) :
  Forall (fun g => decides om ci to_find tracing g = false) inner ->
  decides om ci to_find tracing f = true ->
  Z.of_nat (List.length inner) < 4294967296 ->
  let v := WalkStack (VisitFrame om ci) (inner ++ f :: outer)
             (CatchBlockStackVisitor_new context exception to_find tracing) in
  site_of v
  = match find managed (inner ++ [f]) with
    | Some g => (GetMethod g, GetFrameId g, GetDexPc g)
    | None => (NULL, 0, 0)
    end
  /\ native_method_count_ v
     = Z.of_nat (List.length
                   (filter (fun g => managed g && IsNative om (GetMethod g)) inner)).
Proof.
  intros Hall Hf Hlen v.
  set (v0 := CatchBlockStackVisitor_new context exception to_find tracing) in *.
  change to_find with (to_find_ v0) in Hall, Hf.
  change tracing with (method_tracing_active_ v0) in Hall, Hf.
  assert (Hv : v = WalkStack (VisitFrame om ci) (inner ++ [f]) v0).
  { subst v. clear -Hall Hf.
    revert Hall Hf. generalize v0. clear v0.
    induction inner as [|g inner IH]; intros v0 Hall Hf; cbn [app WalkStack].
    - destruct (VisitFrame_stops om ci f v0 Hf) as (Hs & _).
      destruct (VisitFrame om ci f v0) as [b v1]. cbn [fst] in Hs. now subst b.
    - inversion Hall as [|? ? Hg Hall']; subst.
      pose proof (VisitFrame_continues om ci g v0 Hg) as Hc.
      destruct (VisitFrame_keeps_search om ci g v0) as [Ht Hm].
      destruct (VisitFrame om ci g v0) as [b v1]. cbn [fst snd] in *. subst b.
      apply IH; now rewrite Ht, Hm. }
  rewrite Hv. clear Hv v.
  destruct (WalkStack_throw_site inner v0 Hall) as (It & Im & Is & In_);
    [cbn; lia | cbn; lia |].
  cbv zeta in Is, In_. cbn [v0 CatchBlockStackVisitor_new throw_method_
    throw_frame_id_ throw_dex_pc_ native_method_count_ to_find_
    method_tracing_active_] in Is, In_, It, Im.
  change (NULL =? NULL) with true in Is. cbv iota in Is.
  assert (Hw : WalkStack (VisitFrame om ci) (inner ++ [f]) v0
               = snd (VisitFrame om ci f (WalkStack (VisitFrame om ci) inner v0))).
  { clear -Hall. revert Hall. generalize v0. clear v0.
    induction inner as [|g inner IH]; intros v0 Hall.
    - cbn. destruct (VisitFrame om ci f v0) as [[] ?]; reflexivity.
    - inversion Hall as [|? ? Hg Hall']; subst. cbn [app WalkStack].
      pose proof (VisitFrame_continues om ci g v0 Hg) as Hc.
      destruct (VisitFrame_keeps_search om ci g v0) as [Ht Hm].
      destruct (VisitFrame om ci g v0) as [b v1]. cbn [fst snd] in *. subst b.
      apply IH. now rewrite Ht, Hm. }
  rewrite Hw. clear Hw.
  set (v1 := WalkStack (VisitFrame om ci) inner v0) in *.
  destruct (VisitFrame_throw_site f v1) as [Hs Hn]. cbv zeta in Hs, Hn.
  rewrite Hs, Hn. clear Hs Hn.
  assert (Hfind : find managed (inner ++ [f])
                  = match find managed inner with
                    | Some g => Some g
                    | None => if managed f then Some f else None
                    end).
  { clear. induction inner as [|g inner IH]; [reflexivity|].
    cbn [app find]. destruct (managed g); [reflexivity | exact IH]. }
  rewrite Hfind. clear Hfind.
  assert (Hnat : managed f && IsNative om (GetMethod f) = false).
  { unfold decides, has_handler, dex_pc_of in Hf.
    destruct (GetMethod f =? NULL); [reflexivity|]. cbn [negb andb orb] in *.
    destruct (IsRuntimeMethod om (GetMethod f)); [reflexivity|]. cbn [negb andb].
    destruct (IsNative om (GetMethod f)); [|reflexivity].
    rewrite Z.eqb_refl in Hf. discriminate. }
  rewrite Hnat. split; [|exact In_].
  rewrite Is.
  destruct (find managed inner) as [g|] eqn:Eg.
  - apply find_some in Eg as [_ Eg].
    apply andb_true_iff in Eg as [Eg _]. apply negb_true_iff in Eg.
    injection Is as E1 _ _. rewrite E1, Eg, andb_false_r. reflexivity.
  - injection Is as E1 _ _. rewrite E1.
    change (NULL =? NULL) with true. rewrite andb_true_r.
    destruct (managed f); reflexivity.
Qed.

End CatchThrowSite.

(** Witness of [catch_search_throw_site]: the search that ends at
    [outer_f] records the throw in [inner_f]. *)
Lemma catch_search_throw_site_witness :
  let v := WalkStack (Catch.VisitFrame Scenario.plain_om Scenario.only_outer_catches)
             Scenario.stack Scenario.finder in
  (Catch.throw_method_ v, Catch.throw_frame_id_ v, Catch.throw_dex_pc_ v)
  = (100, 0, 5)
  /\ Catch.native_method_count_ v = 0.
Proof.
  apply (catch_search_throw_site Scenario.plain_om Scenario.only_outer_catches
           [Scenario.inner_f; Scenario.middle_f] [Scenario.upcall_f]
           Scenario.outer_f Context_Create 777 42 false).
  - repeat constructor.
  - reflexivity.
  - reflexivity.
Defined.

(** ** The other ends of a debugger's suspension *)

Section DebuggerPaths.

Import Debugger.

Variable rt : Runtime.
Variable FromManagedThread : nat -> bool.
Variable IsSuspended : nat -> Thread -> bool.

Create HintDb poll_paths.

#[local] Hint Unfold bind get modify when ret lift pause enter_block
  lock_suspend_count leave_block check_no_mutex_held : poll_paths.

Ltac run_poll :=
  repeat progress
    (autounfold with poll_paths;
     cbn [world pauses locks set_locks this this_addr log no_locks negb orb
          mutator_lock_shared_held thread_list_lock_held
          thread_suspend_count_lock_held]).

(** One iteration that sleeps, at a poll where the thread is found and
    not suspended. *)
Lemma loop_sleep_step_at (fuel poll : nat) (peer : Z) (did : bool)
    (total delay : Z) (w : World) (ps : list Pause) :
  locks w = no_locks ->
  FromManagedThread poll = true ->
  IsSuspended poll (this w) = false ->
  (total >=? kTimeoutUs) || (wrap_u32 (delay * 2) <? delay)
  || (next_delay delay =? 0) = false ->
  loop rt FromManagedThread IsSuspended false (S fuel) poll peer false did
       total delay {| world := w; pauses := ps |}
  = loop rt FromManagedThread IsSuspended false fuel (S poll) peer false did
         (wrap_u32 (total + next_delay delay)) (next_delay delay)
         {| world := w; pauses := ps ++ [usleep (next_delay delay)] |}.
Proof.
  intros Hl Hfound Hnot Hc.
  apply orb_false_iff in Hc as [Hc Hz]. apply orb_false_iff in Hc as [Ht Hge].
  destruct w as [a t l lg]. cbn in Hl. subst l. cbn [this] in Hnot.
  assert (Hge' : (wrap_u32 (delay * 2) >=? delay) = true)
    by (apply Z.geb_le; apply Z.ltb_ge in Hge; lia).
  cbn [loop]. run_poll.
  rewrite Hfound. run_poll.
  rewrite Hnot, Ht. run_poll.
  rewrite Hge'. fold (next_delay delay). rewrite Hz. run_poll.
  rewrite orb_false_r. reflexivity.
Qed.

(** The iterations that sleep, as far as [schedule] goes and the thread
    is found and not suspended. *)
Lemma loop_sleeps_until (n fuel poll : nat) (peer : Z) (did : bool)
    (total delay : Z) (w : World) (ps : list Pause) (ds : list Z) (total' delay' : Z) :
  locks w = no_locks ->
  (forall p, (poll <= p < poll + n)%nat ->
             FromManagedThread p = true /\ IsSuspended p (this w) = false) ->
  schedule n total delay = Some (ds, total', delay') ->
  loop rt FromManagedThread IsSuspended false (n + fuel) poll peer false did
       total delay {| world := w; pauses := ps |}
  = loop rt FromManagedThread IsSuspended false fuel (n + poll) peer false did
         total' delay' {| world := w; pauses := ps ++ map usleep ds |}.
Proof.
  intros Hl. revert poll total delay ps ds.
  induction n as [|n IH]; intros poll total delay ps ds Hp Hs; cbn [schedule] in Hs.
  - inversion Hs; subst. cbn. now rewrite app_nil_r.
  - destruct ((total >=? kTimeoutUs) || (wrap_u32 (delay * 2) <? delay)
              || (next_delay delay =? 0)) eqn:Hc; [discriminate|].
    destruct (schedule n (wrap_u32 (total + next_delay delay)) (next_delay delay))
      as [[[ds1 t1] d1]|] eqn:Hn; [|discriminate].
    inversion Hs; subst.
    change (S n + fuel)%nat with (S (n + fuel)).
    destruct (Hp poll) as [Hfound Hnot]; [lia|].
    rewrite (loop_sleep_step_at _ _ _ _ _ _ _ _ Hl Hfound Hnot Hc).
    rewrite (IH (S poll) _ _ _ _ (fun p Hr => Hp p ltac:(lia)) Hn). cbn [map].
    rewrite <- app_assoc. cbn [app].
    replace (n + S poll)%nat with (S n + poll)%nat by lia. reflexivity.
Qed.

(** A part of a schedule is the schedule of its first sleeps. *)
Lemma schedule_prefix (n m : nat) (total delay : Z) (ds : list Z) (total' delay' : Z) :
  schedule (n + m) total delay = Some (ds, total', delay') ->
  exists total1 delay1,
    schedule n total delay = Some (firstn n ds, total1, delay1).
Proof.
  revert total delay ds.
  induction n as [|n IH]; intros total delay ds Hs.
  - cbn. eauto.
  - cbn [Nat.add schedule] in *.
    destruct ((total >=? kTimeoutUs) || (wrap_u32 (delay * 2) <? delay)
              || (next_delay delay =? 0)); [discriminate|].
    destruct (schedule (n + m) (wrap_u32 (total + next_delay delay))
                (next_delay delay)) as [[[ds1 t1] d1]|] eqn:Hn; [|discriminate].
    inversion Hs; subst.
    destruct (IH _ _ _ Hn) as (t2 & d2 & E). rewrite E. cbn [firstn]. eauto.
Qed.

(** The poll at which the thread is found suspended. *)
Lemma loop_finds_suspended (fuel poll : nat) (peer : Z) (did : bool)
    (total delay : Z) (w : World) (ps : list Pause) :
  locks w = no_locks ->
  FromManagedThread poll = true ->
  IsSuspended poll (this w) = true ->
  loop rt FromManagedThread IsSuspended false (S fuel) poll peer false did
       total delay {| world := w; pauses := ps |}
  = (Ok (Some {| result := this_addr w; timeout := false |}),
     {| world := w; pauses := ps |}).
Proof.
  intros Hl Hfound Hsusp.
  destruct w as [a t l lg]. cbn in Hl. subst l. cbn [this] in Hsusp.
  cbn [loop]. run_poll. rewrite Hfound. run_poll.
  rewrite Hsusp. run_poll. reflexivity.
Qed.

(** The first poll of a call that makes the suspend request. *)
Lemma loop_requests (fuel : nat) (peer : Z) (w : World) (ps : list Pause) :
  locks w = no_locks ->
  Suspend.invariant (this w) ->
  Suspend.counters_are_int (this w) ->
  suspend_count_ (this w) < INT_MAX ->
  FromManagedThread 0 = true ->
  let target :=
    set_debug_suspend_count_ (debug_suspend_count_ (this w) + 1)
      (set_suspend_count_ (suspend_count_ (this w) + 1) (this w)) in
  loop rt FromManagedThread IsSuspended false (S fuel) 0 peer true false 0 0
       {| world := w; pauses := ps |}
  = if IsSuspended 0 target then
      (Ok (Some {| result := this_addr w; timeout := false |}),
       {| world := set_this target w; pauses := ps |})
    else
      loop rt FromManagedThread IsSuspended false fuel 1 peer false true 0 500
           {| world := set_this target w; pauses := ps ++ [sched_yield] |}.
Proof.
  intros Hl [Hd0 Hds] [Hsi Hdi] Hmax Hfound target.
  destruct w as [a t l lg]. cbn in Hl. subst l. cbn [this] in *.
  unfold INT_MIN, INT_MAX in *.
  destruct (IsSuspended 0 target) eqn:Hsusp; subst target.
  - cbn [loop]. run_poll. rewrite Hfound. run_poll.
    rewrite ModifySuspendCount_body.
    2:{ intros _. cbn. split; [tauto|]. split; [lia | reflexivity]. }
    run_poll.
    cbn [andb Z.eqb this set_this set_suspend_count_ set_debug_suspend_count_
         suspend_count_ debug_suspend_count_ this_addr locks log].
    rewrite !wrap_int_id by (unfold INT_MIN, INT_MAX; lia).
    run_poll.
    match goal with
    | |- context [IsSuspended 0 ?t'] =>
        replace (IsSuspended 0 t') with true by (symmetry; exact Hsusp)
    end.
    reflexivity.
  - cbn [loop]. run_poll. rewrite Hfound. run_poll.
    rewrite ModifySuspendCount_body.
    2:{ intros _. cbn. split; [tauto|]. split; [lia | reflexivity]. }
    run_poll.
    cbn [andb Z.eqb this set_this set_suspend_count_ set_debug_suspend_count_
         suspend_count_ debug_suspend_count_ this_addr locks log].
    rewrite !wrap_int_id by (unfold INT_MIN, INT_MAX; lia).
    run_poll.
    match goal with
    | |- context [IsSuspended 0 ?t'] =>
        replace (IsSuspended 0 t') with false by (symmetry; exact Hsusp)
    end.
    reflexivity.
Qed.

(** The first poll of a call that does not. *)
Lemma loop_first_poll (fuel : nat) (peer : Z) (w : World) (ps : list Pause) :
  locks w = no_locks ->
  FromManagedThread 0 = true ->
  IsSuspended 0 (this w) = false ->
  loop rt FromManagedThread IsSuspended false (S fuel) 0 peer false false 0 0
       {| world := w; pauses := ps |}
  = loop rt FromManagedThread IsSuspended false fuel 1 peer false false 0 500
         {| world := w; pauses := ps ++ [sched_yield] |}.
Proof.
  intros Hl Hfound Hnot. destruct w as [a t l lg]. cbn in Hl. subst l.
  cbn [this] in Hnot.
  cbn [loop]. run_poll. rewrite Hfound. run_poll.
  rewrite Hnot. reflexivity.
Qed.

(** X16. [SuspendForDebugger] for a thread that is found at every poll
    and reports itself suspended at the poll number [k] for the first
    time, before the time out ([k <= 126]): the call returns the thread
    with the timeout flag clear; the suspend request it made, if it was
    asked to, stays on the thread (both counters one higher), and it is
    for the caller to resume it; nothing is logged, no lock is held at
    the end; and before that the caller paused [k] times: a yield, then
    sleeps of 1 ms, 2 ms, ... as in the schedule of a time out. *)
Theorem SuspendForDebugger_succeeds (k extra : nat) (peer : Z)
    (request_suspension : bool) (s : DbgState) :
  locks (world s) = no_locks ->
  Suspend.invariant (this (world s)) ->
  Suspend.counters_are_int (this (world s)) ->
  suspend_count_ (this (world s)) < INT_MAX ->
  (k <= 126)%nat ->
  let target :=
    if request_suspension then
      set_debug_suspend_count_ (debug_suspend_count_ (this (world s)) + 1)
        (set_suspend_count_ (suspend_count_ (this (world s)) + 1) (this (world s)))
    else this (world s) in
  (forall p, (p <= k)%nat -> FromManagedThread p = true) ->
  (forall p, (p < k)%nat -> IsSuspended p target = false) ->
  IsSuspended k target = true ->
  SuspendForDebugger rt FromManagedThread IsSuspended false (S k + extra) peer
    request_suspension s
  = (Ok (Some {| result := this_addr (world s); timeout := false |}),
     {| world := set_this target (world s);
        pauses := pauses s ++ firstn k (sched_yield :: map usleep timeout_delays) |}).
Proof.
  intros Hl Hinv Hint Hmax Hk target Hfound Hnot Hsusp.
  destruct s as [w ps]. cbn [world pauses] in *.
  unfold SuspendForDebugger.
  assert (Hw : set_this (this w) w = w) by (now destruct w).
  assert (Hlt : locks (set_this target w) = no_locks) by (destruct w; exact Hl).
  destruct k as [|k].
  - (* suspended at the first poll *)
    cbn [firstn]. rewrite app_nil_r. cbn [Nat.add].
    destruct request_suspension.
    + rewrite (loop_requests _ _ _ _ Hl Hinv Hint Hmax (Hfound 0%nat ltac:(lia))).
      cbv zeta. fold target. rewrite Hsusp. reflexivity.
    + subst target. rewrite Hw.
      now rewrite (loop_finds_suspended _ _ _ _ _ _ _ _ Hl
                     (Hfound 0%nat ltac:(lia)) Hsusp).
  - (* after a yield and [k] sleeps *)
    destruct (schedule_prefix k (125 - k) 0 500 timeout_delays 30207000 256000)
      as (t1 & d1 & Hsched).
    { replace (k + (125 - k))%nat with 125%nat by lia. apply schedule_of_a_timeout. }
    cbn [firstn]. rewrite firstn_map.
    change (S (S k) + extra)%nat with (S (S k + extra)).
    replace (S k + extra)%nat with (k + S extra)%nat by lia.
    assert (Hrest :
      loop rt FromManagedThread IsSuspended false (k + S extra) 1 peer false
           request_suspension 0 500
           {| world := set_this target w; pauses := ps ++ [sched_yield] |}
      = (Ok (Some {| result := this_addr w; timeout := false |}),
         {| world := set_this target w;
            pauses := ps ++ sched_yield :: map usleep (firstn k timeout_delays) |})).
    { rewrite (loop_sleeps_until k (S extra) 1 peer request_suspension 0 500
                 (set_this target w) (ps ++ [sched_yield])
                 (firstn k timeout_delays) t1 d1 Hlt).
      3: exact Hsched.
      2:{ intros p Hp. split; [apply Hfound; lia|].
          destruct w; cbn [this set_this]. apply Hnot. lia. }
      rewrite loop_finds_suspended.
      - rewrite <- app_assoc. destruct w; reflexivity.
      - exact Hlt.
      - apply Hfound. lia.
      - destruct w; cbn [this set_this].
        replace (k + 1)%nat with (S k) by lia. exact Hsusp. }
    destruct request_suspension.
    + rewrite (loop_requests _ _ _ _ Hl Hinv Hint Hmax (Hfound 0%nat ltac:(lia))).
      cbv zeta. fold target. rewrite (Hnot 0%nat ltac:(lia)). exact Hrest.
    + subst target. rewrite Hw in *.
      rewrite (loop_first_poll _ _ _ _ Hl (Hfound 0%nat ltac:(lia))
                 (Hnot 0%nat ltac:(lia))).
      exact Hrest.
Qed.

(** X17. The two calls of [SuspendForDebugger] that end at the first
    poll. For a peer that has no thread the call returns null with the
    timeout flag clear after one warning, without having made the
    suspend request or paused, and with the thread list lock released.
    Called by a thread on itself it ends the process: the check that the
    thread is not the caller fails after the suspend request was made,
    so the fatal line is logged with the thread's counters already
    raised and both locks still held. *)
Theorem SuspendForDebugger_ends_at_first_poll (fuel : nat) (peer : Z)
    (request_suspension target_is_self : bool) (s : DbgState) :
  (FromManagedThread 0 = false ->
   SuspendForDebugger rt FromManagedThread IsSuspended target_is_self (S fuel) peer
     request_suspension s
   = (Ok (Some {| result := NULL; timeout := false |}),
      {| world :=
           {| this_addr := this_addr (world s);
              this := this (world s);
              locks := {| thread_suspend_count_lock_held := false;
                          mutator_lock_shared_held :=
                            mutator_lock_shared_held (locks (world s));
                          thread_list_lock_held := false |};
              log := log (world s)
                     ++ [(WARNING, [Str "No such thread for suspend: "; Ptr peer])] |};
         pauses := pauses s |}))
  /\ (FromManagedThread 0 = true ->
      target_is_self = true ->
      locks (world s) = no_locks ->
      Suspend.invariant (this (world s)) ->
      Suspend.counters_are_int (this (world s)) ->
      suspend_count_ (this (world s)) < INT_MAX ->
      SuspendForDebugger rt FromManagedThread IsSuspended target_is_self (S fuel) peer
        request_suspension s
      = (Abort,
         {| world :=
              {| this_addr := this_addr (world s);
                 this :=
                   if request_suspension then
                     set_debug_suspend_count_
                       (debug_suspend_count_ (this (world s)) + 1)
                       (set_suspend_count_ (suspend_count_ (this (world s)) + 1)
                          (this (world s)))
                   else this (world s);
                 locks := {| thread_suspend_count_lock_held := true;
                             mutator_lock_shared_held := true;
                             thread_list_lock_held := true |};
                 log := log (world s)
                        ++ [(FATAL,
                             [Str "Check failed: thread != soa.Self() ";
                              Str "Attempt to suspend for debugger the current thread"])] |};
            pauses := pauses s |})).
Proof.
  split.
  - intros Hnone. destruct s as [[a t l lg] ps].
    unfold SuspendForDebugger. cbn [loop]. run_poll.
    rewrite Hnone. run_poll. unfold LOG. run_poll. reflexivity.
  - intros Hfound -> Hl [Hd0 Hds] [Hsi Hdi] Hmax.
    destruct s as [[a t l lg] ps]. cbn [world locks this] in *. subst l.
    unfold INT_MIN, INT_MAX in *.
    unfold SuspendForDebugger. cbn [loop]. run_poll. rewrite Hfound. run_poll.
    destruct request_suspension.
    + rewrite ModifySuspendCount_body.
      2:{ intros _. cbn. split; [tauto|]. split; [lia | reflexivity]. }
      run_poll.
      cbn [andb Z.eqb this set_this set_suspend_count_ set_debug_suspend_count_
           suspend_count_ debug_suspend_count_ this_addr locks log].
      rewrite !wrap_int_id by (unfold INT_MIN, INT_MAX; lia).
      unfold LOG. run_poll. reflexivity.
    + unfold LOG. run_poll. reflexivity.
Qed.

End DebuggerPaths.

(** Witness of [SuspendForDebugger_succeeds]: a thread that reports
    itself suspended at the fourth poll. *)
Lemma SuspendForDebugger_succeeds_witness :
  Debugger.SuspendForDebugger Suspend.debug_build (fun _ => true)
    (fun poll _ => (3 <=? poll)%nat) false 4 1 true Debugger.state0
  = (Ok (Some {| Debugger.result := 4096; Debugger.timeout := false |}),
     {| Debugger.world :=
          set_this
            (set_debug_suspend_count_ 1
               (set_suspend_count_ 1 (set_state_ kRunnable Thread_new)))
            (Debugger.world Debugger.state0);
        Debugger.pauses :=
          [Debugger.sched_yield; Debugger.usleep 1000; Debugger.usleep 2000] |}).
Proof.
  apply (SuspendForDebugger_succeeds Suspend.debug_build (fun _ => true)
           (fun poll _ => (3 <=? poll)%nat) 3 0 1 true Debugger.state0).
  - reflexivity.
  - split; cbn; lia.
  - split; cbn; unfold INT_MIN, INT_MAX; lia.
  - cbn. unfold INT_MAX. lia.
  - lia.
  - reflexivity.
  - intros p Hp. apply Nat.leb_gt. lia.
  - reflexivity.
Defined.

(** Witness of [SuspendForDebugger_ends_at_first_poll]: a thread that
    asks for its own suspension. *)
Lemma SuspendForDebugger_ends_at_first_poll_witness :
  fst (Debugger.SuspendForDebugger Suspend.debug_build (fun _ => true)
         (fun _ _ => false) true 1 1 true Debugger.state0)
  = Abort.
Proof.
  destruct (SuspendForDebugger_ends_at_first_poll Suspend.debug_build (fun _ => true)
              (fun _ _ => false) 0 1 true true Debugger.state0) as [_ H].
  rewrite H.
  - reflexivity.
  - reflexivity.
  - reflexivity.
  - reflexivity.
  - split; cbn; lia.
  - split; cbn; unfold INT_MIN, INT_MAX; lia.
  - cbn. unfold INT_MAX. lia.
Defined.

(** ** A thread at a suspend check *)

Section SafePointFacts.

Import Transition SafePoint.

Lemma Blocked_step (count : Z) (e : ThreadState) (s : State) :
  Blocked count e s ->
  exists s', thread_step s = Some s' /\ Blocked count e s'.
Proof.
  intros (Hc & Hnz & Hst & Hp).
  destruct s as [p sc st h m os d]. cbn [pc suspend_count state holder done] in *.
  subst sc st. unfold thread_step, Blocked. cbn [pc suspend_count state holder done].
  destruct p; cbn [pc] in *;
    try match type of Hp with
        | _ /\ _ => destruct Hp as [Hh Hd]; subst h d
        | _ = _ => subst h
        | False => contradiction
        end;
    cbn [is_free negb].
  - eexists; split; [reflexivity|]. cbn. tauto.
  - destruct (count >? 0); eexists; (split; [reflexivity|]); cbn; tauto.
  - eexists; split; [reflexivity|]. cbn. tauto.
  - replace (count =? 0) with false by (symmetry; now apply Z.eqb_neq).
    eexists; split; [reflexivity|]. cbn. tauto.
  - eexists; split; [reflexivity|]. cbn. tauto.
  - eexists; split; [reflexivity|]. cbn. tauto.
  - eexists; split; [reflexivity|]. cbn. tauto.
  - replace (count =? 0) with false by (symmetry; now apply Z.eqb_neq).
    eexists; split; [reflexivity|]. cbn. tauto.
  - eexists; split; [reflexivity|]. cbn. tauto.
  - eexists; split; [reflexivity|]. cbn. tauto.
  - eexists; split; [reflexivity|]. cbn. tauto.
Qed.

Lemma Blocked_run (count : Z) (e : ThreadState) (n : nat) (s : State) :
  Blocked count e s ->
  exists s', run (repeat Thread_moves n) s = Some s' /\ Blocked count e s'.
Proof.
  revert s. induction n as [|n IH]; intros s Hb.
  - exists s. now split.
  - destruct (Blocked_step count e s Hb) as (s1 & Hs & Hb1).
    destruct (IH s1 Hb1) as (s' & Hr & Hb').
    exists s'. split; [|exact Hb']. cbn [repeat run step]. now rewrite Hs.
Qed.

(** X18. [TransitionFromSuspendedToRunnable] run by a thread while no
    other thread acts: with a suspend count of zero it returns after
    eight steps of its own, never having waited, runnable, with a share
    of the mutator lock, the suspend-count lock released, and returning
    the state it had at entry; with a suspend count that is not zero it
    can always take a step and never returns nor becomes runnable: it
    waits, or for a negative count spins. *)
Theorem TransitionFromSuspendedToRunnable_alone (s : State) :
  initial s ->
  holder s = Free ->
  (suspend_count s = 0 ->
   run (repeat Thread_moves 8) s
   = Some {| pc := at_return; suspend_count := 0; state := kRunnable;
             holder := Free; mutator_shared := true; old_state := state s;
             done := true |})
  /\ (suspend_count s <> 0 ->
      forall n, exists s',
        run (repeat Thread_moves n) s = Some s'
        /\ pc s' <> at_return /\ state s' = state s
        /\ suspend_count s' = suspend_count s).
Proof.
  intros (Hpc & Hst & Hm & _) Hh.
  destruct s as [p sc st h m os d]. cbn [pc suspend_count state holder
    mutator_shared] in *. subst p h m.
  split.
  - intros ->. reflexivity.
  - intros Hnz n.
    destruct (Blocked_run sc st n
                {| pc := at_entry; suspend_count := sc; state := st; holder := Free;
                   mutator_shared := false; old_state := os; done := d |})
      as (s' & Hr & Hc & _ & Hs & Hp).
    { unfold Blocked. cbn. tauto. }
    exists s'. split; [exact Hr|]. split; [|split; assumption].
    intros E. rewrite E in Hp. exact Hp.
Qed.

(** X19. [Thread::FullSuspendCheck] on a runnable thread that holds a
    share of the mutator lock: if nobody asked for its suspension and
    no other thread acts, it comes back after eight steps as it was,
    runnable with its share of the mutator lock and the suspend-count
    lock free; and in every interleaving with other threads, if it
    comes back it is runnable and holds a share of the mutator lock. A
    thread that is not runnable fails the check of the first
    transition. *)
Theorem FullSuspendCheck_round_trip (s : State) :
  mutator_shared s = true ->
  holder s <> Self ->
  (state s = kRunnable -> suspend_count s = 0 -> holder s = Free ->
   FullSuspendCheck true true (repeat Thread_moves 8) s
   = Some {| pc := at_return; suspend_count := 0; state := kRunnable;
             holder := Free; mutator_shared := true; old_state := kSuspended;
             done := true |})
  /\ (forall schedule s',
        FullSuspendCheck true true schedule s = Some s' ->
        pc s' = at_return ->
        state s' = kRunnable /\ mutator_shared s' = true
        /\ old_state s' = kSuspended)
  /\ (state s <> kRunnable ->
      forall new_state,
        TransitionFromRunnableToSuspended true true new_state s = None).
Proof.
  intros Hm Hh.
  destruct s as [p sc st h m os d]. cbn [pc suspend_count state holder
    mutator_shared] in *. subst m.
  split; [|split].
  - intros -> -> ->. reflexivity.
  - intros schedule s'. unfold FullSuspendCheck, TransitionFromRunnableToSuspended.
    cbn [negb is_runnable state]. 
    destruct (is_runnable st) eqn:Hr; cbn [negb]; [|discriminate].
    intros Hrun Hpc.
    apply (run_Inv kSuspended) in Hrun.
    + destruct Hrun as [_ Hi]. rewrite Hpc in Hi. tauto.
    + split; [discriminate|]. cbn. repeat split; auto.
  - intros Hn new_state. unfold TransitionFromRunnableToSuspended.
    cbn [negb state]. destruct (is_runnable new_state); [reflexivity|].
    destruct st; cbn; try reflexivity. congruence.
Qed.

Section Mutexes.

Variable no_thread_suspension_ : Z.
Variable cause : string.
Variable kMaxMutexLevel : nat.
Variable kMutatorLock : nat.
Variable GetHeldMutex : nat -> option string.

Local Abbreviation line name :=
  (ERROR, [Str "holding "; Str double_quote; Str name; Str double_quote;
           Str " at point where thread suspension is expected"]).

Lemma held_mutex_loop_spec (n : nat) :
  let r := held_mutex_loop kMutatorLock GetHeldMutex n in
  (snd r = false <->
   forall i, (i < n)%nat -> i <> kMutatorLock -> GetHeldMutex i = None)
  /\ (snd r = false -> fst r = [])
  /\ (forall i name, (i < n)%nat -> i <> kMutatorLock ->
                     GetHeldMutex i = Some name -> In (line name) (fst r))
  /\ (forall l, In l (fst r) ->
                exists i name, (i < n)%nat /\ i <> kMutatorLock
                               /\ GetHeldMutex i = Some name /\ l = line name).
Proof.
  induction n as [|n IH]; cbn [held_mutex_loop].
  - cbn. repeat split; try tauto; try lia.
  - cbv zeta in IH. destruct IH as (Hiff & Hnil & Hin & Hout).
    destruct (held_mutex_loop kMutatorLock GetHeldMutex n) as [below bad_below].
    cbn [fst snd] in *.
    destruct (Nat.eqb_spec n kMutatorLock) as [Heq | Hne]; cbn [negb].
    + cbn [app orb fst snd]. split; [|split; [|split]].
      * rewrite Hiff. split; intros H i Hi Hk.
        -- destruct (Nat.eq_dec i n) as [-> | Hin']; [congruence|]. apply H; [lia | exact Hk].
        -- apply H; [lia | exact Hk].
      * exact Hnil.
      * intros i name Hi Hk Hg.
        destruct (Nat.eq_dec i n) as [-> | Hin']; [congruence|].
        apply (Hin i name); [lia | exact Hk | exact Hg].
      * intros l Hl. destruct (Hout l Hl) as (i & name & Hi & Hk & Hg & El).
        exists i, name. repeat split; auto.
    + destruct (GetHeldMutex n) as [name_n|] eqn:Hg_n; cbn [app orb fst snd].
      * split; [|split; [|split]].
        -- split; [discriminate|]. intros H.
           rewrite (H n) in Hg_n by (auto; lia). discriminate.
        -- discriminate.
        -- intros i name Hi Hk Hg.
           destruct (Nat.eq_dec i n) as [-> | Hin'].
           ++ left. congruence.
           ++ right. apply (Hin i name); [lia | exact Hk | exact Hg].
        -- intros l [<- | Hl].
           ++ exists n, name_n. repeat split; auto.
           ++ destruct (Hout l Hl) as (i & name & Hi & Hk & Hg & El).
              exists i, name. repeat split; auto.
      * split; [|split; [|split]].
        -- rewrite Hiff. split; intros H i Hi Hk.
           ++ destruct (Nat.eq_dec i n) as [-> | Hin']; [exact Hg_n|].
              apply H; [lia | exact Hk].
           ++ apply H; [lia | exact Hk].
        -- exact Hnil.
        -- intros i name Hi Hk Hg.
           destruct (Nat.eq_dec i n) as [-> | Hin']; [congruence|].
           apply (Hin i name); [lia | exact Hk | exact Hg].
        -- intros l Hl. destruct (Hout l Hl) as (i & name & Hi & Hk & Hg & El).
           exists i, name. repeat split; auto.
Qed.

(** X20. [Thread::AssertThreadSuspensionIsAllowable], in the builds that
    have it: it comes back, having logged nothing, exactly when no
    cause of no-suspension is open and, if the locks are checked, the
    thread holds no mutex of any level other than the mutator lock
    (which it may hold); otherwise it ends the process, and when the
    locks are what fails it has logged one error line for each mutex
    held, naming it, before the fatal line. *)
Theorem AssertThreadSuspensionIsAllowable_spec (check_locks : bool)
    (lg : list LogLine) :
  let allowable :=
    no_thread_suspension_ = 0
    /\ (check_locks = true ->
        forall i, (i <= kMaxMutexLevel)%nat -> i <> kMutatorLock ->
                  GetHeldMutex i = None) in
  let r := AssertThreadSuspensionIsAllowable no_thread_suspension_ cause
             kMaxMutexLevel kMutatorLock GetHeldMutex check_locks lg in
  (allowable -> r = (Ok tt, lg))
  /\ (~ allowable -> fst r = Abort)
  /\ (no_thread_suspension_ = 0 -> check_locks = true ->
      forall i name,
        (i <= kMaxMutexLevel)%nat -> i <> kMutatorLock ->
        GetHeldMutex i = Some name ->
        exists before after,
          snd r = lg ++ before ++ line name :: after
                  ++ [(FATAL, [Str "Check failed: !bad_mutexes_held"])]).
Proof.
  intros allowable r. subst allowable r.
  unfold AssertThreadSuspensionIsAllowable, bind, ret, modify.
  destruct (held_mutex_loop_spec (S kMaxMutexLevel)) as (Hiff & Hnil & Hin & _).
  cbv zeta in Hiff, Hnil, Hin.
  destruct (held_mutex_loop kMutatorLock GetHeldMutex (S kMaxMutexLevel))
    as [lines bad] eqn:Hloop.
  cbn [fst snd] in *.
  split; [|split].
  - intros [-> Hlocks]. cbn [Z.eqb].
    destruct check_locks; [|reflexivity].
    assert (Hb : bad = false).
    { apply Hiff. intros i Hi Hk. apply Hlocks; [reflexivity | lia | exact Hk]. }
    subst bad. rewrite (Hnil eq_refl). cbn. now rewrite app_nil_r.
  - intros Hnot.
    destruct (0 =? no_thread_suspension_) eqn:Hz; [|reflexivity].
    apply Z.eqb_eq in Hz.
    destruct check_locks.
    + destruct bad; [reflexivity|].
      exfalso. apply Hnot. split; [congruence|]. intros _ i Hi Hk.
      apply (proj1 Hiff eq_refl); [lia | exact Hk].
    + exfalso. apply Hnot. split; [congruence | discriminate].
  - intros -> -> i name Hi Hk Hg. cbn [Z.eqb].
    assert (Hb : bad = true).
    { destruct bad; [reflexivity|].
      rewrite (proj1 Hiff eq_refl i) in Hg by (auto; lia). discriminate. }
    subst bad. cbn [negb snd].
    destruct (in_split _ _ (Hin i name ltac:(lia) Hk Hg)) as (before & after & El).
    exists before, after. rewrite El. now rewrite <- !app_assoc.
Qed.

End Mutexes.

End SafePointFacts.

(** Witness of [TransitionFromSuspendedToRunnable_alone]: a thread with
    one suspend request pending that nobody takes back. *)
Lemma TransitionFromSuspendedToRunnable_alone_witness :
  exists s',
    Transition.run (repeat Transition.Thread_moves 5) Transition.suspended_once
    = Some s'
    /\ Transition.pc s' <> Transition.at_return
    /\ Transition.state s' = kSuspended
    /\ Transition.suspend_count s' = 1.
Proof.
  destruct (TransitionFromSuspendedToRunnable_alone Transition.suspended_once)
    as [_ H].
  - repeat split; discriminate.
  - reflexivity.
  - apply H. discriminate.
Defined.

(** Witness of [FullSuspendCheck_round_trip]: the suspend check of a
    running thread that nobody suspended. *)
Lemma FullSuspendCheck_round_trip_witness :
  SafePoint.FullSuspendCheck true true (repeat Transition.Thread_moves 8)
    SafePoint.running
  = Some {| Transition.pc := Transition.at_return; Transition.suspend_count := 0;
            Transition.state := kRunnable; Transition.holder := Transition.Free;
            Transition.mutator_shared := true;
            Transition.old_state := kSuspended; Transition.done := true |}.
Proof.
  destruct (FullSuspendCheck_round_trip SafePoint.running) as [H _].
  - reflexivity.
  - discriminate.
  - apply H; reflexivity.
Defined.

(** ** The end of a thread *)

Section LifecycleFacts.

Import Lifecycle.

Variable debug : bool.
Variable peer_ : Z.
Variable thin_lock_id_ : Z.
Variable monitors : option (list Z).
Variable GetThinLockId : Z -> Z.
Variable uncaughtHandler : Z -> Z.
Variable group : Z -> Z.
Variable lock : Z -> Z.
Variable Find : Z -> Z -> Z.
Variable uncaughtException_mid : Z.
Variable removeThread_mid : Z.
Variable PrettyTypeOf : Z -> string.
Variable ShortDump : list Token.
Variable thrown_by : Z -> Z -> list Z -> Z.
Variable IsSuspended : Z -> bool.
Variable thread_list_lock_held : bool.

Local Abbreviation Handle :=
  (HandleUncaughtExceptions peer_ uncaughtHandler group Find
     uncaughtException_mid thrown_by).
Local Abbreviation Remove :=
  (RemoveFromThreadGroup peer_ group Find removeThread_mid thrown_by).
Local Abbreviation Holds := (HoldsLock thin_lock_id_ GetThinLockId).
Local Abbreviation Exit :=
  (MonitorExitVisitor thin_lock_id_ GetThinLockId PrettyTypeOf ShortDump).
Local Abbreviation Destroy_ :=
  (Destroy peer_ thin_lock_id_ monitors GetThinLockId uncaughtHandler group lock
     Find uncaughtException_mid removeThread_mid PrettyTypeOf ShortDump thrown_by).
Local Abbreviation Lookup :=
  (FromManagedThread debug IsSuspended thread_list_lock_held).

(** The handler that [HandleUncaughtExceptions] calls. *)
Local Abbreviation the_handler :=
  (if uncaughtHandler peer_ =? NULL then group peer_ else uncaughtHandler peer_).

(** [HandleUncaughtExceptions], run. *)
Lemma HandleUncaughtExceptions_run (s : LState) :
  let pending := exception_ (thread s) in
  Handle s
  = if pending =? NULL then (Ok tt, s)
    else if the_handler =? NULL then
      (Abort, {| thread := set_exception_ NULL (thread s); vmData := vmData s;
                 levents := levents s;
                 llog := llog s ++ [(FATAL, [Str "SIGSEGV"])] |})
    else
      (Ok tt, {| thread := set_exception_ NULL (thread s); vmData := vmData s;
                 levents := levents s
                            ++ [LInvoke (Find the_handler uncaughtException_mid)
                                        the_handler [peer_; pending]];
                 llog := llog s |}).
Proof.
  cbv zeta. destruct s as [t vd ev lg].
  unfold HandleUncaughtExceptions, Invoke, GetThreadGroup, null_dereference,
    set_pending, lemit, bind, get, modify, when, ret.
  cbn [thread vmData levents llog].
  destruct (exception_ t =? NULL); [reflexivity|].
  destruct (the_handler =? NULL); [reflexivity|].
  cbn [thread vmData levents llog].
  destruct (negb (thrown_by _ _ _ =? NULL)); cbn [thread vmData levents llog];
    destruct t; reflexivity.
Qed.

(** X21. [Thread::HandleUncaughtExceptions]: when it returns no
    exception is pending, whether the handler threw or not, and nothing
    was logged; with no exception pending it has called nothing, and
    with one pending it has called [uncaughtException] once, on the
    thread's own handler if it has one and on its thread group
    otherwise, with the peer and the exception. It ends the process
    exactly when an exception is pending on a thread that has neither a
    handler nor a group: the call goes through the [NULL] handler. *)
Theorem HandleUncaughtExceptions_spec (s : LState) :
  let pending := exception_ (thread s) in
  (forall s',
     Handle s = (Ok tt, s') ->
     exception_ (thread s') = NULL
     /\ vmData s' = vmData s /\ llog s' = llog s
     /\ levents s'
        = levents s
          ++ (if pending =? NULL then []
              else [LInvoke (Find the_handler uncaughtException_mid) the_handler
                            [peer_; pending]]))
  /\ (fst (Handle s) = Abort <-> pending <> NULL /\ the_handler = NULL)
  /\ (fst (Handle s) = Abort \/ fst (Handle s) = Ok tt).
Proof.
  cbv zeta. rewrite HandleUncaughtExceptions_run. cbv zeta.
  destruct (exception_ (thread s) =? NULL) eqn:Hp.
  - apply Z.eqb_eq in Hp. split; [|split].
    + intros s' H. inversion H; subst s'. rewrite app_nil_r. auto.
    + cbn. split; [discriminate | intros [Hn _]; contradiction].
    + now right.
  - apply Z.eqb_neq in Hp.
    destruct (the_handler =? NULL) eqn:Hh.
    + apply Z.eqb_eq in Hh. split; [|split].
      * discriminate.
      * cbn. split; auto.
      * now left.
    + apply Z.eqb_neq in Hh. split; [|split].
      * intros s' H. inversion H; subst s'. cbn [thread vmData levents llog].
        repeat split; now destruct (thread s).
      * cbn. split; [discriminate | intros [_ Hn]; contradiction].
      * now right.
Qed.

(** The monitors left locked are exited, with a warning each. *)
Lemma for_each_MonitorExitVisitor (entered : list Z) (s : LState) :
  exists warnings,
    Roots.for_each Exit entered s
    = (Ok tt, {| thread := thread s; vmData := vmData s;
                 levents := levents s ++ map LMonitorExit (filter Holds entered);
                 llog := llog s ++ warnings |})
    /\ Forall (fun l => fst l = WARNING) warnings
    /\ List.length warnings = List.length (filter Holds entered).
Proof.
  revert s. induction entered as [|o rest IH]; intros s.
  - exists []. cbn. rewrite !app_nil_r. destruct s. repeat split. constructor.
  - cbn [Roots.for_each filter]. unfold bind at 1.
    unfold MonitorExitVisitor at 1, when.
    destruct (Holds o) eqn:Hh.
    + unfold bind at 1, LLOG at 1, lemit at 1, modify.
      cbn [thread vmData levents llog].
      match goal with
      | |- context [Roots.for_each Exit rest ?s1] => destruct (IH s1) as (ws & E & Hw & Hl)
      end.
      rewrite E. cbn [thread vmData levents llog map].
      eexists (_ :: ws). split; [|split].
      * rewrite <- !app_assoc. cbn [app]. reflexivity.
      * constructor; [reflexivity | exact Hw].
      * cbn. now rewrite Hl.
    + unfold ret.
      destruct (IH s) as (ws & E & Hw & Hl). rewrite E.
      exists ws. repeat split; assumption.
Qed.

(** X22. [Thread::Destroy], when it returns: the monitors the thread
    left locked were exited first; then, for a thread with a peer and in
    this order, the uncaught-exception handler was called if an
    exception was pending, the thread was removed from its group if it
    has one, the debugger was told of the thread's death, and the
    joiners waiting on the peer's lock were notified. In the state it
    returns in, the peer's [vmData] is 0, so that the thread cannot be
    found through its peer, and the only exception that can be pending
    is one thrown by the removal from the group. For a thread without a
    peer only the monitors are exited, and the thread and every
    [vmData] are as before. *)
Theorem Destroy_order (s s' : LState) :
  Destroy_ s = (Ok tt, s') ->
  let pending := exception_ (thread s) in
  let exits :=
    match monitors with
    | Some entered => map LMonitorExit (filter Holds entered)
    | None => []
    end in
  let handled :=
    if pending =? NULL then []
    else [LInvoke (Find the_handler uncaughtException_mid) the_handler
                  [peer_; pending]] in
  let removal := LInvoke (Find (group peer_) removeThread_mid) (group peer_) [peer_] in
  let removed := if group peer_ =? NULL then [] else [removal] in
  let notified :=
    if lock peer_ =? NULL then []
    else [LMonitorEnter (lock peer_); LNotifyAll (lock peer_);
          LMonitorExit (lock peer_)] in
  (peer_ = NULL ->
   levents s' = levents s ++ exits
   /\ thread s' = thread s /\ vmData s' = vmData s)
  /\ (peer_ <> NULL ->
      levents s' = levents s ++ exits ++ handled ++ removed
                   ++ [LPostThreadDeath] ++ notified
      /\ Lookup peer_ s' = (Ok NULL, s')
      /\ exception_ (thread s')
         = (if group peer_ =? NULL then NULL
            else thrown_by (Find (group peer_) removeThread_mid) (group peer_) [peer_])
      /\ (pending <> NULL -> the_handler <> NULL)).
Proof.
  intros Hrun. cbv zeta. unfold Destroy in Hrun. unfold bind at 1 in Hrun.
  assert (Hexits : exists warnings,
             (match monitors with
              | Some entered => Roots.for_each Exit entered
              | None => ret tt
              end) s
             = (Ok tt, {| thread := thread s; vmData := vmData s;
                          levents := levents s
                                     ++ match monitors with
                                        | Some entered =>
                                            map LMonitorExit (filter Holds entered)
                                        | None => []
                                        end;
                          llog := llog s ++ warnings |})).
  { destruct monitors as [entered|].
    - destruct (for_each_MonitorExitVisitor entered s) as (ws & E & _). eauto.
    - exists []. unfold ret. rewrite !app_nil_r. now destruct s. }
  destruct Hexits as (ws & Hexits). rewrite Hexits in Hrun. clear Hexits.
  destruct (peer_ =? NULL) eqn:Hpeer; cbn [negb] in Hrun.
  - apply Z.eqb_eq in Hpeer. unfold ret in Hrun. inversion Hrun; subst s'.
    clear Hrun. cbn [thread vmData levents llog].
    split; [intros _; repeat split | intros Hn; contradiction].
  - apply Z.eqb_neq in Hpeer. split; [intros E; contradiction | intros _].
    unfold bind at 1 in Hrun. rewrite HandleUncaughtExceptions_run in Hrun.
    cbn [thread vmData levents llog] in Hrun.
    set (pending := exception_ (thread s)) in *.
    assert (Hfinish : forall (t1 : Thread) (ev1 : list LEvent) (lg1 : list LogLine),
               exception_ t1 = NULL ->
               (let (r, s1) := (Ok tt, {| thread := t1; vmData := vmData s;
                                          levents := ev1; llog := lg1 |}) in
                match r with
                | Ok _ =>
                    (Remove ;;
                     (SetVmData peer_ NULL ;;
                      (lemit LPostThreadDeath ;;
                       when (negb (lock peer_ =? NULL))
                            (lemit (LMonitorEnter (lock peer_)) ;;
                             (lemit (LNotifyAll (lock peer_)) ;;
                              lemit (LMonitorExit (lock peer_)))))))%monad s1
                | Abort => (Abort, s1)
                | LongJump sp pc0 => (LongJump sp pc0, s1)
                end) = (Ok tt, s') ->
               levents s'
               = ev1 ++ (if group peer_ =? NULL then []
                         else [LInvoke (Find (group peer_) removeThread_mid)
                                       (group peer_) [peer_]])
                 ++ [LPostThreadDeath]
                 ++ (if lock peer_ =? NULL then []
                     else [LMonitorEnter (lock peer_); LNotifyAll (lock peer_);
                           LMonitorExit (lock peer_)])
               /\ Lookup peer_ s' = (Ok NULL, s')
               /\ exception_ (thread s')
                  = (if group peer_ =? NULL then NULL
                     else thrown_by (Find (group peer_) removeThread_mid)
                            (group peer_) [peer_])).
    { intros t1 ev1 lg1 Ht1.
      unfold RemoveFromThreadGroup, GetThreadGroup, Invoke, SetVmData, set_pending,
        lemit, FromManagedThread, LLOG, bind, get, modify, when, ret.
      cbn [thread vmData levents llog].
      destruct (group peer_ =? NULL); cbn [negb thread vmData levents llog];
        [|destruct (thrown_by _ _ _ =? NULL) eqn:Hth;
          cbn [negb thread vmData levents llog]];
        destruct (lock peer_ =? NULL); cbn [negb thread vmData levents llog];
        intros H; inversion H; subst s'; clear H;
        cbn [thread vmData levents llog]; rewrite Z.eqb_refl;
        change (wrap_u32 (wrap_int NULL)) with 0; cbn [Z.eqb negb andb];
        (split; [rewrite <- ?app_assoc; reflexivity|]);
        (split; [reflexivity|]);
        try exact Ht1; try reflexivity.
      - apply Z.eqb_eq in Hth. rewrite Hth. destruct t1; cbn in *; congruence.
      - apply Z.eqb_eq in Hth. rewrite Hth. destruct t1; cbn in *; congruence. }
    destruct (pending =? NULL) eqn:Hp.
    + apply Z.eqb_eq in Hp.
      destruct s as [t vd ev lg]. cbn [thread vmData levents llog] in *.
      apply Hfinish in Hrun; [|exact Hp].
      destruct Hrun as (He & Hl & Hx).
      rewrite He. cbn [app]. rewrite <- !app_assoc.
      repeat split; auto; intros Hn; contradiction.
    + destruct (the_handler =? NULL) eqn:Hh; [discriminate|].
      destruct s as [t vd ev lg]. cbn [thread vmData levents llog] in *.
      apply Hfinish in Hrun; [|destruct t; reflexivity].
      destruct Hrun as (He & Hl & Hx).
      rewrite He. rewrite <- !app_assoc. cbn [app].
      repeat split; auto; intros _; now apply Z.eqb_neq.
Qed.

(** X23. The back pointer of a peer: [FromManagedThread] after
    [SetVmData] gives back the thread that was stored, for every 32-bit
    address (those from [2^31] on are stored as negative [int]s), if the
    thread is null or suspended, or the caller holds the thread list
    lock, or the build does not check; a debug build otherwise fails
    the sanity check. *)
Theorem FromManagedThread_after_SetVmData (peer native_thread : Z) (s : LState) :
  0 <= native_thread < 4294967296 ->
  (SetVmData peer native_thread ;; Lookup peer)%monad s
  = let s1 := {| thread := thread s;
                 vmData := fun p => if p =? peer then wrap_int native_thread
                                    else vmData s p;
                 levents := levents s; llog := llog s |} in
    if (native_thread =? NULL) || IsSuspended native_thread
       || thread_list_lock_held || negb debug
    then (Ok native_thread, s1)
    else (Abort,
          {| thread := thread s1; vmData := vmData s1; levents := levents s1;
             llog := llog s
                     ++ [(FATAL, [Str "Check failed: thread_list_lock_ not held"])] |}).
Proof.
  intros Hrange. cbv zeta.
  assert (Hrt : wrap_u32 (wrap_int native_thread) = native_thread).
  { unfold wrap_u32, wrap_int.
    destruct (Z_lt_ge_dec native_thread 2147483648) as [Hlo | Hhi].
    - rewrite (Z.mod_small (native_thread + 2147483648)) by lia.
      rewrite Z.mod_small; lia.
    - replace ((native_thread + 2147483648) mod 4294967296)
        with (native_thread - 2147483648).
      2:{ apply Z.mod_unique with (q := 1); lia. }
      symmetry. apply Z.mod_unique with (q := -1); lia. }
  unfold SetVmData, FromManagedThread, LLOG, bind, get, modify, ret.
  cbn [thread vmData levents llog]. rewrite Z.eqb_refl, Hrt.
  destruct (native_thread =? NULL); cbn [negb andb orb]; [reflexivity|].
  destruct (IsSuspended native_thread); cbn [negb andb orb]; [reflexivity|].
  destruct thread_list_lock_held, debug; reflexivity.
Qed.

End LifecycleFacts.

(** X24. A native thread that exits without having detached is given
    one reprieve: the first [ThreadExitCallback] warns, attaches the
    thread to its key again and returns with the counter at 1; the
    second ends the process with "Native thread exited without calling
    DetachCurrentThread". *)
Theorem ThreadExitCallback_twice (ShortDump : list Token) (self : Z)
    (s : Lifecycle.ExitState) :
  Lifecycle.thread_exit_check_count_ s = 0 ->
  let warned :=
    Lifecycle.elog s
    ++ [(WARNING,
         Str "Native thread exiting without having called DetachCurrentThread (maybe it's going to use a pthread_key_create destructor?): "
         :: ShortDump)] in
  Lifecycle.ThreadExitCallback ShortDump 0 self s
  = (Ok tt, {| Lifecycle.thread_exit_check_count_ := 1;
               Lifecycle.key_self := self; Lifecycle.elog := warned |})
  /\ (Lifecycle.ThreadExitCallback ShortDump 0 self ;;
      Lifecycle.ThreadExitCallback ShortDump 0 self)%monad s
     = (Abort,
        {| Lifecycle.thread_exit_check_count_ := 1;
           Lifecycle.key_self := self;
           Lifecycle.elog :=
             warned
             ++ [(FATAL,
                  Str "Native thread exited without calling DetachCurrentThread: "
                  :: ShortDump)] |}).
Proof.
  intros Hc. destruct s as [c k lg]. cbn in Hc. subst c. cbv zeta.
  split; reflexivity.
Qed.

(** Witness of [Destroy_order]: the end of the thread [dying]. *)
Lemma Destroy_order_witness :
  Lifecycle.levents (snd (Lifecycle.end_of_dying Lifecycle.dying))
  = [Lifecycle.LMonitorExit 900; Lifecycle.LInvoke 61 60 [50; 777];
     Lifecycle.LInvoke 62 60 [50]; Lifecycle.LPostThreadDeath;
     Lifecycle.LMonitorEnter 70; Lifecycle.LNotifyAll 70; Lifecycle.LMonitorExit 70].
Proof.
  destruct (Destroy_order true 50 7 (Some [900; 901])
              (fun o => if o =? 900 then 7 else 0)
              (fun _ => NULL) (fun _ => 60) (fun _ => 70)
              (fun receiver mid => receiver + mid)
              1 2 (fun _ => "java.lang.Object") [Str "Thread[1]"]
              (fun _ _ _ => NULL) (fun _ => false) false
              Lifecycle.dying (snd (Lifecycle.end_of_dying Lifecycle.dying)))
    as [_ H].
  - reflexivity.
  - destruct H as (He & _); [discriminate|]. rewrite He. reflexivity.
Defined.

(** Witness of [FromManagedThread_after_SetVmData]: a thread at an
    address above [2^31], looked up under the thread list lock. *)
Lemma FromManagedThread_after_SetVmData_witness :
  fst ((Lifecycle.SetVmData 50 3221225472 ;;
        Lifecycle.FromManagedThread true (fun _ => false) true 50)%monad
         Lifecycle.dying)
  = Ok 3221225472.
Proof.
  rewrite (FromManagedThread_after_SetVmData true (fun _ => false) true
             50 3221225472 Lifecycle.dying).
  - reflexivity.
  - lia.
Defined.

(** Witness of [ThreadExitCallback_twice]. *)
Lemma ThreadExitCallback_twice_witness :
  fst ((Lifecycle.ThreadExitCallback [Str "Thread[1]"] 0 4096 ;;
        Lifecycle.ThreadExitCallback [Str "Thread[1]"] 0 4096)%monad
         {| Lifecycle.thread_exit_check_count_ := 0; Lifecycle.key_self := 0;
            Lifecycle.elog := [] |})
  = Abort.
Proof.
  destruct (ThreadExitCallback_twice [Str "Thread[1]"] 4096
              {| Lifecycle.thread_exit_check_count_ := 0; Lifecycle.key_self := 0;
                 Lifecycle.elog := [] |}) as [_ H].
  - reflexivity.
  - rewrite H. reflexivity.
Defined.

(** ** The bounds of a thread's stack *)

Section StackBoundsFacts.

Import StackBounds.

Variable SIZE_MAX : Z.
Variable kStackOverflowReservedBytes : Z.
Variable stack_dump : list Token.

Local Abbreviation Init := (InitStackHwm SIZE_MAX kStackOverflowReservedBytes).
Local Abbreviation Overflow :=
  (SetStackEndForStackOverflow kStackOverflowReservedBytes stack_dump).
Local Abbreviation Reset := (ResetDefaultStackEnd kStackOverflowReservedBytes).

(** X25. [Thread::InitStackHwm], when it returns: the stack reported by
    the system is larger than the bytes reserved for stack overflows;
    the high end of the stack is the one reported, also for the main
    thread run with an unlimited stack, whose size is then the default
    size of new threads and whose base is moved up; the usable end is
    the base plus the reserved bytes, and it is below the frame of the
    caller. *)
Theorem InitStackHwm_bounds (stack_base stack_size thin_lock_id_ getrlimit_rc : Z)
    (rlim_cur_is_infinity pthread_attr_ok : bool)
    (default_stack_size stack_variable : Z) (s s' : BState) :
  0 <= default_stack_size <= stack_size ->
  stack_size <= SIZE_MAX ->
  Init stack_base stack_size thin_lock_id_ getrlimit_rc rlim_cur_is_infinity
       pthread_attr_ok default_stack_size stack_variable s
  = (Ok tt, s') ->
  let limited := (thin_lock_id_ =? 1) && rlim_cur_is_infinity in
  kStackOverflowReservedBytes < stack_size
  /\ stack_size_ s' = (if limited then default_stack_size else stack_size)
  /\ stack_begin_ s' + stack_size_ s' = stack_base + stack_size
  /\ stack_end_ s' = stack_begin_ s' + kStackOverflowReservedBytes
  /\ stack_end_ s' < stack_variable
  /\ cerr s' = cerr s /\ blog s' = blog s.
Proof.
  intros Hdef Hmax. cbv zeta.
  unfold InitStackHwm, ResetDefaultStackEnd, BFATAL, bind, get, modify, ret.
  cbn [stack_begin_ stack_size_ stack_end_ cerr blog].
  destruct (stack_size <=? kStackOverflowReservedBytes) eqn:Hsmall; [discriminate|].
  apply Z.leb_gt in Hsmall.
  destruct (thin_lock_id_ =? 1); cbn [andb].
  - destruct (getrlimit_rc =? -1); [discriminate|].
    destruct rlim_cur_is_infinity.
    + destruct pthread_attr_ok; [|discriminate].
      cbn [stack_begin_ stack_size_ stack_end_ cerr blog].
      rewrite (Z.mod_small (stack_size - default_stack_size)) by lia.
      destruct (stack_variable >? _) eqn:Hv; [|discriminate].
      apply Z.gtb_lt in Hv.
      intros H. inversion H; subst s'; clear H.
      cbn [stack_begin_ stack_size_ stack_end_ cerr blog].
      repeat split; try reflexivity; lia.
    + cbn [stack_begin_ stack_size_ stack_end_ cerr blog].
      destruct (stack_variable >? _) eqn:Hv; [|discriminate].
      apply Z.gtb_lt in Hv.
      intros H. inversion H; subst s'; clear H.
      cbn [stack_begin_ stack_size_ stack_end_ cerr blog].
      repeat split; try reflexivity; lia.
  - cbn [stack_begin_ stack_size_ stack_end_ cerr blog].
    destruct (stack_variable >? _) eqn:Hv; [|discriminate].
    apply Z.gtb_lt in Hv.
    intros H. inversion H; subst s'; clear H.
    cbn [stack_begin_ stack_size_ stack_end_ cerr blog].
    repeat split; try reflexivity; lia.
Qed.

(** X26. The usable end of the stack during a stack overflow: on a
    thread whose usable end is the default one, with some bytes
    reserved, [SetStackEndForStackOverflow] returns and makes the whole
    stack usable; a second call before the end is reset dumps the stack
    and ends the process, asking for more reserved bytes; and after
    [ResetDefaultStackEnd] the call can be made again. *)
Theorem SetStackEndForStackOverflow_once (s : BState) :
  0 < kStackOverflowReservedBytes ->
  stack_end_ s = stack_begin_ s + kStackOverflowReservedBytes ->
  let full := {| stack_begin_ := stack_begin_ s; stack_size_ := stack_size_ s;
                 stack_end_ := stack_begin_ s; cerr := cerr s; blog := blog s |} in
  Overflow s = (Ok tt, full)
  /\ (Overflow ;; Overflow)%monad s
     = (Abort,
        {| stack_begin_ := stack_begin_ s; stack_size_ := stack_size_ s;
           stack_end_ := stack_begin_ s; cerr := cerr s ++ stack_dump;
           blog := blog s
                   ++ [(FATAL,
                        [Str "Need to increase kStackOverflowReservedBytes (currently ";
                         Num kStackOverflowReservedBytes; Str ")"])] |})
  /\ (Overflow ;; Reset ;; Overflow)%monad s = (Ok tt, full).
Proof.
  intros Hres Hend. cbv zeta.
  destruct s as [b sz e ce lg]. cbn [stack_begin_ stack_end_] in Hend. subst e.
  assert (E1 : (b + kStackOverflowReservedBytes =? b) = false)
    by (apply Z.eqb_neq; lia).
  unfold SetStackEndForStackOverflow, ResetDefaultStackEnd, BFATAL,
    bind, get, modify, ret.
  cbn [stack_begin_ stack_size_ stack_end_ cerr blog].
  rewrite E1, Z.eqb_refl. cbn [stack_begin_ stack_size_ stack_end_ cerr blog].
  rewrite E1. repeat split.
Qed.

End StackBoundsFacts.

(** Witness of [InitStackHwm_bounds]: the main thread, run with an
    unlimited stack that the system reports as 2 GB, on a target where
    new threads get 1 MB. *)
Lemma InitStackHwm_bounds_witness :
  let s' := snd (StackBounds.InitStackHwm 4294967295 4096 1073741824 2147483648
                   1 0 true true 1048576 3221225000 StackBounds.unset) in
  StackBounds.stack_size_ s' = 1048576
  /\ StackBounds.stack_begin_ s' + StackBounds.stack_size_ s' = 1073741824 + 2147483648.
Proof.
  destruct (InitStackHwm_bounds 4294967295 4096 1073741824 2147483648 1 0 true true
              1048576 3221225000 StackBounds.unset
              (snd (StackBounds.InitStackHwm 4294967295 4096 1073741824 2147483648
                      1 0 true true 1048576 3221225000 StackBounds.unset)))
    as (_ & Hs & Hh & _).
  - lia.
  - lia.
  - reflexivity.
  - split; [exact Hs | exact Hh].
Defined.

(** Witness of [SetStackEndForStackOverflow_once]. *)
Lemma SetStackEndForStackOverflow_once_witness :
  fst ((StackBounds.SetStackEndForStackOverflow 4096 [Str "  (no managed stack frames)\n"] ;;
        StackBounds.SetStackEndForStackOverflow 4096 [Str "  (no managed stack frames)\n"])%monad
         {| StackBounds.stack_begin_ := 1073741824;
            StackBounds.stack_size_ := 1048576;
            StackBounds.stack_end_ := 1073745920;
            StackBounds.cerr := []; StackBounds.blog := [] |})
  = Abort.
Proof.
  destruct (SetStackEndForStackOverflow_once 4096 [Str "  (no managed stack frames)\n"]
              {| StackBounds.stack_begin_ := 1073741824;
                 StackBounds.stack_size_ := 1048576;
                 StackBounds.stack_end_ := 1073745920;
                 StackBounds.cerr := []; StackBounds.blog := [] |})
    as (_ & H & _).
  - lia.
  - reflexivity.
  - rewrite H. reflexivity.
Defined.

(** ** The roots of a thread *)

Section ThreadRootsFacts.

Import Roots ThreadRoots.

Variable om : ObjectModel.
Variable gi : GcInfo.
Variable exception_ : Z.
Variable peer_ : Z.
Variable class_loader_override_ : Z.
Variable locals_roots : list Z.
Variable monitors_roots : list Z.
Variable top_sirt_ : list Sirt.StackIndirectReferenceTable.

(** The visit of a frame whose checks pass. *)
Lemma VisitFrame_roots_of_frame (f : Frame) (s : RState) :
  frame_checks_pass om gi f ->
  VisitFrame om gi f s
  = (Ok true, {| roots := roots s ++ roots_of_frame om gi f; rlog := rlog s |}).
Proof.
  unfold frame_checks_pass, roots_of_frame, VisitFrame.
  destruct (GetCurrentShadowFrame f) as [sf|].
  - intros _. unfold bind. now rewrite root_visitor_run.
  - cbv zeta.
    destruct (IsNative om (GetMethod f)), (IsRuntimeMethod om (GetMethod f)),
      (IsProxyMethod om (GetMethod f)); cbn [negb andb orb];
      try (intros _; unfold bind, ret; rewrite app_nil_r; now destruct s).
    intros [bm Hc].
    pose proof Hc as (Hg & Hl & Hb & _).
    apply Z.eqb_neq in Hg, Hl. rewrite Hb.
    unfold RCHECK, bind at 1 2 3. rewrite Hg, Hl. cbn [negb]. unfold ret at 1 2.
    rewrite (visit_registers_run gi f bm _ s Hc). reflexivity.
Qed.

(** The root visitor never ends the walk: every frame is visited. *)
Lemma WalkStackM_roots (frames : list Frame) (s : RState) :
  Forall (frame_checks_pass om gi) frames ->
  WalkStackM (VisitFrame om gi) frames s
  = (Ok tt, {| roots := roots s ++ flat_map (roots_of_frame om gi) frames;
               rlog := rlog s |}).
Proof.
  intros Hall. revert s. induction Hall as [|f outer Hf Hall IH]; intros s.
  - cbn. unfold ret. rewrite app_nil_r. now destruct s.
  - cbn [WalkStackM flat_map]. unfold bind.
    rewrite (VisitFrame_roots_of_frame f s Hf). rewrite IH.
    cbn [roots rlog]. now rewrite <- app_assoc.
Qed.

Lemma for_each_visitor (refs : list Z) (s : TState) :
  for_each visitor refs s
  = (Ok tt, {| visited := {| roots := roots (visited s) ++ refs;
                             rlog := rlog (visited s) |};
               context := context s |}).
Proof.
  revert s. induction refs as [|r refs IH]; intros s; cbn [for_each].
  - unfold ret. rewrite app_nil_r. now destruct s as [[] ?].
  - unfold bind, visitor at 1, lift_roots, root_visitor_, modify.
    rewrite IH. cbn [visited context roots rlog]. now rewrite <- app_assoc.
Qed.

(** X27. [Thread::VisitRoots] on a thread on whose frames the checks of
    the stack visitor pass: the visitor is called, in this order, on
    the pending exception, the peer and the class loader override (each
    if it is not null), on the roots of the JNI locals and of the JNI
    monitors, on the non-null references of the SIRTs, and then on the
    roots of every frame of the stack from the innermost to the
    outermost, no frame ending the walk; the log is unchanged, and the
    long-jump context used for the walk, the thread's own or a new one,
    is the thread's after the call. *)
Theorem VisitRoots_order (frames : list Frame) (s : TState) :
  Forall (frame_checks_pass om gi) frames ->
  VisitRoots om gi exception_ peer_ class_loader_override_ locals_roots
    monitors_roots top_sirt_ frames s
  = (Ok tt,
     {| visited :=
          {| roots :=
               roots (visited s)
               ++ filter (fun r => negb (r =? NULL))
                    [exception_; peer_; class_loader_override_]
               ++ locals_roots ++ monitors_roots
               ++ Sirt.SirtVisitRoots top_sirt_
               ++ flat_map (roots_of_frame om gi) frames;
             rlog := rlog (visited s) |};
        context := Some (match context s with
                         | Some c => c
                         | None => Context_Create
                         end) |}).
Proof.
  intros Hall. destruct s as [[rs lg] ctx].
  unfold VisitRoots.
  assert (Hheads : forall r (st : TState),
             when (negb (r =? NULL)) (visitor r) st
             = (Ok tt, {| visited :=
                            {| roots := roots (visited st)
                                        ++ filter (fun r => negb (r =? NULL)) [r];
                               rlog := rlog (visited st) |};
                          context := context st |})).
  { intros r [[rs1 lg1] c1]. unfold when, visitor, lift_roots, root_visitor_, modify, ret.
    cbn [filter]. destruct (negb (r =? NULL)); cbn; [reflexivity|].
    now rewrite app_nil_r. }
  unfold bind at 1. rewrite Hheads. cbn [visited context roots rlog].
  unfold bind at 1. rewrite Hheads. cbn [visited context roots rlog].
  unfold bind at 1. rewrite Hheads. cbn [visited context roots rlog].
  unfold bind at 1. rewrite for_each_visitor. cbn [visited context roots rlog].
  unfold bind at 1. rewrite for_each_visitor. cbn [visited context roots rlog].
  unfold bind at 1. rewrite for_each_visitor. cbn [visited context roots rlog].
  unfold GetLongJumpContext, ReleaseLongJumpContext, lift_roots, bind, get, modify, ret.
  cbn [visited context roots rlog].
  destruct ctx as [c|]; cbn [visited context roots rlog];
    rewrite (WalkStackM_roots frames _ Hall); cbn [visited context roots rlog];
    cbn [filter];
    destruct (negb (exception_ =? NULL)), (negb (peer_ =? NULL)),
      (negb (class_loader_override_ =? NULL));
    cbn [app]; rewrite <- ?app_assoc; cbn [app]; rewrite ?app_nil_r;
    reflexivity.
Qed.

End ThreadRootsFacts.

(** Witness of [VisitRoots_order]: a thread with a pending exception,
    one SIRT and the compiled frame of the example. *)
Lemma VisitRoots_order_witness :
  Roots.roots
    (ThreadRoots.visited
       (snd (ThreadRoots.VisitRoots Roots.example_om Roots.example_gi 777 50 NULL
               [4096] [] [{| Sirt.references := [NULL; 8192] |}]
               [Roots.compiled_frame]
               {| ThreadRoots.visited := Roots.rstate0;
                  ThreadRoots.context := None |})))
  = [777; 50; 4096; 8192; 7777; 3333].
Proof.
  rewrite (VisitRoots_order Roots.example_om Roots.example_gi 777 50 NULL
             [4096] [] [{| Sirt.references := [NULL; 8192] |}]
             [Roots.compiled_frame]
             {| ThreadRoots.visited := Roots.rstate0; ThreadRoots.context := None |}).
  - reflexivity.
  - constructor; [|constructor].
    exists [11]. split; [discriminate|]. split; [discriminate|].
    split; [reflexivity|].
    intros reg off Hbit Hin. cbn in Hin.
    destruct (reg =? 0); [|discriminate]. inversion Hin; subst.
    vm_compute. split; [discriminate | reflexivity].
Defined.

(** ** From a stack to its stack trace elements *)

Section StackTraceElementsFacts.

Import StackTrace StackTraceElements.

Variable om : ObjectModel.
Variable DeclaredByThrowable : Z -> bool.
Variable GetLineNumFromDexPC : Z -> Z -> Z.
Variable GetDeclaringClassDescriptor : Z -> option string.
Variable GetName : Z -> option string.
Variable PrettyDescriptor : string -> string.
Variable AllocFromModifiedUtf8 : Z -> Z -> option string -> Z.
Variable StackTraceElement_Alloc : Z -> Z -> Z -> Z -> Z -> Z.
Variable AllocStackTraceElementArray : Z -> bool.

Local Abbreviation build :=
  (build_element om GetLineNumFromDexPC GetDeclaringClassDescriptor GetName
     PrettyDescriptor AllocFromModifiedUtf8 StackTraceElement_Alloc).
Local Abbreviation loop_ :=
  (elements_loop om GetLineNumFromDexPC GetDeclaringClassDescriptor GetName
     PrettyDescriptor AllocFromModifiedUtf8 StackTraceElement_Alloc).
Local Abbreviation Convert :=
  (InternalStackTraceToStackTraceElementArray om GetLineNumFromDexPC
     GetDeclaringClassDescriptor GetName PrettyDescriptor AllocFromModifiedUtf8
     StackTraceElement_Alloc AllocStackTraceElementArray).

(** The iterations from [k] on, each of which builds its element: the
    elements are stored one after the other from the slot [k]. *)
Lemma elements_loop_stores (method_trace pc_trace elements array : list Z)
    (n k : nat) (sd : option Z) :
  (k + n <= List.length elements)%nat ->
  List.length array = List.length elements ->
  (forall i, (k <= i < k + n)%nat ->
             build (Z.of_nat i) (nth i method_trace NULL) (nth i pc_trace 0)
             = Element (nth i elements NULL)) ->
  loop_ method_trace pc_trace (map Z.of_nat (seq k n))
    {| java_traces := firstn k elements ++ skipn k array; stack_depth := sd |}
  = (Ok true,
     {| java_traces := firstn (k + n) elements ++ skipn (k + n) array;
        stack_depth := sd |}).
Proof.
  revert k. induction n as [|n IH]; intros k Hk Hlen Hbuild.
  - cbn. now rewrite Nat.add_0_r.
  - cbn [seq map elements_loop]. rewrite Nat2Z.id.
    rewrite (Hbuild k) by lia.
    unfold bind, modify. cbn [java_traces stack_depth].
    assert (Hsplit : skipn k array = nth k array NULL :: skipn (S k) array).
    { clear -Hk Hlen. assert (Hlt : (k < List.length array)%nat) by lia. clear Hk Hlen.
      revert k Hlt. induction array as [|y ys IHa]; intros k Hlt; [cbn in Hlt; lia|].
      destruct k as [|k]; [reflexivity|].
      change (skipn (S k) (y :: ys)) with (skipn k ys).
      change (skipn (S (S k)) (y :: ys)) with (skipn (S k) ys).
      cbn [nth]. apply IHa. cbn in Hlt. lia. }
    rewrite Hsplit.
    replace (Z.of_nat k) with (Z.of_nat (List.length (firstn k elements)))
      by (rewrite length_firstn; lia).
    rewrite Set_middle.
    assert (Hfirst : firstn (S k) elements = firstn k elements ++ [nth k elements NULL]).
    { clear -Hk. assert (Hlt : (k < List.length elements)%nat) by lia. clear Hk.
      revert k Hlt. induction elements as [|y ys IHe]; intros k Hlt; [cbn in Hlt; lia|].
      destruct k as [|k]; [reflexivity|].
      change (firstn (S (S k)) (y :: ys)) with (y :: firstn (S k) ys).
      change (firstn (S k) (y :: ys)) with (y :: firstn k ys).
      cbn [nth app]. f_equal. apply IHe. cbn in Hlt. lia. }
    replace (firstn k elements ++ nth k elements NULL :: skipn (S k) array)
      with (firstn (S k) elements ++ skipn (S k) array)
      by (rewrite Hfirst, <- app_assoc; reflexivity).
    rewrite IH; [|lia | exact Hlen | intros i Hi; apply Hbuild; lia].
    replace (S k + n)%nat with (k + S n)%nat by lia. reflexivity.
Qed.

(** X28. From a stack to its stack trace elements: the internal stack
    trace that [CreateInternalStackTrace] builds, given to
    [InternalStackTraceToStackTraceElementArray], yields one element for
    each frame that the trace shows, in order, built from the method and
    the dex pc of that frame. An output array that is given is reused:
    when it is shorter than the trace only as many frames as it has
    slots are converted, when it is longer its other slots are left as
    they were, and the number of frames converted is stored through
    [stack_depth]. *)
Theorem stack_trace_elements_of_a_stack (frames : list Frame) (pc_trace_ref : Z)
    (output_array : option (list Z)) (stack_depth_given : bool)
    (elements : list Z) (s : EState) :
  Z.of_nat (List.length frames) < INT_MAX ->
  let shown := trace_frames om DeclaredByThrowable frames in
  let depth :=
    match output_array with
    | Some array => Nat.min (List.length shown) (List.length array)
    | None => List.length shown
    end in
  (output_array = None -> AllocStackTraceElementArray (Z.of_nat depth) = true) ->
  List.length elements = depth ->
  (forall i, (i < depth)%nat ->
             build (Z.of_nat i) (nth i (map GetMethod shown) NULL)
                   (nth i (map GetDexPc shown) 0)
             = Element (nth i elements NULL)) ->
  match CreateInternalStackTrace om DeclaredByThrowable frames true true
          pc_trace_ref with
  | Some (method_trace, pc_trace) =>
      Convert method_trace pc_trace output_array stack_depth_given s
      = (Ok true,
         {| java_traces :=
              elements ++ match output_array with
                          | Some array => skipn depth array
                          | None => []
                          end;
            stack_depth := if stack_depth_given then Some (Z.of_nat depth)
                           else stack_depth s |})
  | None => False
  end.
Proof.
  intros Hlen shown depth Halloc Hel Hbuild.
  rewrite CreateInternalStackTrace_allocated by lia. fold shown.
  assert (Hshown : (List.length shown <= List.length frames)%nat).
  { subst shown. unfold trace_frames.
    etransitivity; [apply filter_length_le|].
    clear. induction frames as [|g gs IHg]; cbn; [lia|].
    destruct (is_skipped om DeclaredByThrowable g); cbn; lia. }
  unfold INT_MAX in Hlen.
  unfold InternalStackTraceToStackTraceElementArray.
  rewrite length_app, length_map. cbn [List.length].
  replace (Z.of_nat (List.length shown + 1) - 1) with (Z.of_nat (List.length shown))
    by lia.
  rewrite wrap_int_id by (unfold INT_MIN, INT_MAX; lia).
  assert (Hnth : forall i, (i < List.length shown)%nat ->
                 nth i (map GetMethod shown ++ [pc_trace_ref]) NULL
                 = nth i (map GetMethod shown) NULL).
  { intros i Hi. apply app_nth1. now rewrite length_map. }
  destruct output_array as [array|].
  - (* the array given is reused *)
    replace (Z.min (Z.of_nat (List.length shown)) (Z.of_nat (List.length array)))
      with (Z.of_nat depth) by (subst depth; lia).
    unfold bind, modify. cbn [java_traces stack_depth].
    unfold Roots.counter_values. rewrite Nat2Z.id.
    pose proof (elements_loop_stores (map GetMethod shown ++ [pc_trace_ref])
                  (map GetDexPc shown)
                  (elements ++ skipn depth array) array depth 0
                  (if stack_depth_given then Some (Z.of_nat depth) else stack_depth s))
      as Hloop.
    cbn [firstn skipn app Nat.add] in Hloop.
    rewrite Hloop; clear Hloop.
    + rewrite firstn_app, Hel, Nat.sub_diag, firstn_O, app_nil_r.
      rewrite firstn_all2 by lia. reflexivity.
    + rewrite length_app. lia.
    + rewrite length_app, length_skipn, Hel. subst depth. lia.
    + intros i Hi. rewrite Hnth by (subst depth; lia).
      rewrite app_nth1 by lia. apply Hbuild. lia.
  - (* a new array *)
    subst depth. rewrite (Halloc eq_refl).
    unfold bind, modify. cbn [java_traces stack_depth].
    unfold Roots.counter_values. rewrite Nat2Z.id.
    pose proof (elements_loop_stores (map GetMethod shown ++ [pc_trace_ref])
                  (map GetDexPc shown) elements
                  (repeat NULL (List.length shown)) (List.length shown) 0
                  (if stack_depth_given then Some (Z.of_nat (List.length shown))
                   else stack_depth s))
      as Hloop.
    cbn [firstn skipn app Nat.add] in Hloop.
    rewrite Hloop; clear Hloop.
    + rewrite firstn_all2 by lia.
      rewrite skipn_all2 by (rewrite repeat_length; lia). reflexivity.
    + lia.
    + rewrite repeat_length. lia.
    + intros i Hi. rewrite Hnth by lia. apply Hbuild. lia.
Qed.

End StackTraceElementsFacts.

(** Witness of [stack_trace_elements_of_a_stack]: the two frames that
    the trace of [throwing_stack] shows, converted into an array of
    three slots. *)
Lemma stack_trace_elements_of_a_stack_witness :
  StackTraceElements.InternalStackTraceToStackTraceElementArray StackTrace.trace_om
    (fun _ pc => pc) (fun _ => Some "LLoop;") (fun _ => Some "spin") (fun d => d)
    (fun i k _ => 1000 + 10 * i + k) (fun i _ _ _ _ => 2000 + i) (fun _ => true)
    [100; 200; 77] [7; 3] (Some [1; 2; 3]) true
    {| StackTraceElements.java_traces := []; StackTraceElements.stack_depth := None |}
  = (Ok true,
     {| StackTraceElements.java_traces := [2000; 2001; 3];
        StackTraceElements.stack_depth := Some 2 |}).
Proof.
  apply (stack_trace_elements_of_a_stack StackTrace.trace_om (fun m => m =? 10)
           (fun _ pc => pc) (fun _ => Some "LLoop;") (fun _ => Some "spin")
           (fun d => d) (fun i k _ => 1000 + 10 * i + k) (fun i _ _ _ _ => 2000 + i)
           (fun _ => true) StackTrace.throwing_stack 77 (Some [1; 2; 3]) true
           [2000; 2001]
           {| StackTraceElements.java_traces := [];
              StackTraceElements.stack_depth := None |}).
  - cbn. unfold INT_MAX. lia.
  - discriminate.
  - reflexivity.
  - intros i Hi. destruct i as [|[|i]]; [reflexivity | reflexivity |].
    cbn in Hi. lia.
Defined.

(** ** Throwing a new exception that wraps the pending one *)

Section WrappedFacts.

Import Wrapped.

Variable FindClass : string -> Z + Z.
Variable AllocObject : Z -> Z + Z.
Variable ThrowNew : Z -> string -> Z -> Z * Z.
Variable IsStarted : bool.
Variable PrettyTypeOf : Z -> string.

Local Abbreviation Throw :=
  (ThrowNewWrappedException FindClass AllocObject ThrowNew IsStarted PrettyTypeOf).

(** A class descriptor is [L], the JNI-style name, [;]. *)
Local Abbreviation descriptor_of name :=
  (String char_L (String.append name (String char_semicolon EmptyString))).

Lemma descriptor_converted (name : string) :
  last_char (String.append name (String char_semicolon EmptyString))
  = Some char_semicolon
  /\ erase_last (String.append name (String char_semicolon EmptyString)) = name.
Proof.
  induction name as [|c rest [IHl IHe]]; [split; reflexivity|].
  cbn [String.append].
  destruct (String.append rest (String char_semicolon EmptyString)) as [|c' rest'] eqn:E.
  - destruct rest; discriminate.
  - split.
    + change (last_char (String c (String c' rest')))
        with (last_char (String c' rest')).
      exact IHl.
    + change (erase_last (String c (String c' rest')))
        with (String c (erase_last (String c' rest'))).
      now rewrite IHe.
Qed.

(** X29. [Thread::ThrowNewWrappedException] with the descriptor
    [L<name>;] looks up the class [<name>], the pending exception
    cleared. The class found, in a started runtime the exception that
    was pending is handed to [ThrowNew] as the cause of the new one,
    and the call returns if [ThrowNew] succeeds; in a runtime that is
    not started the exception object is allocated without its
    constructor, given the message and made pending, and the exception
    that was pending is dropped. A descriptor that does not start with
    [L] ends the process before any JNI call, the pending exception
    untouched. *)
Theorem ThrowNewWrappedException_wraps (name msg : string) (s : WState) :
  (forall class left_pending,
     FindClass name = inl class ->
     IsStarted = true ->
     ThrowNew class msg (pending s) = (0, left_pending) ->
     Throw (descriptor_of name) msg s
     = (Ok tt, {| pending := left_pending;
                  wevents := wevents s
                             ++ [WFindClass name; WThrowNew class msg (pending s)];
                  wlog := wlog s |}))
  /\ (forall class exception,
        FindClass name = inl class ->
        IsStarted = false ->
        AllocObject class = inl exception ->
        Throw (descriptor_of name) msg s
        = (Ok tt, {| pending := exception;
                     wevents := wevents s
                                ++ [WFindClass name; WAllocObject class;
                                    WSetDetailMessage exception msg];
                     wlog := wlog s |}))
  /\ (forall first rest,
        first <> char_L ->
        Throw (String first rest) msg s
        = (Abort,
           {| pending := pending s; wevents := wevents s;
              wlog := wlog s
                      ++ [(FATAL,
                           [Str "Check failed: 'L' == exception_class_descriptor[0]"])] |})).
Proof.
  destruct (descriptor_converted name) as [Hlast Herase].
  destruct s as [e ev lg]. cbn [pending wevents wlog].
  split; [|split].
  - intros class left_pending Hfind Hstarted Hthrow.
    unfold ThrowNewWrappedException.
    change (Ascii.eqb char_L char_L) with true. cbn [negb].
    rewrite Hlast, Herase. cbn [is_char].
    change (Ascii.eqb char_semicolon char_semicolon) with true. cbn [negb].
    unfold wemit, set_pending, bind, get, modify, ret.
    cbn [pending wevents wlog]. rewrite Hfind, Hstarted. cbn [negb].
    cbn [pending wevents wlog]. rewrite Hthrow. cbn [Z.eqb negb].
    now rewrite <- app_assoc.
  - intros class exception Hfind Hstarted Halloc.
    unfold ThrowNewWrappedException.
    change (Ascii.eqb char_L char_L) with true. cbn [negb].
    rewrite Hlast, Herase. cbn [is_char].
    change (Ascii.eqb char_semicolon char_semicolon) with true. cbn [negb].
    unfold wemit, set_pending, bind, get, modify, ret.
    cbn [pending wevents wlog]. rewrite Hfind, Hstarted. cbn [negb].
    cbn [pending wevents wlog]. rewrite Halloc.
    cbn [pending wevents wlog]. now rewrite <- !app_assoc.
  - intros first rest Hfirst.
    unfold ThrowNewWrappedException.
    replace (Ascii.eqb first char_L) with false
      by (symmetry; now apply Ascii.eqb_neq).
    reflexivity.
Qed.

End WrappedFacts.

(** Witness of [ThrowNewWrappedException_wraps]: an [IOException]
    thrown while the exception at 777 is pending. *)
Lemma ThrowNewWrappedException_wraps_witness :
  Wrapped.ThrowNewWrappedException (fun _ => inl 300) (fun _ => inl 400)
    (fun _ _ _ => (0, 500)) true (fun _ => "java.lang.Object")
    "Ljava/io/IOException;" "disk full"
    {| Wrapped.pending := 777; Wrapped.wevents := []; Wrapped.wlog := [] |}
  = (Ok tt,
     {| Wrapped.pending := 500;
        Wrapped.wevents := [Wrapped.WFindClass "java/io/IOException";
                            Wrapped.WThrowNew 300 "disk full" 777];
        Wrapped.wlog := [] |}).
Proof.
  destruct (ThrowNewWrappedException_wraps (fun _ => inl 300) (fun _ => inl 400)
              (fun _ _ _ => (0, 500)) true (fun _ => "java.lang.Object")
              "java/io/IOException" "disk full"
              {| Wrapped.pending := 777; Wrapped.wevents := []; Wrapped.wlog := [] |})
    as [H _].
  apply (H 300 500); reflexivity.
Defined.

(** Witness of [spill_register_spec]: with the spill mask [0b10100000]
    the vmap offset 1 is the register 7. *)
Lemma spill_register_spec_witness :
  0 <= 7 < 32
  /\ Z.testbit 160 7 = true
  /\ Roots.popcount (Z.to_nat 7) 160 = 1.
Proof.
  apply (spill_register_spec 160 1 7).
  - reflexivity.
  - lia.
Defined.
